(** * Limix getting-started extension: scaffolding and workspace commands

    A shallow embedding of
    [packages/getting-started/src/browser/getting-started-widget.tsx]
    (the welcome widget, the skeleton-content templates and the workspace
    frontend contribution) together with the properties established about
    it.  The services injected by the IDE framework (file service, dialogs,
    workspace service, label provider, URI library) are kept abstract: every
    theorem holds for all of their behaviours, including the ones in which
    they throw. *)

From Stdlib Require Import String Ascii List Bool Arith Lia.
From stdpp Require Import base tactics option list strings.

Local Open Scope string_scope.
Local Open Scope list_scope.

(** ** JavaScript strings

    A JavaScript string is modelled by the [string] of its UTF-8 bytes.  All
    the literals of the source are ASCII. *)

Module Js.

Definition dq : string := String (ascii_of_nat 34) EmptyString.
Definition nl : string := String (ascii_of_nat 10) EmptyString.
Definition backslash : string := String (ascii_of_nat 92) EmptyString.

(** [q [a; b; c]] is [a"b"c]: the parts of a line separated by double quotes. *)
Definition q (parts : list string) : string := String.concat dq parts.

(** The text of a template literal whose lines are [ls], each one ended by a
    line feed. *)
Definition unlines (ls : list string) : string :=
  String.concat "" (map (fun l => l +:+ nl) ls).

(** [!s] is false exactly for the non-empty strings. *)
Definition truthy (s : string) : bool := negb (String.eqb s "").

(** Truthiness of a possibly missing ([undefined]) string argument. *)
Definition truthy_arg (o : option string) : bool :=
  match o with Some s => truthy s | None => false end.

Fixpoint drop_chars (n : nat) (s : string) : string :=
  match n, s with
  | S k, String _ s' => drop_chars k s'
  | _, _ => s
  end.

(** [s.endsWith(suffix)] *)
Definition endsWith (s suffix : string) : bool :=
  (String.length suffix <=? String.length s)%nat &&
  String.eqb (drop_chars (String.length s - String.length suffix) s) suffix.

(** GetSubstitution of ECMA-262 for a match with no capture groups and no
    named groups: in the replacement text [$$] stands for a dollar sign, [$&]
    for the matched text, [$`] for the text before the match and [$'] for the
    text after it; a dollar sign followed by anything else stands for itself. *)
Fixpoint GetSubstitution (matched before after replacement : string) : string :=
  match replacement with
  | EmptyString => EmptyString
  | String c r =>
      if Ascii.eqb c "$" then
        match r with
        | EmptyString => String c EmptyString
        | String d r' =>
            if Ascii.eqb d "$" then String "$" (GetSubstitution matched before after r')
            else if Ascii.eqb d "&" then matched +:+ GetSubstitution matched before after r'
            else if Ascii.eqb d "`" then before +:+ GetSubstitution matched before after r'
            else if Ascii.eqb d "'" then after +:+ GetSubstitution matched before after r'
            else String c (GetSubstitution matched before after r)
        end
      else String c (GetSubstitution matched before after r)
  end.

(** The scan of [str.replace(/pat/g, replacement)] for a regular expression
    that matches the non-empty literal text [pat]: [s] is what is left of
    [str] from position [pos] on, and [skip] counts the characters of the last
    match still to be passed over.  Matches are found from left to right and
    do not overlap; each is replaced by its GetSubstitution, computed on the
    original [str]. *)
Fixpoint replace_scan (pat replacement str : string) (skip pos : nat) (s : string) : string :=
  match s with
  | EmptyString => EmptyString
  | String c s' =>
      match skip with
      | S k => replace_scan pat replacement str k (S pos) s'
      | O =>
          if String.prefix pat s then
            GetSubstitution pat (String.substring 0 pos str)
              (drop_chars (pos + String.length pat) str) replacement
            +:+ replace_scan pat replacement str (String.length pat - 1) (S pos) s'
          else String c (replace_scan pat replacement str 0 (S pos) s')
      end
  end.

(** [str.replace(/pat/g, replacement)] *)
Definition replace_global (pat replacement str : string) : string :=
  replace_scan pat replacement str 0 0 str.

(** Plain substitution: every occurrence of [pat], found from left to right,
    becomes the text [by_text] itself. *)
Fixpoint substitute_scan (pat by_text : string) (skip : nat) (s : string) : string :=
  match s with
  | EmptyString => EmptyString
  | String c s' =>
      match skip with
      | S k => substitute_scan pat by_text k s'
      | O =>
          if String.prefix pat s then
            by_text +:+ substitute_scan pat by_text (String.length pat - 1) s'
          else String c (substitute_scan pat by_text 0 s')
      end
  end.

Definition substitute_all (pat by_text str : string) : string :=
  substitute_scan pat by_text 0 str.

(** Every backslash turned into a slash, one character at a time. *)
Fixpoint slashes (s : string) : string :=
  match s with
  | EmptyString => EmptyString
  | String c s' =>
      String (if Ascii.eqb c (ascii_of_nat 92) then "/"%char else c) (slashes s')
  end.

Fixpoint contains_char (c : ascii) (s : string) : bool :=
  match s with
  | EmptyString => false
  | String d s' => Ascii.eqb c d || contains_char c s'
  end.

End Js.

(** ** The skeleton-content module *)

Module Skeleton.
Import Js.

Definition anchorTomlContent : string :=
  unlines
   ["[programs.localnet]";
    q ["{folderName} = "; "replace_with_actual_program_id"; ""];
    "";
    "[provider]";
    q ["cluster = "; "localnet"; ""];
    q ["wallet = "; "~/.config/solana/id.json"; ""];
    "";
    "[scripts]";
    q ["test = "; "anchor test --skip-build"; ""];
    "";
    "[idl]";
    q ["format = "; "json"; ""]].

Definition cargoTomlContent : string :=
  unlines
   ["[package]";
    q ["name = "; "{folderName}"; ""];
    q ["version = "; "0.1.0"; ""];
    q ["edition = "; "2021"; ""];
    "";
    "[dependencies]";
    q ["anchor-lang = "; "0.28.0"; ""];
    q ["solana-program = "; "1.11.0"; ""];
    "";
    "[lib]";
    q ["crate-type = ["; "cdylib"; ", "; "lib"; "]"];
    "";
    "[features]";
    "no-entrypoint = []"].

Definition programRsContent : string :=
  unlines
   ["use anchor_lang::prelude::*;";
    "";
    q ["declare_id!("; "replace_with_actual_program_id"; ");"];
    "";
    "#[program]";
    "pub mod {folderName} {";
    "    use super::*;";
    "";
    "    pub fn initialize(ctx: Context<Initialize>) -> Result<()> {";
    "        let base_account = &mut ctx.accounts.base_account;";
    "        base_account.data = 0;";
    "        Ok(())";
    "    }";
    "";
    "    pub fn increment(ctx: Context<Increment>) -> Result<()> {";
    "        let base_account = &mut ctx.accounts.base_account;";
    "        base_account.data += 1;";
    "        Ok(())";
    "    }";
    "}";
    "";
    "#[derive(Accounts)]";
    "pub struct Initialize<'info> {";
    "    #[account(init, payer = user, space = 8 + 8)]";
    "    pub base_account: Account<'info, BaseAccount>,";
    "    #[account(mut)]";
    "    pub user: Signer<'info>,";
    "    pub system_program: Program<'info, System>,";
    "}";
    "";
    "#[derive(Accounts)]";
    "pub struct Increment<'info> {";
    "    #[account(mut)]";
    "    pub base_account: Account<'info, BaseAccount>,";
    "}";
    "";
    "#[account]";
    "pub struct BaseAccount {";
    "    pub data: u64;";
    "}"].

Definition testTsContent : string :=
  unlines
   [q ["import * as anchor from "; "@coral-xyz/anchor"; ";"];
    q ["import { Program } from "; "@coral-xyz/anchor"; ";"];
    q ["import { {folderName} } from "; "../target/types/{folderName}"; ";"];
    q ["import { assert } from "; "chai"; ";"];
    "";
    q ["describe("; "{folderName} program"; ", () => {"];
    "  const provider = anchor.AnchorProvider.env();";
    "  anchor.setProvider(provider);";
    "  const program = anchor.workspace.{folderName} as Program<{folderName}>;";
    "";
    "  let baseAccount = anchor.web3.Keypair.generate();";
    "";
    q ["  it("; "Initializes the account"; ", async () => {"];
    "    await program.methods.initialize().accounts({";
    "      baseAccount: baseAccount.publicKey,";
    "      user: provider.wallet.publicKey,";
    "      systemProgram: anchor.web3.SystemProgram.programId,";
    "    }).signers([baseAccount]).rpc();";
    "";
    "    const account = await program.account.baseAccount.fetch(baseAccount.publicKey);";
    "    assert.equal(account.data.toNumber(), 0);";
    "  });";
    "";
    q ["  it("; "Increments the account data"; ", async () => {"];
    "    await program.methods.increment().accounts({";
    "      baseAccount: baseAccount.publicKey,";
    "    }).rpc();";
    "";
    "    const account = await program.account.baseAccount.fetch(baseAccount.publicKey);";
    "    assert.equal(account.data.toNumber(), 1);";
    "  });";
    "});"].


(** The placeholder that [/{folderName}/g] matches. *)
Definition placeholder : string := "{folderName}".

End Skeleton.

(** ** More of the JavaScript library: percent-encoding, JSON, Set *)

Module JsLib.
Import Js.

Definition hex_digit (upper : bool) (n : nat) : ascii :=
  if (n <? 10)%nat then ascii_of_nat (48 + n)
  else ascii_of_nat ((if upper then 55 else 87) + n).

Definition hex2 (upper : bool) (c : ascii) : string :=
  let n := nat_of_ascii c in
  String (hex_digit upper (n / 16)) (String (hex_digit upper (n mod 16)) EmptyString).

Definition is_alnum (c : ascii) : bool :=
  let n := nat_of_ascii c in
  ((48 <=? n) && (n <=? 57) || (65 <=? n) && (n <=? 90) || (97 <=? n) && (n <=? 122))%nat.

(** The characters [encodeURIComponent] leaves alone: letters, digits and
    [- _ . ! ~ * ' ( )]. *)
Definition uri_unreserved (c : ascii) : bool :=
  is_alnum c || contains_char c "-_.!~*'()".

(** [encodeURIComponent(s)]: every other byte of the UTF-8 form of [s]
    becomes [%XX] with upper-case hexadecimal digits. *)
Fixpoint encodeURIComponent (s : string) : string :=
  match s with
  | EmptyString => EmptyString
  | String c s' =>
      if uri_unreserved c then String c (encodeURIComponent s')
      else "%" +:+ hex2 true c +:+ encodeURIComponent s'
  end.

(** QuoteJSONString of ECMA-262. *)
Definition QuoteJSONChar (c : ascii) : string :=
  let n := nat_of_ascii c in
  if (n =? 8)%nat then backslash +:+ "b"
  else if (n =? 9)%nat then backslash +:+ "t"
  else if (n =? 10)%nat then backslash +:+ "n"
  else if (n =? 12)%nat then backslash +:+ "f"
  else if (n =? 13)%nat then backslash +:+ "r"
  else if (n =? 34)%nat then backslash +:+ dq
  else if (n =? 92)%nat then backslash +:+ backslash
  else if (n <? 32)%nat then backslash +:+ "u00" +:+ hex2 false c
  else String c EmptyString.

Fixpoint QuoteJSONBody (s : string) : string :=
  match s with
  | EmptyString => EmptyString
  | String c s' => QuoteJSONChar c +:+ QuoteJSONBody s'
  end.

Definition QuoteJSONString (s : string) : string := dq +:+ QuoteJSONBody s +:+ dq.

(** The JSON values that the workspace file is made of. *)
#[local] Set Warnings "-register-all".
Inductive JSON :=
  | JString (s : string)
  | JArray (items : list JSON)
  | JObject (members : list (string * JSON)).

(** SerializeJSONProperty, SerializeJSONArray and SerializeJSONObject of
    ECMA-262, with the current indentation [indent] and the unit [gap]. *)
Fixpoint SerializeJSON (gap indent : string) (v : JSON) : string :=
  let stepback := indent in
  let indent := indent +:+ gap in
  let wrap (opening closing : string) (partial : list string) : string :=
    match partial with
    | [] => opening +:+ closing
    | _ =>
        if String.eqb gap "" then opening +:+ String.concat "," partial +:+ closing
        else opening +:+ nl +:+ indent
             +:+ String.concat ("," +:+ nl +:+ indent) partial
             +:+ nl +:+ stepback +:+ closing
    end in
  match v with
  | JString s => QuoteJSONString s
  | JArray items => wrap "[" "]" (map (SerializeJSON gap indent) items)
  | JObject members =>
      wrap "{" "}"
        (map (fun m => QuoteJSONString (fst m) +:+ ":"
                       +:+ (if String.eqb gap "" then "" else " ")
                       +:+ SerializeJSON gap indent (snd m)) members)
  end.

Fixpoint spaces (n : nat) : string :=
  match n with O => EmptyString | S k => String " " (spaces k) end.

(** [JSON.stringify(v, null, space)] for a numeric [space]. *)
Definition JSON_stringify (v : JSON) (space : nat) : string :=
  SerializeJSON (spaces (Nat.min 10 space)) "" v.

(** [new Set(values)]: a set keeps its members in insertion order, and adding
    a member that is already there changes nothing. *)
Definition Set_add (s : list string) (x : string) : list string :=
  if bool_decide (x ∈ s) then s else s ++ [x].

Definition Set_new (values : list string) : list string :=
  fold_left Set_add values [].

(** The text of a workspace file, written out: one member per line, each
    level indented by four more spaces.  [quoted] are the string literals of
    the folder paths, as they stand in the file. *)
Definition folder_entry_text (quoted : string) : string :=
  "{" +:+ nl +:+ spaces 12 +:+ q [""; "path"; ": "] +:+ quoted
  +:+ nl +:+ spaces 8 +:+ "}".

Definition workspace_file_text (quoted : list string) : string :=
  match quoted with
  | [] => "{" +:+ nl +:+ spaces 4 +:+ q [""; "folders"; ": []"] +:+ nl +:+ "}"
  | _ =>
      "{" +:+ nl +:+ spaces 4 +:+ q [""; "folders"; ": ["] +:+ nl
      +:+ spaces 8
      +:+ String.concat ("," +:+ nl +:+ spaces 8) (map folder_entry_text quoted)
      +:+ nl +:+ spaces 4 +:+ "]" +:+ nl +:+ "}"
  end.

End JsLib.

(** ** Reading a JSON string literal

    The grammar of RFC 8259 for a string: a double quote, then characters
    other than the double quote, the backslash and the control characters, or
    escapes, then a double quote.  An escape is a backslash followed by a
    double quote, a backslash, a slash, one of the letters b, f, n, r, t, or
    the letter u and four hexadecimal digits.  A text is a string of bytes
    here, so an escape of four digits is read when it names one of the first
    128 characters. *)

Module JsonText.

Definition hex_digit_value (c : ascii) : option nat :=
  let n := nat_of_ascii c in
  if ((48 <=? n) && (n <=? 57))%nat then Some (n - 48)%nat
  else if ((65 <=? n) && (n <=? 70))%nat then Some (n - 55)%nat
  else if ((97 <=? n) && (n <=? 102))%nat then Some (n - 87)%nat
  else None.

Definition hex4_value (a b c d : ascii) : option nat :=
  match hex_digit_value a, hex_digit_value b, hex_digit_value c, hex_digit_value d with
  | Some a, Some b, Some c, Some d => Some (((a * 16 + b) * 16 + c) * 16 + d)%nat
  | _, _, _, _ => None
  end.

(** The character that a one-letter escape stands for. *)
Definition escape_value (e : ascii) : option ascii :=
  let n := nat_of_ascii e in
  if (n =? 34)%nat then Some (ascii_of_nat 34)
  else if (n =? 92)%nat then Some (ascii_of_nat 92)
  else if (n =? 47)%nat then Some (ascii_of_nat 47)
  else if (n =? 98)%nat then Some (ascii_of_nat 8)
  else if (n =? 102)%nat then Some (ascii_of_nat 12)
  else if (n =? 110)%nat then Some (ascii_of_nat 10)
  else if (n =? 114)%nat then Some (ascii_of_nat 13)
  else if (n =? 116)%nat then Some (ascii_of_nat 9)
  else None.

(** What stands after the opening quote, up to the closing quote, which has
    to be the end of the text. *)
Fixpoint json_read (s : string) : option string :=
  match s with
  | EmptyString => None
  | String c r =>
      let n := nat_of_ascii c in
      if (n =? 34)%nat then match r with EmptyString => Some EmptyString | _ => None end
      else if (n =? 92)%nat then
        match r with
        | String e r1 =>
            if (nat_of_ascii e =? 117)%nat then
              match r1 with
              | String h1 (String h2 (String h3 (String h4 r2))) =>
                  match hex4_value h1 h2 h3 h4 with
                  | Some code =>
                      if (code <? 128)%nat
                      then option_map (String (ascii_of_nat code)) (json_read r2)
                      else None
                  | None => None
                  end
              | _ => None
              end
            else
              match escape_value e with
              | Some x => option_map (String x) (json_read r1)
              | None => None
              end
        | EmptyString => None
        end
      else if (n <? 32)%nat then None
      else option_map (String c) (json_read r)
  end.

(** The string that the literal [s] stands for. *)
Definition json_unquote (s : string) : option string :=
  match s with
  | String c r => if (nat_of_ascii c =? 34)%nat then json_read r else None
  | EmptyString => None
  end.

End JsonText.

(** ** The services of the IDE framework *)

(** Values that a call can throw. *)
Inductive JsError :=
  | TypeError (msg : string)
  | UriError (msg : string)
  | HostError (code : nat).

(** How an awaited call ends. *)
Inductive Outcome (A : Type) :=
  | Returned (a : A)
  | Thrown (e : JsError).
Arguments Returned {A} a.
Arguments Thrown {A} e.

(** [MaybeArray<T>]: one value or an array of them. *)
Inductive MaybeArray (A : Type) :=
  | Single (a : A)
  | Many (l : list A).
Arguments Single {A} a.
Arguments Many {A} l.

Record FileOperationOptions := { overwrite : bool }.

Record OpenFileDialogProps := {
  title : string;
  canSelectFolders : bool;
  canSelectFiles : bool;
  canSelectMany : bool }.

(** The URI class of the framework.  The constructor [new URI(text)] throws
    for a text that is not a URI, as it does for a text without an authority
    whose decoded path starts with two slashes: [URI_new_throws text] is the
    error then, and [URI_new text] is the URI made of a text that is taken.
    The contract commands and [doOpenSmartContract] build their URI from a
    text typed by the user and go through [new_URI] below; the welcome widget
    builds URIs from the texts of the recent workspaces, which the workspace
    service has made from URIs. *)
Class UriLib := {
  URI : Type;
  URI_new : string -> URI;
  URI_new_throws : string -> option JsError;
  URI_toString : URI -> string;
  URI_parent : URI -> URI;
  URI_resolve : URI -> string -> URI;
  URI_path_toString : URI -> string;
  URI_path_base : URI -> string;
  URI_path_fsPath : URI -> string;
  URI_displayName : URI -> string;
  URI_isEqual : URI -> URI -> bool }.

Record FileStat `{UriLib} := {
  resource : URI;
  isDirectory : bool;
  isFile : bool }.

(** The injected services.  [World] is everything they can look at and
    change: the disk, the user in front of the dialogs, the open workspace.
    An awaited call yields an outcome and a new world. *)
Class Host `{UriLib} := {
  World : Type;
  fileService_resolve : option URI -> World -> Outcome FileStat * World;
  fileService_exists : URI -> World -> Outcome bool * World;
  fileService_createFolder : URI -> World -> Outcome FileStat * World;
  fileService_createFile :
    URI -> string -> option FileOperationOptions -> World -> Outcome FileStat * World;
  fileDialogService_showOpenDialog :
    OpenFileDialogProps -> option FileStat -> World -> Outcome (option (MaybeArray URI)) * World;
  fileDialogService_showSaveDialog : World -> Outcome (option URI) * World;
  saveService_confirmOverwrite : URI -> World -> Outcome bool * World;
  workspaceService_roots : World -> Outcome (list FileStat) * World;
  workspaceService_workspace : World -> option FileStat;
  workspaceService_open : URI -> World -> World;
  workspaceService_save : URI -> World -> Outcome unit * World;
  workspaceService_getUntitledWorkspace : World -> Outcome URI * World;
  workspaceFileService_getWorkspaceFileExtensions : World -> list string;
  workspaceFileService_defaultFileTypeIndex : World -> nat;
  labelProvider_getLongName : URI -> string;
  Path_tildify : string -> string -> string;
  nls_localizeByDefault : string -> list string -> string;
  OPEN_FOLDER_dialogLabel : string }.

(** ** Commands, observable events and the monad of asynchronous code *)

Section Model.
Context {uri_lib : UriLib} {host : Host}.
Import Js JsLib Skeleton.

(** The commands of [WorkspaceCommands] that the scaffolding uses, with the
    arguments given to [executeCommand]; an argument left out is [None]. *)
Inductive Command :=
  | NEW_CONTRACT_FOLDER (targetDirectory folderName : option string) (uri : option URI)
  | NEW_CONTRACT_FILE (targetDirectory : option string) (fileName content : string)
      (uri : option URI)
  | OPEN_SMART_CONTRACT (folderLink : string).

Inductive ConsoleLevel := console_log | console_warn | console_error.

Inductive LogArg :=
  | LStr (s : string)
  | LErr (e : JsError)
  | LUri (u : option URI)
  | LUris (us : option (MaybeArray URI)).

(** What a run does that can be seen from outside: every call into a service
    with the way it ended, and every line written to the console. *)
Inductive Event :=
  | Console (level : ConsoleLevel) (args : list LogArg)
  | ExecuteCommand (c : Command)
  | Resolve (u : option URI) (r : Outcome FileStat)
  | Exists (u : URI) (r : Outcome bool)
  | CreateFolder (u : URI) (r : Outcome FileStat)
  | CreateFile (u : URI) (content : string) (options : option FileOperationOptions)
      (r : Outcome FileStat)
  | FireCreateNewFile (parent : option URI) (uri : URI)
  | Roots (r : Outcome (list FileStat))
  | ShowOpenDialog (props : OpenFileDialogProps) (folder : option FileStat)
      (r : Outcome (option (MaybeArray URI)))
  | ShowSaveDialog (r : Outcome (option URI))
  | ConfirmOverwrite (u : URI) (r : Outcome bool)
  | GetUntitledWorkspace (r : Outcome URI)
  | WorkspaceOpen (u : URI)
  | WorkspaceSave (u : URI) (r : Outcome unit)
  | MessageError (msg : string).

Record Result (A : Type) := mkResult {
  outcome : Outcome A;
  world : World;
  events : list Event }.
Arguments mkResult {A} outcome world events.
Arguments outcome {A} r.
Arguments world {A} r.
Arguments events {A} r.

(** An asynchronous computation: run in a world, it ends by returning or
    throwing, leaves a world and a list of events behind. *)
Definition M (A : Type) : Type := World -> Result A.

Definition ret {A} (a : A) : M A := fun w => mkResult (Returned a) w [].

Definition throw {A} (e : JsError) : M A := fun w => mkResult (Thrown e) w [].

(** The events [evs] followed by the run [r]. *)
Definition after {A} (evs : list Event) (r : Result A) : Result A :=
  match r with
  | mkResult o w evs' => mkResult o w (evs ++ evs')
  end.

Definition bind {A B} (m : M A) (f : A -> M B) : M B :=
  fun w =>
    match m w with
    | mkResult (Returned a) w' evs => after evs (f a w')
    | mkResult (Thrown e) w' evs => mkResult (Thrown e) w' evs
    end.

(** [try { m } catch (error) { handler error }] *)
Definition try_catch {A} (m : M A) (handler : JsError -> M A) : M A :=
  fun w =>
    match m w with
    | mkResult (Returned a) w' evs => mkResult (Returned a) w' evs
    | mkResult (Thrown e) w' evs => after evs (handler e w')
    end.

Definition emit (ev : Event) : M unit := fun w => mkResult (Returned tt) w [ev].

(** An awaited call into a service, recorded with its outcome. *)
Definition call {A} (op : World -> Outcome A * World) (record : Outcome A -> Event) : M A :=
  fun w => match op w with (o, w') => mkResult o w' [record o] end.

Definition read {A} (get : World -> A) : M A := fun w => mkResult (Returned (get w)) w [].

Declare Scope async_scope.
Notation "x <- m ;; k" := (bind m (fun x => k))
  (at level 100, m at next level, k at level 200, right associativity) : async_scope.
Notation "m ;; k" := (bind m (fun _ => k))
  (at level 100, k at level 200, right associativity) : async_scope.
Local Open Scope async_scope.

(** [Promise.all(ms)]: all the calls are started, in order; the result is the
    array of their values, or the first failure. *)
Fixpoint Promise_all {A} (ms : list (M A)) : M (list A) :=
  match ms with
  | [] => ret []
  | m :: ms' =>
      fun w =>
        match m w with
        | mkResult o w' evs =>
            match Promise_all ms' w' with
            | mkResult os w'' evs' =>
                mkResult
                  (match o, os with
                   | Returned a, Returned l => Returned (a :: l)
                   | Thrown e, _ => Thrown e
                   | Returned _, Thrown e => Thrown e
                   end)
                  w'' (evs ++ evs')
            end
        end
  end.

Definition console (level : ConsoleLevel) (args : list LogArg) : M unit :=
  emit (Console level args).

Definition resolve (u : option URI) : M FileStat :=
  call (fileService_resolve u) (Resolve u).

Definition exists_ (u : URI) : M bool :=
  call (fileService_exists u) (Exists u).

Definition createFolder (u : URI) : M FileStat :=
  call (fileService_createFolder u) (CreateFolder u).

Definition createFile (u : URI) (content : string) (options : option FileOperationOptions)
  : M FileStat :=
  call (fileService_createFile u content options) (CreateFile u content options).

Definition fireCreateNewFile (parent : option URI) (uri : URI) : M unit :=
  emit (FireCreateNewFile parent uri).

(** [this.workspaceService.open(uri)]: started and not awaited. *)
Definition workspaceService_open_ (u : URI) : M unit :=
  fun w => mkResult (Returned tt) (workspaceService_open u w) [WorkspaceOpen u].

(** ** The workspace frontend contribution *)

Definition getParent (candidate : option URI) : M (option FileStat) :=
  try_catch
    (match candidate with
     | Some c => stat <- resolve (Some (URI_parent c)) ;; ret (Some stat)
     | None => throw (TypeError "Cannot read properties of undefined (reading 'parent')")
     end)
    (fun _ => ret None).

Definition getDirectory (candidate : option URI) : M (option FileStat) :=
  stat <- try_catch (s <- resolve candidate ;; ret (Some s)) (fun _ => ret None) ;;
  match stat with
  | Some s => if isDirectory s then ret (Some s) else getParent candidate
  | None => getParent candidate
  end.

(** [new URI(text)] *)
Definition new_URI (text : string) : Outcome URI :=
  match URI_new_throws text with
  | Some error => Thrown error
  | None => Returned (URI_new text)
  end.

(** An expression that is evaluated where it stands, without a call into a
    service: it gives a value or throws. *)
Definition eval {A} (o : Outcome A) : M A := fun w => mkResult o w [].

(** The text that both contract commands and [doOpenSmartContract] give to
    [new URI]: [`file:///${encodeURIComponent(directory.replace(/\\/g, '/'))}`] *)
Definition uri_text (directory : string) : string :=
  "file:///" +:+ encodeURIComponent (replace_global backslash "/" directory).

(** The parent directory of both contract commands:
    [targetDirectory ? new URI(`file:///${encodeURIComponent(targetDirectory.replace(/\\/g, '/'))}`) : uri] *)
Definition parentUri (targetDirectory : option string) (uri : option URI)
  : Outcome (option URI) :=
  match targetDirectory with
  | Some d =>
      if truthy d
      then match new_URI (uri_text d) with
           | Returned parentUri => Returned (Some parentUri)
           | Thrown error => Thrown error
           end
      else Returned uri
  | None => Returned uri
  end.

(** [folderName || 'Untitled'] *)
Definition or_Untitled (folderName : option string) : string :=
  match folderName with
  | Some n => if truthy n then n else "Untitled"
  | None => "Untitled"
  end.

(** The handler registered for [WorkspaceCommands.NEW_CONTRACT_FOLDER]. *)
Definition execute_NEW_CONTRACT_FOLDER
    (targetDirectory folderName : option string) (uri : option URI) : M unit :=
  try_catch
    (parentUri <- eval (parentUri targetDirectory uri) ;;
     parent <- getDirectory parentUri ;;
     match parent with
     | Some parent =>
         let folderUri := URI_resolve (resource parent) (or_Untitled folderName) in
         console console_log [LStr "folderUri ->"; LStr (URI_toString folderUri)] ;;
         _ <- createFolder folderUri ;;
         fireCreateNewFile parentUri folderUri ;;
         console console_log [LStr "Folder successfully created at:";
                              LStr (URI_toString folderUri)]
     | None =>
         console console_warn [LStr "Parent directory could not be found or is invalid."]
     end)
    (fun error => console console_error [LStr "Error creating folder:"; LErr error]).

(** The handler registered for [WorkspaceCommands.NEW_CONTRACT_FILE]. *)
Definition execute_NEW_CONTRACT_FILE
    (targetDirectory : option string) (fileName content : string) (uri : option URI)
  : M unit :=
  try_catch
    (parentUri <- eval (parentUri targetDirectory uri) ;;
     console console_log
       [LStr "targetDirectory ->";
        match targetDirectory with Some d => LStr d | None => LStr "undefined" end] ;;
     parentUriText <-
       match parentUri with
       | Some u => ret (URI_toString u)
       | None => throw (TypeError "Cannot read properties of undefined (reading 'toString')")
       end ;;
     console console_log [LStr "parentUri ->"; LStr parentUriText] ;;
     console console_log [LStr "fileName ->"; LStr fileName] ;;
     parent <- getDirectory parentUri ;;
     match parent with
     | Some parent =>
         let fileUri := URI_resolve (resource parent) fileName in
         console console_log [LStr "fileUri ->"; LStr (URI_toString fileUri)] ;;
         let contentBuffer := content in
         _ <- createFile fileUri contentBuffer None ;;
         fireCreateNewFile parentUri fileUri ;;
         console console_log [LStr "File successfully created at:";
                              LStr (URI_toString fileUri)]
     | None =>
         console console_warn [LStr "Parent directory could not be found or is invalid."]
     end)
    (fun error => console console_error [LStr "Error creating file:"; LErr error]).

Definition createMultiRootWorkspace (roots : list FileStat) : M URI :=
  untitledWorkspace <-
    call workspaceService_getUntitledWorkspace GetUntitledWorkspace ;;
  let folders :=
    map (fun path => JObject [("path", JString path)])
        (Set_new (map (fun stat => URI_path_toString (resource stat)) roots)) in
  workspaceStat <-
    createFile untitledWorkspace
      (JSON_stringify (JObject [("folders", JArray folders)]) 4)
      (Some {| overwrite := true |}) ;;
  ret (resource workspaceStat).

Definition getOpenableWorkspaceUri (uris : MaybeArray URI) : M (option URI) :=
  match uris with
  | Many uris =>
      if (length uris <? 2)%nat then ret (uris !! 0%nat)
      else
        stats <- Promise_all (map (fun uri => resolve (Some uri)) uris) ;;
        let foldersToOpen := filter (fun fileStat => isDirectory fileStat = true) stats in
        match foldersToOpen with
        | [folder] => ret (Some (resource folder))
        | _ => u <- createMultiRootWorkspace foldersToOpen ;; ret (Some u)
        end
  | Single uri => ret (Some uri)
  end.

(** [!this.workspaceService.workspace || !openableUri.isEqual(this.workspaceService.workspace.resource)] *)
Definition differs_from_workspace (openableUri : URI) (w : World) : bool :=
  match workspaceService_workspace w with
  | None => true
  | Some workspace => negb (URI_isEqual openableUri (resource workspace))
  end.

(** The end of [doOpenFolder] and of [doOpenSmartContract]. *)
Definition open_if_changed (openableUri : option URI) : M (option URI) :=
  match openableUri with
  | Some openableUri =>
      changed <- read (differs_from_workspace openableUri) ;;
      if changed : bool
      then workspaceService_open_ openableUri ;; ret (Some openableUri)
      else ret None
  | None => ret None
  end.

Definition doOpenFolder : M (option URI) :=
  let props := {| title := OPEN_FOLDER_dialogLabel;
                  canSelectFolders := true;
                  canSelectFiles := false;
                  canSelectMany := true |} in
  roots <- call workspaceService_roots Roots ;;
  let rootStat := roots !! 0%nat in
  targetFolders <-
    call (fileDialogService_showOpenDialog props rootStat) (ShowOpenDialog props rootStat) ;;
  console console_log [LUris targetFolders] ;;
  match targetFolders with
  | Some targetFolders =>
      openableUri <- getOpenableWorkspaceUri targetFolders ;;
      console console_log [LUri openableUri] ;;
      open_if_changed openableUri
  | None => ret None
  end.

Definition doOpenSmartContract (folderLink : string) : M (option URI) :=
  targetFolderUri <- eval (new_URI (uri_text folderLink)) ;;
  console console_log [LUri (Some targetFolderUri)] ;;
  openableUri <- getOpenableWorkspaceUri (Many [targetFolderUri]) ;;
  console console_log [LUri openableUri] ;;
  open_if_changed openableUri.

(** The local variables of [saveWorkspaceAs]. *)
Record SaveVars := {
  selected : option URI;
  exist : bool;
  overwritten : bool }.

(** [`${displayName}${defaultExtension}`] *)
Definition with_default_extension (displayName : string) (extensions : list string)
    (defaultFileTypeIndex : nat) : string :=
  displayName +:+ default "undefined" (extensions !! defaultFileTypeIndex).

(** The URI that is checked and saved for a URI picked in the dialog. *)
Definition workspace_file_uri (picked : URI) (w : World) : URI :=
  let displayName := URI_displayName picked in
  let extensions := workspaceFileService_getWorkspaceFileExtensions w in
  if existsb (fun ext => endsWith displayName ext) extensions then picked
  else URI_resolve (URI_parent picked)
         (with_default_extension displayName extensions
            (workspaceFileService_defaultFileTypeIndex w)).

(** One turn of the [do { ... } while (selected && exist && !overwrite)] loop. *)
Definition saveWorkspaceAs_turn (v : SaveVars) : M SaveVars :=
  picked <- call fileDialogService_showSaveDialog ShowSaveDialog ;;
  match picked with
  | Some picked =>
      target <- read (workspace_file_uri picked) ;;
      exist <- exists_ target ;;
      if exist : bool then
        overwrite <- call (saveService_confirmOverwrite target) (ConfirmOverwrite target) ;;
        ret {| selected := Some target; exist := exist; overwritten := overwrite |}
      else
        ret {| selected := Some target; exist := exist; overwritten := overwritten v |}
  | None =>
      ret {| selected := None; exist := exist v; overwritten := overwritten v |}
  end.

Definition loops_again (v : SaveVars) : bool :=
  match selected v with Some _ => true | None => false end
  && exist v && negb (overwritten v).

(** The loop, run for at most [fuel] turns; [None] when the user is still
    being asked after that many. *)
Fixpoint saveWorkspaceAs_loop (fuel : nat) (v : SaveVars) (w : World)
  : option (Result SaveVars) :=
  match fuel with
  | O => None
  | S fuel' =>
      let r := saveWorkspaceAs_turn v w in
      match outcome r with
      | Thrown e => Some r
      | Returned v' =>
          if loops_again v' then
            option_map (after (events r)) (saveWorkspaceAs_loop fuel' v' (world r))
          else Some r
      end
  end.

(** What follows the loop. *)
Definition saveWorkspaceAs_finish (v : SaveVars) : M bool :=
  match selected v with
  | Some selected =>
      saved <-
        try_catch
          (call (workspaceService_save selected) (WorkspaceSave selected) ;; ret true)
          (fun _ =>
             emit (MessageError
                     (nls_localizeByDefault "Unable to save workspace '{0}'"
                        [URI_path_fsPath selected])) ;;
             ret false) ;;
      ret saved
  | None => ret false
  end.

(** From the end of the loop to the end of [saveWorkspaceAs]. *)
Definition saveWorkspaceAs_end (r : Result SaveVars) : Result bool :=
  match r with
  | mkResult (Returned v) w evs => after evs (saveWorkspaceAs_finish v w)
  | mkResult (Thrown e) w evs => mkResult (Thrown e) w evs
  end.

Definition saveWorkspaceAs (fuel : nat) (w : World) : option (Result bool) :=
  option_map saveWorkspaceAs_end
    (saveWorkspaceAs_loop fuel {| selected := None; exist := false; overwritten := false |} w).

(** [commandRegistry.executeCommand]: the command goes to the handler that
    [registerCommands] registered for it (all three are always enabled), and
    what the handler throws is thrown to the caller. *)
Definition executeCommand (c : Command) : M unit :=
  emit (ExecuteCommand c) ;;
  match c with
  | NEW_CONTRACT_FOLDER targetDirectory folderName uri =>
      execute_NEW_CONTRACT_FOLDER targetDirectory folderName uri
  | NEW_CONTRACT_FILE targetDirectory fileName content uri =>
      execute_NEW_CONTRACT_FILE targetDirectory fileName content uri
  | OPEN_SMART_CONTRACT folderLink =>
      _ <- doOpenSmartContract folderLink ;; ret tt
  end.

(** ** The welcome widget *)

Record GettingStartedWidget := {
  recentWorkspaces : list string;
  home : option string;
  projectName : string;
  blockchain : string;
  language : string;
  isDialogOpen : bool;
  path : string }.

Definition recentLimit : nat := 5.

(** What a link or a button of the widget does when it is activated. *)
Inductive Action :=
  | open_ (uri : URI)
  | doOpenFolder_
  | doOpenRecentWorkspace
  | toggleDialog
  | doCreateContract_ (targetDirectory folderName : string).

Record Link := {
  link_text : string;
  link_onClick : Action }.

Record Button := {
  button_text : string;
  button_disabled : bool;
  button_onClick : Action }.

(** A click reaches the handler of a button only if the button is enabled. *)
Definition click (b : Button) : option Action :=
  if button_disabled b then None else Some (button_onClick b).

Definition buildPaths (this : GettingStartedWidget) (workspaces : list string) : list string :=
  map (fun workspace =>
         let uri := URI_new workspace in
         let pathLabel := labelProvider_getLongName uri in
         if truthy_arg (home this) then Path_tildify pathLabel (default "" (home this))
         else pathLabel)
      workspaces.

Record RecentItem := {
  item_key : nat;
  item_link : Link;
  item_details : string }.

Inductive RecentBody :=
  | RecentContent (content : list RecentItem)
  | NoRecent (before : string) (link : Link) (after : string).

Record RecentSection := {
  recent_body : RecentBody;
  recent_more : option Link }.

Definition renderRecentWorkspaces (this : GettingStartedWidget) : RecentSection :=
  let items := recentWorkspaces this in
  let paths := buildPaths this items in
  let content :=
    imap (fun index item =>
            let uri := URI_new (default "" (items !! index)) in
            {| item_key := index;
               item_link := {| link_text := URI_path_base uri; link_onClick := open_ uri |};
               item_details := item |})
         (take recentLimit paths) in
  let more :=
    if (recentLimit <? length paths)%nat
    then Some {| link_text := nls_localizeByDefault "More..." [];
                 link_onClick := doOpenRecentWorkspace |}
    else None in
  {| recent_body :=
       if (0 <? length items)%nat then RecentContent content
       else NoRecent (nls_localizeByDefault "You have no recent folders," [] +:+ " ")
                     {| link_text := nls_localizeByDefault "open a folder" [];
                        link_onClick := doOpenFolder_ |}
                     (" " +:+ nls_localizeByDefault "to start." []);
     recent_more := more |}.

Record DialogBox := {
  input_projectName : string;
  select_blockchain : string;
  options_blockchain : list string;
  select_language : string;
  options_language : list string;
  input_path : string;
  button_create : Button;
  button_cancel : Button }.

Definition isCreateButtonDisabled (this : GettingStartedWidget) : bool :=
  negb (truthy (projectName this)) || negb (truthy (blockchain this))
  || negb (truthy (language this)).

Definition renderDialogBox (this : GettingStartedWidget) : DialogBox :=
  {| input_projectName := projectName this;
     select_blockchain := blockchain this;
     options_blockchain := [""; "Ethereum"; "Solana"];
     select_language := language this;
     options_language :=
       [""]
       ++ (if String.eqb (blockchain this) "Ethereum" then ["Solidity"] else [])
       ++ (if String.eqb (blockchain this) "Ethereum" then ["Vyper"] else [])
       ++ (if String.eqb (blockchain this) "Solana" then ["Native (Rust)"] else [])
       ++ (if String.eqb (blockchain this) "Solana" then ["Anchor (Rust)"] else [])
       ++ (if String.eqb (blockchain this) "Solana" then ["Seahorse (Python)"] else []);
     input_path := path this;
     button_create :=
       {| button_text := "Create Project";
          button_disabled := isCreateButtonDisabled this;
          button_onClick := doCreateContract_ (path this) (projectName this) |};
     button_cancel :=
       {| button_text := "Cancel";
          button_disabled := false;
          button_onClick := toggleDialog |} |}.

(** [template.replace(/{folderName}/g, folderName)] *)
Definition fill (template folderName : string) : string :=
  replace_global placeholder folderName template.

(** The [try] block of [doCreateContract].  The command registry is the
    injected [commandRegistry.executeCommand]. *)
Definition doCreateContract_try (commandRegistry : Command -> M unit)
    (this : GettingStartedWidget) (targetDirectory folderName : string) : M unit :=
  commandRegistry (NEW_CONTRACT_FOLDER (Some targetDirectory) (Some folderName) None) ;;
  let projectFolderPath := targetDirectory +:+ "/" +:+ folderName in
  let anchorToml := fill anchorTomlContent folderName in
  let cargoToml := fill cargoTomlContent folderName in
  let programRs := fill programRsContent folderName in
  let testTs := fill testTsContent folderName in
  if String.eqb (blockchain this) "Solana" then
    commandRegistry
      (NEW_CONTRACT_FILE (Some projectFolderPath) "Anchor.toml" anchorToml None) ;;
    commandRegistry
      (NEW_CONTRACT_FILE (Some projectFolderPath) "Cargo.toml" cargoToml None) ;;
    commandRegistry (NEW_CONTRACT_FOLDER (Some projectFolderPath) (Some "program") None) ;;
    commandRegistry
      (NEW_CONTRACT_FILE (Some (projectFolderPath +:+ "/program"))
         (folderName +:+ ".rs") programRs None) ;;
    commandRegistry (NEW_CONTRACT_FOLDER (Some projectFolderPath) (Some "tests") None) ;;
    commandRegistry
      (NEW_CONTRACT_FILE (Some (projectFolderPath +:+ "/tests"))
         (folderName +:+ ".ts") testTs None) ;;
    console console_log [LStr "Solana project structure created successfully."] ;;
    commandRegistry (OPEN_SMART_CONTRACT projectFolderPath)
  else ret tt.

(** [doCreateContract]: the handler of the Create Project button. *)
Definition doCreateContract (commandRegistry : Command -> M unit)
    (this : GettingStartedWidget) (targetDirectory folderName : string) : M unit :=
  try_catch
    (doCreateContract_try commandRegistry this targetDirectory folderName)
    (fun error => console console_error [LStr "Error creating contract structure:"; LErr error]).

End Model.

Arguments mkResult {uri_lib host A} outcome world events.
Arguments outcome {uri_lib host A} r.
Arguments world {uri_lib host A} r.
Arguments events {uri_lib host A} r.

(** ** What a percent-encoded text looks like

    Said without the encoder: the characters that stay, the shape of an
    escape, and how an encoded text is read back. *)

Module UriText.
Import Js.






(** The value of a hexadecimal digit. *)
Definition hex_value (c : ascii) : option nat :=
  let n := nat_of_ascii c in
  if ((48 <=? n) && (n <=? 57))%nat then Some (n - 48)
  else if ((65 <=? n) && (n <=? 70))%nat then Some (n - 55)
  else if ((97 <=? n) && (n <=? 102))%nat then Some (n - 87)
  else None.

(** The text that a percent-encoded text stands for: every escape of two
    hexadecimal digits is the byte they name, everything else stays. *)
Fixpoint percent_decode (s : string) : string :=
  match s with
  | EmptyString => EmptyString
  | String c r =>
      match r with
      | String h (String l r'') =>
          match Ascii.eqb c "%", hex_value h, hex_value l with
          | true, Some a, Some b =>
              String (ascii_of_nat (16 * a + b)) (percent_decode r'')
          | _, _, _ => String c (percent_decode r)
          end
      | _ => String c (percent_decode r)
      end
  end.

End UriText.

(** ** A small host to run the model on

    Paths are plain strings, the disk is a list of folders and a list of files
    with their text, and the user is a queue of answers for each dialog. *)

Module TestHost.
Import Js UriText.

(** The text before the last slash and the text after it. *)
Fixpoint split_last_slash (s : string) : option (string * string) :=
  match s with
  | EmptyString => None
  | String c r =>
      match split_last_slash r with
      | Some (dir, base) => Some (String c dir, base)
      | None => if Ascii.eqb c "/" then Some (EmptyString, r) else None
      end
  end.

Definition dirname (s : string) : string :=
  match split_last_slash s with Some (dir, _) => dir | None => s end.

Definition basename (s : string) : string :=
  match split_last_slash s with Some (_, base) => base | None => s end.

#[export] Instance uri_lib : UriLib := {|
  URI := string;
  URI_new := percent_decode;
  URI_new_throws := fun text =>
    if String.prefix "file:////" (percent_decode text)
    then Some (UriError "If a URI does not contain an authority component, then the path component cannot begin with two slash characters")
    else None;
  URI_toString := fun u => u;
  URI_parent := dirname;
  URI_resolve := fun u name => u +:+ "/" +:+ name;
  URI_path_toString := drop_chars 7;
  URI_path_base := basename;
  URI_path_fsPath := drop_chars 7;
  URI_displayName := basename;
  URI_isEqual := String.eqb |}.

Record Disk := {
  folders : list string;
  files : list (string * string);
  locked : list string;
  opened : option string;
  openDialogAnswers : list (option (MaybeArray string));
  saveDialogAnswers : list (option string);
  overwriteAnswers : list bool }.

Definition mem (u : string) (l : list string) : bool := existsb (String.eqb u) l.

Definition folder_stat (u : string) : FileStat :=
  {| resource := u; isDirectory := true; isFile := false |}.

Definition file_stat (u : string) : FileStat :=
  {| resource := u; isDirectory := false; isFile := true |}.

Definition disk_resolve (u : option string) (d : Disk) : Outcome FileStat * Disk :=
  match u with
  | Some u =>
      if mem u (folders d) then (Returned (folder_stat u), d)
      else if mem u (map fst (files d)) then (Returned (file_stat u), d)
      else (Thrown (HostError 404), d)
  | None => (Thrown (TypeError "Cannot read properties of undefined"), d)
  end.

Definition disk_exists (u : string) (d : Disk) : Outcome bool * Disk :=
  (Returned (mem u (folders d) || mem u (map fst (files d))), d).

Definition disk_createFolder (u : string) (d : Disk) : Outcome FileStat * Disk :=
  if mem u (map fst (files d)) then (Thrown (HostError 409), d)
  else
    (Returned (folder_stat u),
     {| folders := if mem u (folders d) then folders d else folders d ++ [u];
        files := files d; locked := locked d; opened := opened d;
        openDialogAnswers := openDialogAnswers d;
        saveDialogAnswers := saveDialogAnswers d;
        overwriteAnswers := overwriteAnswers d |}).

Definition write (u text : string) (fs : list (string * string)) : list (string * string) :=
  List.filter (fun f => negb (String.eqb (fst f) u)) fs ++ [(u, text)].

Definition disk_createFile (u text : string) (options : option FileOperationOptions)
    (d : Disk) : Outcome FileStat * Disk :=
  let replace := match options with Some o => overwrite o | None => false end in
  if mem u (folders d) then (Thrown (HostError 409), d)
  else if mem u (map fst (files d)) && negb replace then (Thrown (HostError 409), d)
  else
    (Returned (file_stat u),
     {| folders := folders d; files := write u text (files d);
        locked := locked d; opened := opened d;
        openDialogAnswers := openDialogAnswers d;
        saveDialogAnswers := saveDialogAnswers d;
        overwriteAnswers := overwriteAnswers d |}).

Definition disk_showOpenDialog (_ : OpenFileDialogProps) (_ : option FileStat) (d : Disk)
  : Outcome (option (MaybeArray string)) * Disk :=
  (Returned (match openDialogAnswers d with a :: _ => a | [] => None end),
   {| folders := folders d; files := files d; locked := locked d; opened := opened d;
      openDialogAnswers := tail (openDialogAnswers d);
      saveDialogAnswers := saveDialogAnswers d;
      overwriteAnswers := overwriteAnswers d |}).

Definition disk_showSaveDialog (d : Disk) : Outcome (option string) * Disk :=
  (Returned (match saveDialogAnswers d with a :: _ => a | [] => None end),
   {| folders := folders d; files := files d; locked := locked d; opened := opened d;
      openDialogAnswers := openDialogAnswers d;
      saveDialogAnswers := tail (saveDialogAnswers d);
      overwriteAnswers := overwriteAnswers d |}).

Definition disk_confirmOverwrite (_ : string) (d : Disk) : Outcome bool * Disk :=
  (Returned (match overwriteAnswers d with a :: _ => a | [] => false end),
   {| folders := folders d; files := files d; locked := locked d; opened := opened d;
      openDialogAnswers := openDialogAnswers d;
      saveDialogAnswers := saveDialogAnswers d;
      overwriteAnswers := tail (overwriteAnswers d) |}).

Definition disk_open (u : string) (d : Disk) : Disk :=
  {| folders := folders d; files := files d; locked := locked d; opened := Some u;
     openDialogAnswers := openDialogAnswers d;
     saveDialogAnswers := saveDialogAnswers d;
     overwriteAnswers := overwriteAnswers d |}.

Definition disk_save (u : string) (d : Disk) : Outcome unit * Disk :=
  if mem u (locked d) then (Thrown (HostError 13), d)
  else
    (Returned tt,
     {| folders := folders d; files := write u "{}" (files d);
        locked := locked d; opened := Some u;
        openDialogAnswers := openDialogAnswers d;
        saveDialogAnswers := saveDialogAnswers d;
        overwriteAnswers := overwriteAnswers d |}).

Definition untitled : string := "file:///home/user/.theia/Untitled-1.theia-workspace".

#[export] Instance host : Host := {|
  World := Disk;
  fileService_resolve := disk_resolve;
  fileService_exists := disk_exists;
  fileService_createFolder := disk_createFolder;
  fileService_createFile := disk_createFile;
  fileDialogService_showOpenDialog := disk_showOpenDialog;
  fileDialogService_showSaveDialog := disk_showSaveDialog;
  saveService_confirmOverwrite := disk_confirmOverwrite;
  workspaceService_roots := fun d => (Returned [], d);
  workspaceService_workspace := fun d => option_map folder_stat (opened d);
  workspaceService_open := disk_open;
  workspaceService_save := disk_save;
  workspaceService_getUntitledWorkspace := fun d => (Returned untitled, d);
  workspaceFileService_getWorkspaceFileExtensions :=
    fun _ => [".theia-workspace"; ".code-workspace"];
  workspaceFileService_defaultFileTypeIndex := fun _ => 0%nat;
  labelProvider_getLongName := drop_chars 7;
  Path_tildify := fun p _ => p;
  nls_localizeByDefault := fun text _ => text;
  OPEN_FOLDER_dialogLabel := "Open Folder" |}.

(** A disk with the folders [folders] and nothing else. *)
Definition disk_of (folders : list string) : Disk :=
  {| folders := folders; files := []; locked := []; opened := None;
     openDialogAnswers := []; saveDialogAnswers := []; overwriteAnswers := [] |}.

(** The folder [file:///w] with a saved workspace file and a text file in it,
    and a user who will give the answers [saves] to the save dialog, [opens]
    to the open dialog and [confirms] to the question whether to replace. *)
Definition desk (opens : list (option (MaybeArray string))) (saves : list (option string))
    (confirms : list bool) : Disk :=
  {| folders := ["file:///w"];
     files := [("file:///w/a.theia-workspace", "{}"); ("file:///w/notes.txt", "")];
     locked := []; opened := None;
     openDialogAnswers := opens; saveDialogAnswers := saves;
     overwriteAnswers := confirms |}.

(** The project form filled in for a project [name] on [chain]. *)
Definition form (name chain framework folder : string) : GettingStartedWidget :=
  {| recentWorkspaces := []; home := None;
     projectName := name; blockchain := chain; language := framework;
     isDialogOpen := true; path := folder |}.

(** [doCreateContract] with the registered handlers, run on a disk. *)
Definition create_project (this : GettingStartedWidget) (d : Disk) : Result unit :=
  doCreateContract executeCommand this (path this) (projectName this) d.

End TestHost.

(** ** What is read from a run *)

Section Observations.
Context {uri_lib : UriLib} {host : Host}.

Definition command_of (ev : Event) : option Command :=
  match ev with ExecuteCommand c => Some c | _ => None end.

(** The commands given to the command registry, in order. *)
Definition commands_of (evs : list Event) : list Command := omap command_of evs.

(** The error with which a call into a service ended, when it threw. *)
Definition thrown_by (ev : Event) : option JsError :=
  match ev with
  | Resolve _ (Thrown e) | Exists _ (Thrown e) | CreateFolder _ (Thrown e)
  | CreateFile _ _ _ (Thrown e) | Roots (Thrown e) | ShowOpenDialog _ _ (Thrown e)
  | ShowSaveDialog (Thrown e) | ConfirmOverwrite _ (Thrown e)
  | GetUntitledWorkspace (Thrown e) | WorkspaceSave _ (Thrown e) => Some e
  | _ => None
  end.



(** The commands [cs] run one after the other, each in the world left by the
    one before: the world at the end and the events of all of them. *)
Fixpoint run_in_order (cs : list Command) (w : World) : World * list Event :=
  match cs with
  | [] => (w, [])
  | c :: cs' =>
      let r := executeCommand c w in
      let rest := run_in_order cs' (world r) in
      (fst rest, events r ++ snd rest)
  end.

(** The commands that create a folder or a file. *)
Definition creates (c : Command) : bool :=
  match c with OPEN_SMART_CONTRACT _ => false | _ => true end.

(** Some command of the run writes a file. *)
Definition writes_template_files (evs : list Event) : Prop :=
  exists targetDirectory fileName content uri,
    NEW_CONTRACT_FILE targetDirectory fileName content uri ∈ commands_of evs.

(** The URI resolves to a directory on the disk [w]. *)
Definition resolves_to_directory (w : World) (uri : URI) : bool :=
  match fst (fileService_resolve (Some uri) w) with
  | Returned stat => isDirectory stat
  | Thrown _ => false
  end.

End Observations.

(** ** Notation for asynchronous code *)

Declare Scope await_scope.
Notation "x <- m ;; k" := (bind m (fun x => k))
  (at level 100, m at next level, k at level 200, right associativity) : await_scope.
Notation "m ;; k" := (bind m (fun _ => k))
  (at level 100, k at level 200, right associativity) : await_scope.

(** ** More that is read from a run *)

Section MoreObservations.
Context {uri_lib : UriLib} {host : Host}.

Definition is_resolve (ev : Event) : bool :=
  match ev with Resolve _ _ => true | _ => false end.

(** A turn of the save dialog in which the user picks [picked], the target
    exists and the user declines to replace it. *)
Definition declined_turn (turn : URI * World) : list Event :=
  let target := workspace_file_uri (fst turn) (snd turn) in
  [ShowSaveDialog (Returned (Some (fst turn)));
   Exists target (Returned true);
   ConfirmOverwrite target (Returned false)].

(** The checks after which a picked target is saved: it does not exist, or it
    exists and the user agrees to replace it. *)
Definition accepted_checks (target : URI) (checks : list Event) : Prop :=
  checks = [Exists target (Returned false)]
  \/ checks = [Exists target (Returned true); ConfirmOverwrite target (Returned true)].

(** The turn that ends [saveWorkspaceAs] with the outcome [o]. *)
Definition last_turn (o : Outcome bool) (evs : list Event) : Prop :=
  (o = Returned false /\ evs = [ShowSaveDialog (Returned None)])
  \/ (exists e, o = Thrown e /\ evs = [ShowSaveDialog (Thrown e)])
  \/ (exists picked w1 e,
        let target := workspace_file_uri picked w1 in
        o = Thrown e
        /\ (evs = [ShowSaveDialog (Returned (Some picked)); Exists target (Thrown e)]
            \/ evs = [ShowSaveDialog (Returned (Some picked)); Exists target (Returned true);
                      ConfirmOverwrite target (Thrown e)]))
  \/ (exists picked w1 checks,
        let target := workspace_file_uri picked w1 in
        accepted_checks target checks
        /\ ((o = Returned true
             /\ evs = ShowSaveDialog (Returned (Some picked)) :: checks
                      ++ [WorkspaceSave target (Returned tt)])
            \/ (exists e,
                  o = Returned false
                  /\ evs = ShowSaveDialog (Returned (Some picked)) :: checks
                           ++ [WorkspaceSave target (Thrown e);
                               MessageError
                                 (nls_localizeByDefault "Unable to save workspace '{0}'"
                                    [URI_path_fsPath target])]))).

End MoreObservations.

(** ** The project form of the welcome widget *)

Module Form.
Section Form.
Context {uri_lib : UriLib} {host : Host}.
Import Js JsLib.

Local Open Scope await_scope.

(** The fields that [handleInputChange] can set. *)
Inductive Field := field_projectName | field_blockchain | field_language | field_path.

(** [this[field] = value] *)
Definition handleInputChange (field : Field) (value : string) (this : GettingStartedWidget)
  : GettingStartedWidget :=
  {| recentWorkspaces := recentWorkspaces this;
     home := home this;
     projectName := match field with field_projectName => value | _ => projectName this end;
     blockchain := match field with field_blockchain => value | _ => blockchain this end;
     language := match field with field_language => value | _ => language this end;
     isDialogOpen := isDialogOpen this;
     path := match field with field_path => value | _ => path this end |}.

Definition toggleDialog (this : GettingStartedWidget) : GettingStartedWidget :=
  {| recentWorkspaces := recentWorkspaces this;
     home := home this;
     projectName := projectName this;
     blockchain := blockchain this;
     language := language this;
     isDialogOpen := negb (isDialogOpen this);
     path := path this |}.

Definition resetContractProperties (this : GettingStartedWidget) : GettingStartedWidget :=
  {| recentWorkspaces := recentWorkspaces this;
     home := home this;
     projectName := "";
     blockchain := "";
     language := "";
     isDialogOpen := isDialogOpen this;
     path := path this |}.

(** [createProject], with the widget it leaves. *)
Definition createProject (this : GettingStartedWidget) : M GettingStartedWidget :=
  console console_log
    [LStr ("Creating project: " +:+ projectName this
           +:+ ", Blockchain: " +:+ blockchain this
           +:+ ", Language: " +:+ language this)] ;;
  ret (resetContractProperties (toggleDialog this)).

(** [openFolderDialog], with the widget it leaves.  The dialog is opened
    without [canSelectMany] and without a folder to start in.  An array has no
    [path], so reading the path of one throws. *)
Definition openFolderDialog (this : GettingStartedWidget) : M GettingStartedWidget :=
  let props := {| title := "Select a Folder";
                  canSelectFolders := true;
                  canSelectFiles := false;
                  canSelectMany := false |} in
  selectedFolder <-
    call (fileDialogService_showOpenDialog props None) (ShowOpenDialog props None) ;;
  match selectedFolder with
  | Some selectedFolder =>
      console console_log [LUris (Some selectedFolder)] ;;
      path <-
        match selectedFolder with
        | Single uri => ret (drop_chars 1 (URI_path_toString uri))
        | Many _ =>
            throw (TypeError "Cannot read properties of undefined (reading 'toString')")
        end ;;
      console console_log [LStr path] ;;
      ret {| recentWorkspaces := recentWorkspaces this;
             home := home this;
             projectName := projectName this;
             blockchain := blockchain this;
             language := language this;
             isDialogOpen := isDialogOpen this;
             path := path |}
  | None => ret this
  end.

End Form.
End Form.

(** ** File names

    The text functions of JavaScript count UTF-16 code units and the
    whitespace class of its regular expressions holds characters outside
    ASCII; both are read off the UTF-8 bytes of the string here. *)

Module JsText.
Import Js.

(** [s.startsWith(prefix)] *)
Definition startsWith (s prefix : string) : bool := String.prefix prefix s.

(** The characters of the class [[\\/]]. *)
Definition is_separator (c : ascii) : bool :=
  Ascii.eqb c "/" || Ascii.eqb c (ascii_of_nat 92).

(** [s.split(/[\\/]/)] *)
Fixpoint split_separators (s : string) : list string :=
  match s with
  | EmptyString => [EmptyString]
  | String c r =>
      if is_separator c then EmptyString :: split_separators r
      else
        match split_separators r with
        | first :: rest => String c first :: rest
        | [] => [String c EmptyString]
        end
  end.

(** The class [\s] of ECMA-262, WhiteSpace and LineTerminator, by the length
    of the UTF-8 form: U+0009 to U+000D and U+0020; U+00A0; U+1680, U+2000 to
    U+200A, U+2028, U+2029, U+202F, U+205F, U+3000 and U+FEFF. *)
Definition is_space1 (a : ascii) : bool :=
  let x := nat_of_ascii a in
  ((9 <=? x) && (x <=? 13) || (x =? 32))%nat.

Definition is_space2 (a b : ascii) : bool :=
  ((nat_of_ascii a =? 194) && (nat_of_ascii b =? 160))%nat.

Definition is_space3 (a b c : ascii) : bool :=
  let x := nat_of_ascii a in
  let y := nat_of_ascii b in
  let z := nat_of_ascii c in
  ((x =? 225) && (y =? 154) && (z =? 128)
   || (x =? 226) && (y =? 128)
      && ((128 <=? z) && (z <=? 138) || (z =? 168) || (z =? 169) || (z =? 175))
   || (x =? 226) && (y =? 129) && (z =? 159)
   || (x =? 227) && (y =? 128) && (z =? 128)
   || (x =? 239) && (y =? 187) && (z =? 191))%nat.

(** [/^\s*$/.test(s)] *)
Fixpoint only_spaces (s : string) : bool :=
  match s with
  | EmptyString => true
  | String a r =>
      if is_space1 a then only_spaces r
      else
        match r with
        | String b r2 =>
            if is_space2 a b then only_spaces r2
            else
              match r2 with
              | String c r3 => if is_space3 a b c then only_spaces r3 else false
              | EmptyString => false
              end
        | EmptyString => false
        end
  end.

(** [/^\s+$/.test(s)] *)
Definition whitespace_only (s : string) : bool := truthy s && only_spaces s.

(** The UTF-16 code units that start at a byte: none at a continuation byte,
    two at the first byte of a character outside the basic plane. *)
Definition code_units (c : ascii) : nat :=
  let x := nat_of_ascii c in
  if (x <? 128)%nat then 1%nat
  else if (x <? 192)%nat then 0%nat
  else if (x <? 240)%nat then 1%nat
  else 2%nat.

(** [s.length] *)
Fixpoint utf16_length (s : string) : nat :=
  match s with
  | EmptyString => 0%nat
  | String c r => (code_units c + utf16_length r)%nat
  end.

(** The first half of a character outside the basic plane whose UTF-8 form
    starts with the byte [c] and goes on with [r]: the high surrogate
    [0xD800 + ((code point - 0x10000) >> 10)], written as the three bytes that
    the UTF-8 scheme gives to a code unit of that value.  It counts as one
    code unit. *)
Definition high_surrogate (c : ascii) (r : string) : string :=
  let b1 := match r with String b _ => nat_of_ascii b | EmptyString => 128%nat end in
  let b2 := match r with String _ (String b _) => nat_of_ascii b | _ => 128%nat end in
  let top := ((nat_of_ascii c - 240) * 256 + (b1 - 128) * 4 + (b2 - 128) / 16 - 64)%nat in
  String (ascii_of_nat 237)
    (String (ascii_of_nat (160 + (top / 64) mod 16))
       (String (ascii_of_nat (128 + top mod 64)) EmptyString)).

(** [s.substring(0, n)]: the first [n] code units.  When the cut falls between
    the two code units of a character outside the basic plane, the first of
    them stays. *)
Fixpoint utf16_prefix (n : nat) (s : string) : string :=
  match s with
  | EmptyString => EmptyString
  | String c r =>
      let u := code_units c in
      if (u =? 0)%nat then String c (utf16_prefix n r)
      else if (u <=? n)%nat then String c (utf16_prefix (n - u) r)
      else if (n =? 0)%nat then EmptyString
      else high_surrogate c r
  end.

End JsText.

(** What the validation of file names takes from outside: the package
    [valid-filename]. *)
Class Platform := {
  validFilename : string -> bool }.

Section FileNames.
Context {uri_lib : UriLib} {host : Host} {platform : Platform}.
Import Js JsLib JsText.
Local Open Scope await_scope.

Definition trimFileName (name : string) : string :=
  if truthy name && (30 <? utf16_length name)%nat
  then utf16_prefix 30 name +:+ "..."
  else name.

(** The test of [validateFileName] on the parts of a nested name:
    [!file || !validFilename(file) || /^\s+$/.test(file)] *)
Definition bad_segment (file : string) : bool :=
  negb (truthy file) || negb (validFilename file) || whitespace_only file.

Definition validateFileName (name : string) (parent : FileStat) (allowNested : bool)
  : M string :=
  if negb (truthy name) then ret ""
  else if negb allowNested && negb (validFilename name) then
    ret (nls_localizeByDefault
           "The name **{0}** is not valid as a file or folder name. Please choose a different name."
           [])
  else if startsWith name "/" then
    ret (nls_localizeByDefault "A file or folder name cannot start with a slash." [])
  else if startsWith name " " || endsWith name " " then
    ret (nls_localizeByDefault
           "Leading or trailing whitespace detected in file or folder name." [])
  else if existsb bad_segment (split_separators name) then
    ret (nls_localizeByDefault "'{0}' is not a valid file name" [trimFileName name])
  else
    let childUri := URI_resolve (resource parent) name in
    exists_there <- exists_ childUri ;;
    if exists_there : bool then
      ret (nls_localizeByDefault
             "A file or folder **{0}** already exists at this location. Please choose a different name."
             [trimFileName name])
    else ret "".

End FileNames.

(** A platform for the runs: names are checked as the package
    [valid-filename] checks them for their characters. *)
Module TestPlatform.
Import Js TestHost.

Definition reserved (c : ascii) : bool :=
  let x := nat_of_ascii c in
  (x <? 32)%nat || contains_char c "<>:/|?*" || (x =? 34)%nat || (x =? 92)%nat.

Fixpoint has_reserved (s : string) : bool :=
  match s with
  | EmptyString => false
  | String c r => reserved c || has_reserved r
  end.

Definition valid_filename (s : string) : bool :=
  truthy s && negb (String.eqb s ".") && negb (String.eqb s "..") && negb (has_reserved s).

#[export] Instance platform : Platform := {|
  validFilename := valid_filename |}.

End TestPlatform.

(** ** Opening files and workspaces, and leaving *)

(** A workspace file type of the workspace file service. *)
Record WorkspaceFileType := {
  fileType_name : string;
  fileType_extension : string }.

(** The properties of the dialog of [doOpenWorkspace], which picks one URI. *)
Record WorkspaceDialogProps := {
  workspace_title : string;
  workspace_canSelectFiles : bool;
  workspace_canSelectFolders : bool;
  workspace_filters : list (string * list string) }.

Inductive StopReason := StopReason_Close | StopReason_Reload | StopReason_Restart.

(** What these commands take from outside besides the services above: the
    platform, the state of the workspace service, the labels of commands and
    dialogs, the function [open] of the opener
    service, the dialog that picks one URI, the workspace file types, and the
    dialog shown when an untitled workspace is left. *)
Class Shell {uri_lib : UriLib} {host : Host} := {
  isOSX : bool;
  isWindows : bool;
  environment_electron_is : bool;
  workspaceService_opened : World -> bool;
  workspaceService_saved : World -> bool;
  COPY_RELATIVE_FILE_PATH_label : option string;
  OPEN_dialogLabel : string;
  OPEN_FILE_dialogLabel : string;
  OPEN_WORKSPACE_dialogLabel : string;
  opener_open : URI -> World -> Outcome unit * World;
  fileDialogService_showOpenDialog_one :
    WorkspaceDialogProps -> option FileStat -> World -> Outcome (option URI) * World;
  workspaceFileService_getWorkspaceFileTypes : World -> list WorkspaceFileType;
  workspaceService_isUntitledWorkspace : URI -> World -> bool;
  workspaceService_isSafeToReload : URI -> World -> Outcome bool * World;
  UntitledWorkspaceExitDialog_open : string -> World -> Outcome (option string) * World }.

Declare Scope shell_scope.

Section Opening.
Context {uri_lib : UriLib} {host : Host} {shell : Shell}.
Import Js JsLib.

(** The events of these commands: the ones above and the calls into the
    services of [Shell]. *)
Inductive ShellEvent :=
  | Core (ev : Event)
  | OpenerOpen (u : URI) (r : Outcome unit)
  | ShowOpenWorkspaceDialog (props : WorkspaceDialogProps) (folder : option FileStat)
      (r : Outcome (option URI))
  | IsSafeToReload (u : URI) (r : Outcome bool)
  | ExitDialogOpen (dialog_title : string) (r : Outcome (option string)).

Record Run (A : Type) := mkRun {
  run_outcome : Outcome A;
  run_world : World;
  run_events : list ShellEvent }.
Arguments mkRun {A} run_outcome run_world run_events.
Arguments run_outcome {A} r.
Arguments run_world {A} r.
Arguments run_events {A} r.

Definition Sh (A : Type) : Type := World -> Run A.

Definition sh_ret {A} (a : A) : Sh A := fun w => mkRun (Returned a) w [].

Definition sh_after {A} (evs : list ShellEvent) (r : Run A) : Run A :=
  match r with
  | mkRun o w evs' => mkRun o w (evs ++ evs')
  end.

Definition sh_bind {A B} (m : Sh A) (f : A -> Sh B) : Sh B :=
  fun w =>
    match m w with
    | mkRun (Returned a) w' evs => sh_after evs (f a w')
    | mkRun (Thrown e) w' evs => mkRun (Thrown e) w' evs
    end.

Definition sh_call {A} (op : World -> Outcome A * World) (record : Outcome A -> ShellEvent)
  : Sh A :=
  fun w => match op w with (o, w') => mkRun o w' [record o] end.

Definition sh_read {A} (get : World -> A) : Sh A := fun w => mkRun (Returned (get w)) w [].

(** A run of the code above, with its events. *)
Definition lift_result {A} (r : Result A) : Run A :=
  match r with
  | mkResult o w evs => mkRun o w (map Core evs)
  end.

Definition lift {A} (m : M A) : Sh A := fun w => lift_result (m w).

Notation "x <- m ;; k" := (sh_bind m (fun x => k))
  (at level 100, m at next level, k at level 200, right associativity) : shell_scope.
Notation "m ;; k" := (sh_bind m (fun _ => k))
  (at level 100, k at level 200, right associativity) : shell_scope.
Local Open Scope shell_scope.

(** [open(this.openerService, uri)] *)
Definition open (uri : URI) : Sh unit := sh_call (opener_open uri) (OpenerOpen uri).

Definition roots_ : Sh (list FileStat) := lift (call workspaceService_roots Roots).

Definition showOpenDialog (props : OpenFileDialogProps) (folder : option FileStat)
  : Sh (option (MaybeArray URI)) :=
  lift (call (fileDialogService_showOpenDialog props folder) (ShowOpenDialog props folder)).

(** [if (!Array.isArray(uris)) { uris = [uris]; }] *)
Definition to_array {A} (uris : MaybeArray A) : list A :=
  match uris with
  | Single uri => [uri]
  | Many uris => uris
  end.

(** [this.getCurrentWorkspaceUri()?.toString() === uri.toString()] *)
Definition is_current_workspace (uri : URI) (w : World) : bool :=
  match workspaceService_workspace w with
  | Some workspace => String.eqb (URI_toString (resource workspace)) (URI_toString uri)
  | None => false
  end.

(** The loop of [doOpenFile] over the URIs left, with the result so far. *)
Fixpoint doOpenFile_loop (uris : list URI) (result : list URI) : Sh (list URI) :=
  match uris with
  | [] => sh_ret result
  | uri :: rest =>
      destination <- lift (resolve (Some uri)) ;;
      if isFile destination then
        open uri ;;
        doOpenFile_loop rest (result ++ [uri])
      else doOpenFile_loop rest result
  end.

Definition doOpenFile : Sh (option (list URI)) :=
  let props := {| title := OPEN_FILE_dialogLabel;
                  canSelectFolders := false;
                  canSelectFiles := true;
                  canSelectMany := true |} in
  roots <- roots_ ;;
  let rootStat := roots !! 0%nat in
  selectedFilesUris <- showOpenDialog props rootStat ;;
  match selectedFilesUris with
  | Some selectedFilesUris =>
      result <- doOpenFile_loop (to_array selectedFilesUris) [] ;;
      sh_ret (Some result)
  | None => sh_ret None
  end.

(** The loop of [doOpen] over the URIs left, with the folders so far. *)
Fixpoint doOpen_loop (uris : list URI) (folders : list URI) : Sh (list URI) :=
  match uris with
  | [] => sh_ret folders
  | uri :: rest =>
      destination <- lift (resolve (Some uri)) ;;
      if isDirectory destination then
        current <- sh_read (is_current_workspace uri) ;;
        if current : bool then doOpen_loop rest folders
        else doOpen_loop rest (folders ++ [uri])
      else
        open uri ;;
        doOpen_loop rest folders
  end.

(** The end of [doOpen]: the folders, when there are any, are opened as one
    workspace unless that is the workspace open already. *)
Definition doOpen_folders (folders : list URI) : M unit :=
  if (0 <? length folders)%nat then
    bind (getOpenableWorkspaceUri (Many folders)) (fun openableURI =>
      match openableURI with
      | Some openableURI =>
          bind (read (differs_from_workspace openableURI)) (fun changed =>
            if changed : bool then workspaceService_open_ openableURI else ret tt)
      | None => ret tt
      end)
  else ret tt.

Definition doOpen : Sh (option (list URI)) :=
  if negb isOSX && environment_electron_is then doOpenFile
  else
    let props := {| title := OPEN_dialogLabel;
                    canSelectFolders := true;
                    canSelectFiles := true;
                    canSelectMany := true |} in
    roots <- roots_ ;;
    let rootStat := roots !! 0%nat in
    selectedUris <- showOpenDialog props rootStat ;;
    match selectedUris with
    | Some selectedUris =>
        let selectedUris := to_array selectedUris in
        folders <- doOpen_loop selectedUris [] ;;
        lift (doOpen_folders folders) ;;
        sh_ret (Some selectedUris)
    | None => sh_ret None
    end.

(** [filters[key] = value] on an object whose keys are not array indices: a
    key that is there keeps its place. *)
Definition object_set {V} (key : string) (value : V) (object : list (string * V))
  : list (string * V) :=
  if existsb (fun member => String.eqb (fst member) key) object
  then map (fun member => if String.eqb (fst member) key then (key, value) else member) object
  else object ++ [(key, value)].

Definition getWorkspaceDialogFileFilters (w : World) : list (string * list string) :=
  fold_left
    (fun filters fileType =>
       object_set
         (nls_localizeByDefault "{0} workspace" [fileType_name fileType]
          +:+ " (*." +:+ fileType_extension fileType +:+ ")")
         [fileType_extension fileType] filters)
    (workspaceFileService_getWorkspaceFileTypes w) [].

Definition doOpenWorkspace : Sh (option URI) :=
  filters <- sh_read getWorkspaceDialogFileFilters ;;
  let props := {| workspace_title := OPEN_WORKSPACE_dialogLabel;
                  workspace_canSelectFiles := true;
                  workspace_canSelectFolders := false;
                  workspace_filters := filters |} in
  roots <- roots_ ;;
  let rootStat := roots !! 0%nat in
  workspaceFileUri <-
    sh_call (fileDialogService_showOpenDialog_one props rootStat)
      (ShowOpenWorkspaceDialog props rootStat) ;;
  match workspaceFileUri with
  | Some workspaceFileUri =>
      current <- sh_read (is_current_workspace workspaceFileUri) ;;
      if current : bool then sh_ret None
      else
        exists_there <- lift (exists_ workspaceFileUri) ;;
        if exists_there : bool then
          lift (workspaceService_open_ workspaceFileUri) ;;
          sh_ret (Some workspaceFileUri)
        else sh_ret None
  | None => sh_ret None
  end.

(** What [onWillStop] returns for an untitled workspace. *)
Record OnWillStopAction := {
  prepare : StopReason -> Sh bool;
  action : nat -> bool -> World -> option (Run bool);
  reason : string;
  priority : nat }.

Definition exit_title : string :=
  nls_localizeByDefault "Do you want to save your workspace configuration as a file?" [].

(** The [action]: [saveWorkspaceAs] is run with the fuel given. *)
Definition onWillStop_action (fuel : nat) (alreadyConfirmedSafe : bool) (w : World)
  : option (Run bool) :=
  if alreadyConfirmedSafe then Some (mkRun (Returned true) w [])
  else
    match UntitledWorkspaceExitDialog_open exit_title w with
    | (Returned shouldSaveFile, w1) =>
        let asked := [ExitDialogOpen exit_title (Returned shouldSaveFile)] in
        match shouldSaveFile with
        | Some answer =>
            if String.eqb answer "Don't Save" then Some (mkRun (Returned true) w1 asked)
            else if String.eqb answer "Save" then
              option_map (fun r => sh_after asked (lift_result r)) (saveWorkspaceAs fuel w1)
            else Some (mkRun (Returned false) w1 asked)
        | None => Some (mkRun (Returned false) w1 asked)
        end
    | (Thrown e, w1) => Some (mkRun (Thrown e) w1 [ExitDialogOpen exit_title (Thrown e)])
    end.

Definition onWillStop (w : World) : option OnWillStopAction :=
  match workspaceService_workspace w with
  | Some workspace =>
      if workspaceService_isUntitledWorkspace (resource workspace) w then
        Some {| prepare := fun reason =>
                  match reason with
                  | StopReason_Reload =>
                      sh_call (workspaceService_isSafeToReload (resource workspace))
                        (IsSafeToReload (resource workspace))
                  | _ => sh_ret false
                  end;
                action := onWillStop_action;
                reason := "Untitled workspace.";
                priority := 100 |}
      else None
  | None => None
  end.

End Opening.

Arguments mkRun {uri_lib host A} run_outcome run_world run_events.
Arguments run_outcome {uri_lib host A} r.
Arguments run_world {uri_lib host A} r.
Arguments run_events {uri_lib host A} r.

(** A shell for the runs: a browser on Linux whose opener refuses the files
    listed as locked. *)
Module TestShell.
Import Js TestHost.

Definition disk_opener (u : string) (d : Disk) : Outcome unit * Disk :=
  if mem u (locked d) then (Thrown (HostError 13), d) else (Returned tt, d).

Definition disk_pick_one (_ : WorkspaceDialogProps) (_ : option FileStat) (d : Disk)
  : Outcome (option string) * Disk :=
  match disk_showOpenDialog
          {| title := ""; canSelectFolders := false; canSelectFiles := true;
             canSelectMany := false |} None d with
  | (Returned (Some (Single u)), d') => (Returned (Some u), d')
  | (Returned _, d') => (Returned None, d')
  | (Thrown e, d') => (Thrown e, d')
  end.

(** The exit dialog takes its answer from the queue of the save dialog. *)
Definition disk_exit_dialog (_ : string) (d : Disk) : Outcome (option string) * Disk :=
  disk_showSaveDialog d.

#[export] Instance shell : Shell := {|
  isOSX := false;
  isWindows := false;
  environment_electron_is := false;
  workspaceService_opened := fun d => match opened d with Some _ => true | None => false end;
  workspaceService_saved := fun d => match opened d with Some _ => true | None => false end;
  COPY_RELATIVE_FILE_PATH_label := Some "Copy Relative Path";
  OPEN_dialogLabel := "Open";
  OPEN_FILE_dialogLabel := "Open File";
  OPEN_WORKSPACE_dialogLabel := "Open Workspace";
  opener_open := disk_opener;
  fileDialogService_showOpenDialog_one := disk_pick_one;
  workspaceFileService_getWorkspaceFileTypes :=
    fun _ => [{| fileType_name := "Theia"; fileType_extension := "theia-workspace" |};
              {| fileType_name := "Visual Studio Code"; fileType_extension := "code-workspace" |}];
  workspaceService_isUntitledWorkspace := fun u _ => String.eqb u untitled;
  workspaceService_isSafeToReload := fun _ d => (Returned false, d);
  UntitledWorkspaceExitDialog_open := disk_exit_dialog |}.

End TestShell.

(** ** What is read from a run of the opening commands *)

Section OpeningObservations.
Context {uri_lib : UriLib} {host : Host} {shell : Shell}.

(** A turn of the loop of [doOpenFile] that ends well: the URI resolves to
    [snd t], and is given to the opener when that is a file. *)
Definition file_turn (t : URI * FileStat) : list ShellEvent :=
  Core (Resolve (Some (fst t)) (Returned (snd t)))
  :: if isFile (snd t) then [OpenerOpen (fst t) (Returned tt)] else [].

(** A turn of the loop of [doOpen] that ends well: what is not a directory
    is given to the opener. *)
Definition open_turn (t : URI * FileStat * World) : list ShellEvent :=
  Core (Resolve (Some (fst (fst t))) (Returned (snd (fst t))))
  :: if isDirectory (snd (fst t)) then [] else [OpenerOpen (fst (fst t)) (Returned tt)].

(** The folders that the loop of [doOpen] keeps: the directories that are
    not the workspace open when they are met. *)
Definition kept_folder (t : URI * FileStat * World) : bool :=
  isDirectory (snd (fst t)) && negb (is_current_workspace (fst (fst t)) (snd t)).

(** The turn in which a loop fails with [e] on [uri]: the URI does not
    resolve, or the opener throws on it. *)
Definition failed_turn (e : JsError) (uri : URI) (evs : list ShellEvent) : Prop :=
  evs = [Core (Resolve (Some uri) (Thrown e))]
  \/ exists stat,
       evs = [Core (Resolve (Some uri) (Returned stat)); OpenerOpen uri (Thrown e)].

(** The calls that open a workspace. *)
Definition opens_workspace (ev : Event) : bool :=
  match ev with WorkspaceOpen _ => true | _ => false end.

End OpeningObservations.

(** ** What is registered: commands, menus, keybindings and the Start section *)

Module WorkspaceCommands.

(** The commands of [WorkspaceCommands] that the file names. *)
Inductive Id :=
  | NEW_FOLDER | NEW_CONTRACT_FOLDER | NEW_CONTRACT_FILE
  | OPEN | OPEN_FILE | OPEN_FOLDER | OPEN_SMART_CONTRACT | OPEN_WORKSPACE
  | CLOSE | OPEN_RECENT_WORKSPACE | SAVE_WORKSPACE_AS | OPEN_WORKSPACE_FILE
  | ADD_FOLDER | SAVE_AS | COPY_RELATIVE_FILE_PATH.

End WorkspaceCommands.

Inductive MenuPath :=
  | FILE_OPEN | FILE_WORKSPACE | FILE_CLOSE | FILE_SAVE | SHELL_TABBAR_CONTEXT_COPY.

Definition same_menu (a b : MenuPath) : bool :=
  match a, b with
  | FILE_OPEN, FILE_OPEN | FILE_WORKSPACE, FILE_WORKSPACE | FILE_CLOSE, FILE_CLOSE
  | FILE_SAVE, FILE_SAVE | SHELL_TABBAR_CONTEXT_COPY, SHELL_TABBAR_CONTEXT_COPY => true
  | _, _ => false
  end.

Record MenuAction := {
  menuPath : MenuPath;
  commandId : WorkspaceCommands.Id;
  label : option string;
  order : option string }.

Record Keybinding := {
  command : WorkspaceCommands.Id;
  keybinding : string;
  when : option string }.

(** What a link of the Start section runs. *)
Inductive StartHandler := start_toggleDialog | start_doOpenFolder | start_doOpenFromGit.

Record StartLink := {
  start_text : string;
  start_onClick : StartHandler;
  (** the handler that the Enter key reaches *)
  start_onEnter : StartHandler }.

Section Registration.
Context {uri_lib : UriLib} {host : Host} {shell : Shell}.
Import WorkspaceCommands.

(** [isOSX || !this.isElectron()] *)
Definition single_open : bool := isOSX || negb environment_electron_is.

(** The commands that [registerCommands] gives a handler to, in order. *)
Definition registerCommands : list Id :=
  [NEW_FOLDER; NEW_CONTRACT_FOLDER; NEW_CONTRACT_FILE; OPEN; OPEN_FILE; OPEN_FOLDER;
   OPEN_SMART_CONTRACT; OPEN_WORKSPACE; CLOSE; OPEN_RECENT_WORKSPACE; SAVE_WORKSPACE_AS;
   OPEN_WORKSPACE_FILE].

(** [isEnabled] of the handler registered for a command; a handler without
    one is always enabled. *)
Definition isEnabled (id : Id) (w : World) : bool :=
  match id with
  | OPEN => isOSX || negb environment_electron_is
  | CLOSE | SAVE_WORKSPACE_AS => workspaceService_opened w
  | OPEN_WORKSPACE_FILE => workspaceService_saved w
  | _ => true
  end.

(** [isVisible] of the handler registered for a command; a handler without
    one is always visible. *)
Definition isVisible (id : Id) (w : World) : bool :=
  match id with
  | OPEN => isOSX || negb environment_electron_is
  | SAVE_WORKSPACE_AS => workspaceService_opened w
  | _ => true
  end.

Definition registerMenus : list MenuAction :=
  (if isOSX || negb environment_electron_is then
     [{| menuPath := FILE_OPEN; commandId := OPEN; label := None; order := Some "a00" |}]
   else [])
  ++ (if negb isOSX && environment_electron_is then
        [{| menuPath := FILE_OPEN; commandId := OPEN_FILE;
            label := Some (OPEN_FILE_dialogLabel +:+ "..."); order := Some "a01" |};
         {| menuPath := FILE_OPEN; commandId := OPEN_FOLDER;
            label := Some (OPEN_FOLDER_dialogLabel +:+ "..."); order := Some "a02" |}]
      else [])
  ++ [{| menuPath := FILE_OPEN; commandId := OPEN_WORKSPACE; label := None;
         order := Some "a10" |};
      {| menuPath := FILE_OPEN; commandId := OPEN_RECENT_WORKSPACE; label := None;
         order := Some "a20" |};
      {| menuPath := FILE_WORKSPACE; commandId := ADD_FOLDER; label := None;
         order := Some "a10" |};
      {| menuPath := FILE_WORKSPACE; commandId := SAVE_WORKSPACE_AS; label := None;
         order := Some "a20" |};
      {| menuPath := FILE_CLOSE; commandId := CLOSE; label := None; order := None |};
      {| menuPath := FILE_SAVE; commandId := SAVE_AS; label := None; order := None |};
      {| menuPath := SHELL_TABBAR_CONTEXT_COPY; commandId := COPY_RELATIVE_FILE_PATH;
         label := COPY_RELATIVE_FILE_PATH_label; order := None |}].

Definition registerKeybindings : list Keybinding :=
  [{| command := if isOSX || negb environment_electron_is then OPEN else OPEN_FILE;
      keybinding := if environment_electron_is then "ctrlcmd+o" else "ctrlcmd+alt+o";
      when := None |}]
  ++ (if negb isOSX && environment_electron_is then
        [{| command := OPEN_FOLDER; keybinding := "ctrl+k ctrl+o"; when := None |}]
      else [])
  ++ [{| command := OPEN_WORKSPACE; keybinding := "ctrlcmd+alt+w"; when := None |};
      {| command := OPEN_RECENT_WORKSPACE; keybinding := "ctrlcmd+alt+r"; when := None |};
      {| command := SAVE_AS; keybinding := "ctrlcmd+shift+s"; when := None |};
      {| command := COPY_RELATIVE_FILE_PATH;
         keybinding := if isWindows then "ctrl+k ctrl+shift+c" else "ctrlcmd+shift+alt+c";
         when := Some "!editorFocus" |}].

(** The command that a handler of the Start section gives to the registry. *)
Definition start_command (h : StartHandler) : option Id :=
  match h with
  | start_toggleDialog => None
  | start_doOpenFolder => Some OPEN_FOLDER
  | start_doOpenFromGit => Some OPEN_FOLDER
  end.

(** The links of [renderStart]. *)
Definition renderStart : list StartLink :=
  let requireSingleOpen := isOSX || negb environment_electron_is in
  [{| start_text := "New Smart Contract";
      start_onClick := start_toggleDialog; start_onEnter := start_toggleDialog |}]
  ++ (if negb requireSingleOpen then
        [{| start_text := nls_localizeByDefault "Open Folder" [];
            start_onClick := start_doOpenFolder; start_onEnter := start_doOpenFolder |}]
      else [])
  ++ (if negb requireSingleOpen then
        [{| start_text := "Import From Git";
            start_onClick := start_doOpenFromGit; start_onEnter := start_doOpenFolder |}]
      else []).

(** The commands of the actions registered under a menu path, in order. *)
Definition menu_commands (path : MenuPath) : list Id :=
  map commandId (List.filter (fun a => same_menu (menuPath a) path) registerMenus).

End Registration.

(** * Properties *)

(** ** Replacement text and substitution *)

Section StringFacts.
Import Js.

Lemma GetSubstitution_plain (matched before after n : string) :
  contains_char "$" n = false ->
  GetSubstitution matched before after n = n.
Proof.
  induction n as [|c n IH]; cbn [contains_char GetSubstitution]; [reflexivity|].
  intros Hn. apply orb_false_iff in Hn as [Hc Hn].
  rewrite Ascii.eqb_sym in Hc. rewrite Hc. f_equal. auto.
Qed.

Lemma replace_scan_plain (pat n str : string) :
  contains_char "$" n = false ->
  forall s skip pos,
    replace_scan pat n str skip pos s = substitute_scan pat n skip s.
Proof.
  intros Hn. induction s as [|c s IH]; intros skip pos;
    cbn [replace_scan substitute_scan]; [reflexivity|].
  destruct skip as [|k]; [|apply IH].
  rewrite !IH, GetSubstitution_plain by assumption. reflexivity.
Qed.

(** A replacement text without a dollar sign is put in as it is. *)
Lemma replace_global_plain (pat n str : string) :
  contains_char "$" n = false ->
  replace_global pat n str = substitute_all pat n str.
Proof. intros Hn. apply replace_scan_plain, Hn. Qed.

Lemma prefix_empty (s : string) : String.prefix "" s = true.
Proof. destruct s; reflexivity. Qed.

Lemma replace_backslashes (d : string) :
  replace_global backslash "/" d = slashes d.
Proof.
  rewrite replace_global_plain by reflexivity.
  unfold substitute_all. induction d as [|c d IH]; [reflexivity|].
  cbn [substitute_scan slashes]. unfold backslash at 1. cbn [String.prefix].
  destruct (ascii_dec (ascii_of_nat 92) c) as [<-|Hne].
  - rewrite prefix_empty. cbn. f_equal. exact IH.
  - destruct (Ascii.eqb c (ascii_of_nat 92)) eqn:E.
    + apply Ascii.eqb_eq in E. congruence.
    + f_equal. exact IH.
Qed.

Lemma drop_chars_app (pre suffix : string) :
  drop_chars (String.length pre) (pre +:+ suffix) = suffix.
Proof. induction pre as [|c pre IH]; [destruct suffix; reflexivity | exact IH]. Qed.

Lemma drop_chars_split (n : nat) (s : string) :
  exists pre, s = pre +:+ drop_chars n s.
Proof.
  revert s. induction n as [|n IH]; intros s.
  - exists "". destruct s; reflexivity.
  - destruct s as [|c s]; [exists ""; reflexivity|].
    destruct (IH s) as [pre Hpre]. exists (String c pre).
    cbn [drop_chars]. change (String c s = String c (pre +:+ drop_chars n s)).
    rewrite <- Hpre. reflexivity.
Qed.

Lemma length_append (a b : string) :
  String.length (a +:+ b) = (String.length a + String.length b)%nat.
Proof.
  induction a as [|c a IH]; [reflexivity|].
  change (S (String.length (a +:+ b)) = S (String.length a + String.length b)).
  rewrite IH. reflexivity.
Qed.

(** [endsWith] holds exactly of the strings made of something followed by
    the suffix. *)
Lemma endsWith_spec (s suffix : string) :
  endsWith s suffix = true <-> exists pre, s = pre +:+ suffix.
Proof.
  unfold endsWith. rewrite andb_true_iff, Nat.leb_le, String.eqb_eq. split.
  - intros [_ Hdrop].
    destruct (drop_chars_split (String.length s - String.length suffix) s) as [pre Hpre].
    exists pre. rewrite Hdrop in Hpre. exact Hpre.
  - intros [pre ->]. rewrite length_append. split; [lia|].
    replace (String.length pre + String.length suffix - String.length suffix)%nat
      with (String.length pre) by lia.
    apply drop_chars_app.
Qed.

End StringFacts.

(** ** The welcome widget: the form and the recent workspaces *)

Section WidgetFacts.
Context {uri_lib : UriLib} {host : Host}.
Import Js.

Lemma truthy_false (s : string) : truthy s = false <-> s = "".
Proof.
  unfold truthy. rewrite negb_false_iff. apply String.eqb_eq.
Qed.

Lemma truthy_true (s : string) : truthy s = true <-> s <> "".
Proof.
  unfold truthy. rewrite negb_true_iff. apply String.eqb_neq.
Qed.

Lemma isCreateButtonDisabled_spec (this : GettingStartedWidget) :
  isCreateButtonDisabled this = true <->
  projectName this = "" \/ blockchain this = "" \/ language this = "".
Proof.
  unfold isCreateButtonDisabled.
  rewrite !orb_true_iff, !negb_true_iff, !truthy_false. tauto.
Qed.

Lemma isCreateButtonDisabled_false (this : GettingStartedWidget) :
  isCreateButtonDisabled this = false <->
  projectName this <> "" /\ blockchain this <> "" /\ language this <> "".
Proof.
  unfold isCreateButtonDisabled.
  rewrite !orb_false_iff, !negb_false_iff, !truthy_true. tauto.
Qed.

(** C8. In the project-configuration form the Create Project button is
    disabled exactly when the project name, the blockchain or the language is
    the empty string; a click therefore reaches [doCreateContract] only with
    all three fields non-empty. *)
Theorem create_button_disabled_iff_empty_field (this : GettingStartedWidget) :
  let button := button_create (renderDialogBox this) in
  (button_disabled button = true <->
     projectName this = "" \/ blockchain this = "" \/ language this = "")
  /\ (click button = None <->
        projectName this = "" \/ blockchain this = "" \/ language this = "")
  /\ (forall action,
        click button = Some action ->
        action = doCreateContract_ (path this) (projectName this)
        /\ projectName this <> "" /\ blockchain this <> "" /\ language this <> "").
Proof.
  cbn zeta. unfold click. cbn [renderDialogBox button_create button_disabled button_onClick].
  split; [apply isCreateButtonDisabled_spec|]. split.
  - rewrite <- isCreateButtonDisabled_spec.
    destruct (isCreateButtonDisabled this); split; congruence.
  - intros action Hclick.
    destruct (isCreateButtonDisabled this) eqn:E; [discriminate|].
    apply isCreateButtonDisabled_false in E. split; [congruence | exact E].
Qed.

Lemma length_buildPaths (this : GettingStartedWidget) (workspaces : list string) :
  length (buildPaths this workspaces) = length workspaces.
Proof. unfold buildPaths. apply length_map. Qed.

(** C9. The recent section shows the first five recent workspaces, in the
    order of the list, and no more; the More link is there exactly when the
    list has more than five entries; an empty list gives the message that
    there are no recent folders, with its link to open a folder. *)
Theorem recent_workspaces_limited_to_five (this : GettingStartedWidget) :
  let items := recentWorkspaces this in
  let section := renderRecentWorkspaces this in
  (items = [] ->
     recent_body section =
       NoRecent (nls_localizeByDefault "You have no recent folders," [] +:+ " ")
         {| link_text := nls_localizeByDefault "open a folder" [];
            link_onClick := doOpenFolder_ |}
         (" " +:+ nls_localizeByDefault "to start." []))
  /\ (items <> [] ->
      exists content,
        recent_body section = RecentContent content
        /\ length content = Nat.min 5 (length items)
        /\ (length content <= 5)%nat
        /\ forall i row,
             content !! i = Some row ->
             exists workspace,
               items !! i = Some workspace
               /\ item_key row = i
               /\ link_onClick (item_link row) = open_ (URI_new workspace)
               /\ link_text (item_link row) = URI_path_base (URI_new workspace)
               /\ Some (item_details row) = buildPaths this items !! i)
  /\ (recent_more section <> None <-> (5 < length items)%nat)
  /\ (forall link,
        recent_more section = Some link ->
        link_onClick link = doOpenRecentWorkspace
        /\ link_text link = nls_localizeByDefault "More..." []).
Proof.
  cbn zeta. unfold renderRecentWorkspaces, recentLimit.
  cbn [recent_body recent_more]. rewrite length_buildPaths.
  split; [|split; [|split]].
  - intros ->. reflexivity.
  - intros Hne.
    destruct (recentWorkspaces this) as [|w0 ws] eqn:Hitems; [congruence|].
    cbn [length Nat.ltb Nat.leb]. eexists. split; [reflexivity|].
    rewrite length_imap, length_take, length_buildPaths. cbn [length].
    split; [lia|]. split; [lia|].
    intros i row Hrow. rewrite list_lookup_imap in Hrow.
    destruct (take 5 (buildPaths this (w0 :: ws)) !! i) as [p|] eqn:Hp; [|discriminate].
    cbn in Hrow. injection Hrow as <-.
    assert (Hi : (i < 5)%nat).
    { apply lookup_lt_Some in Hp. rewrite length_take in Hp. lia. }
    rewrite lookup_take_lt in Hp by exact Hi.
    assert (Hlen : (i < length (w0 :: ws))%nat).
    { apply lookup_lt_Some in Hp. rewrite length_buildPaths in Hp. exact Hp. }
    destruct (lookup_lt_is_Some_2 (w0 :: ws) i Hlen) as [workspace Hw].
    exists workspace. rewrite Hw. cbn [default from_option].
    rewrite Hp. auto.
  - destruct (5 <? length (recentWorkspaces this))%nat eqn:E.
    + apply Nat.ltb_lt in E. split; [intros _; exact E | discriminate].
    + apply Nat.ltb_ge in E. split; [congruence | lia].
  - intros link Hlink.
    destruct (5 <? length (recentWorkspaces this))%nat; [|discriminate].
    injection Hlink as <-. split; reflexivity.
Qed.

End WidgetFacts.

(** ** The contract commands *)

Ltac async_unfold :=
  unfold execute_NEW_CONTRACT_FOLDER, execute_NEW_CONTRACT_FILE, getDirectory, getParent,
    createFolder, createFile, resolve, exists_, fireCreateNewFile, console,
    workspaceService_open_, bind, try_catch, ret, throw, emit, call, read, eval, after in *.

Ltac host_call :=
  match goal with
  | |- context [fileService_resolve ?u ?w] =>
      let E := fresh "Hresolve" in
      destruct (fileService_resolve u w) as [[?stat|?err] ?w'] eqn:E
  | |- context [fileService_createFolder ?u ?w] =>
      let E := fresh "Hcreate" in
      destruct (fileService_createFolder u w) as [[?stat|?err] ?w'] eqn:E
  | |- context [fileService_createFile ?u ?c ?o ?w] =>
      let E := fresh "Hcreate" in
      destruct (fileService_createFile u c o w) as [[?stat|?err] ?w'] eqn:E
  | |- context [isDirectory ?s] =>
      let E := fresh "Hdir" in destruct (isDirectory s) eqn:E
  end.

Section ContractCommands.
Context {uri_lib : UriLib} {host : Host}.
Import Js JsLib Skeleton.

Lemma commands_of_app (l1 l2 : list Event) :
  commands_of (l1 ++ l2) = commands_of l1 ++ commands_of l2.
Proof. apply omap_app. Qed.

Lemma commands_of_sent (c : Command) (evs : list Event) :
  commands_of evs = [] -> commands_of (ExecuteCommand c :: evs) = [c].
Proof. unfold commands_of. cbn. intros ->. reflexivity. Qed.

Lemma NEW_CONTRACT_FOLDER_run targetDirectory folderName uri (w : World) :
  exists w' evs,
    execute_NEW_CONTRACT_FOLDER targetDirectory folderName uri w
    = mkResult (Returned tt) w' evs
    /\ commands_of evs = [].
Proof.
  async_unfold. destruct (parentUri targetDirectory uri) as [[u|]|e];
    repeat (host_call; cbn [app]); eauto.
Qed.

Lemma NEW_CONTRACT_FILE_run targetDirectory fileName content uri (w : World) :
  exists w' evs,
    execute_NEW_CONTRACT_FILE targetDirectory fileName content uri w
    = mkResult (Returned tt) w' evs
    /\ commands_of evs = [].
Proof.
  async_unfold. destruct (parentUri targetDirectory uri) as [[u|]|e];
    repeat (host_call; cbn [app]); eauto.
Qed.

(** The command that opens the project sends no further command; it rejects
    when [new URI] throws, and then nothing has been done. *)
Lemma OPEN_SMART_CONTRACT_run folderLink (w : World) :
  exists o w' evs,
    doOpenSmartContract folderLink w = mkResult o w' evs
    /\ commands_of evs = []
    /\ (forall e, o = Thrown e -> URI_new_throws (uri_text folderLink) = Some e /\ evs = []).
Proof.
  unfold doOpenSmartContract, new_URI, getOpenableWorkspaceUri, open_if_changed.
  destruct (URI_new_throws (uri_text folderLink)) as [e|].
  - async_unfold. do 3 eexists. split; [reflexivity|]. split; [reflexivity|].
    intros e' [= <-]. auto.
  - cbn [length Nat.ltb Nat.leb lookup list_lookup].
    async_unfold. cbn [app].
    match goal with |- context [differs_from_workspace ?u ?w] =>
      destruct (differs_from_workspace u w) end; cbn [app];
      do 3 eexists; (split; [reflexivity|]); (split; [reflexivity|]); intros e [=].
Qed.

(** Every command of the scaffolding sends no further command, and the
    commands that create end normally. *)
Lemma executeCommand_sent (c : Command) (w : World) :
  exists o w' evs,
    executeCommand c w = mkResult o w' (ExecuteCommand c :: evs)
    /\ commands_of evs = []
    /\ (creates c = true -> o = Returned tt).
Proof.
  unfold executeCommand, bind, emit.
  destruct c as [targetDirectory folderName uri|targetDirectory fileName content uri|folderLink].
  - destruct (NEW_CONTRACT_FOLDER_run targetDirectory folderName uri w)
      as (w' & evs & -> & Hevs).
    cbn [after app]. eauto 6.
  - destruct (NEW_CONTRACT_FILE_run targetDirectory fileName content uri w)
      as (w' & evs & -> & Hevs).
    cbn [after app]. eauto 6.
  - destruct (OPEN_SMART_CONTRACT_run folderLink w) as ([r|e] & w' & evs & -> & Hevs & _);
      unfold ret, after; cbn [app]; rewrite ?app_nil_r;
      do 3 eexists; (split; [reflexivity|]); (split; [exact Hevs|]); discriminate.
Qed.

Lemma executeCommand_run (c : Command) (w : World) :
  creates c = true ->
  exists w' evs,
    executeCommand c w = mkResult (Returned tt) w' (ExecuteCommand c :: evs)
    /\ commands_of evs = [].
Proof.
  intros Hc. destruct (executeCommand_sent c w) as (o & w' & evs & -> & Hevs & Ho).
  rewrite (Ho Hc). eauto.
Qed.

Ltac command_step :=
  match goal with
  | |- context [executeCommand ?c ?w] =>
      let H := fresh "Hsent" in
      destruct (executeCommand_run c w eq_refl) as (?w & ?evs & -> & H)
  end.

Ltac last_command_step :=
  match goal with
  | |- context [executeCommand ?c ?w] =>
      let H := fresh "Hsent" in
      destruct (executeCommand_sent c w) as ([[]|?e] & ?w & ?evs & -> & H & _)
  end.

(** The commands that [doCreateContract] gives to the registry. *)
Lemma doCreateContract_commands (this : GettingStartedWidget) (d n : string) (w : World) :
  let p := d +:+ "/" +:+ n in
  outcome (doCreateContract executeCommand this d n w) = Returned tt
  /\ commands_of (events (doCreateContract executeCommand this d n w))
     = NEW_CONTRACT_FOLDER (Some d) (Some n) None
       :: (if String.eqb (blockchain this) "Solana" then
             [NEW_CONTRACT_FILE (Some p) "Anchor.toml" (fill anchorTomlContent n) None;
              NEW_CONTRACT_FILE (Some p) "Cargo.toml" (fill cargoTomlContent n) None;
              NEW_CONTRACT_FOLDER (Some p) (Some "program") None;
              NEW_CONTRACT_FILE (Some (p +:+ "/program")) (n +:+ ".rs")
                (fill programRsContent n) None;
              NEW_CONTRACT_FOLDER (Some p) (Some "tests") None;
              NEW_CONTRACT_FILE (Some (p +:+ "/tests")) (n +:+ ".ts")
                (fill testTsContent n) None;
              OPEN_SMART_CONTRACT p]
           else []).
Proof.
  cbn zeta. unfold doCreateContract, doCreateContract_try, try_catch, bind.
  command_step. cbn [after].
  destruct (String.eqb (blockchain this) "Solana").
  - do 6 (command_step; cbn [after]).
    unfold console, emit. cbn [after]. last_command_step; cbn [after outcome events];
      (split; [reflexivity|]);
      rewrite !commands_of_app, !commands_of_sent by assumption;
      rewrite ?app_nil_r; reflexivity.
  - unfold ret. cbn [after outcome events]. split; [reflexivity|].
    rewrite app_nil_r. apply commands_of_sent, Hsent.
Qed.

(** The Solana scaffold is the seven creating commands run in order, then a
    line on the console, then the command that opens the project, whose
    error, if it throws one, is written to the console. *)
Lemma doCreateContract_solana_run
    (this : GettingStartedWidget) (d n : string) (w : World) :
  blockchain this = "Solana" ->
  let p := d +:+ "/" +:+ n in
  let created :=
    run_in_order
      [NEW_CONTRACT_FOLDER (Some d) (Some n) None;
       NEW_CONTRACT_FILE (Some p) "Anchor.toml" (fill anchorTomlContent n) None;
       NEW_CONTRACT_FILE (Some p) "Cargo.toml" (fill cargoTomlContent n) None;
       NEW_CONTRACT_FOLDER (Some p) (Some "program") None;
       NEW_CONTRACT_FILE (Some (p +:+ "/program")) (n +:+ ".rs")
         (fill programRsContent n) None;
       NEW_CONTRACT_FOLDER (Some p) (Some "tests") None;
       NEW_CONTRACT_FILE (Some (p +:+ "/tests")) (n +:+ ".ts")
         (fill testTsContent n) None] w in
  doCreateContract executeCommand this d n w
  = after
      (snd created
       ++ [Console console_log [LStr "Solana project structure created successfully."]])
      (try_catch (executeCommand (OPEN_SMART_CONTRACT p))
         (fun error =>
            console console_error [LStr "Error creating contract structure:"; LErr error])
         (fst created)).
Proof.
  intros Hchain. cbv zeta.
  unfold doCreateContract, doCreateContract_try, try_catch, bind.
  rewrite Hchain. cbn [String.eqb Ascii.eqb Bool.eqb run_in_order].
  do 7 (command_step; cbn [after world events fst snd]).
  unfold console, emit. cbn [after]. last_command_step; cbn [after];
    f_equal; rewrite ?app_nil_r, <- ?app_assoc; cbn [app]; reflexivity.
Qed.

End ContractCommands.

(** ** Scaffolding a project *)

Section Scaffolding.
Context {uri_lib : UriLib} {host : Host}.
Import Js JsLib Skeleton.

(** C3. For a Solana project [n] in the directory [d], [doCreateContract]
    gives the registry these commands, in this order and no others: the folder
    [n] under [d]; the files Anchor.toml and Cargo.toml in [d/n]; the folder
    program in [d/n]; the file [n.rs] in [d/n/program]; the folder tests in
    [d/n]; the file [n.ts] in [d/n/tests]; then the opening of [d/n].  Each
    command is run in the world that the one before has left, so it has ended
    before the next one is given, and the call ends normally: an error that
    the opening throws is caught and written to the console. *)
Theorem solana_project_commands_in_order
    (this : GettingStartedWidget) (d n : string) (w : World) :
  blockchain this = "Solana" ->
  let p := d +:+ "/" +:+ n in
  let r := doCreateContract executeCommand this d n w in
  let created :=
    run_in_order
      [NEW_CONTRACT_FOLDER (Some d) (Some n) None;
       NEW_CONTRACT_FILE (Some p) "Anchor.toml" (fill anchorTomlContent n) None;
       NEW_CONTRACT_FILE (Some p) "Cargo.toml" (fill cargoTomlContent n) None;
       NEW_CONTRACT_FOLDER (Some p) (Some "program") None;
       NEW_CONTRACT_FILE (Some (p +:+ "/program")) (n +:+ ".rs")
         (fill programRsContent n) None;
       NEW_CONTRACT_FOLDER (Some p) (Some "tests") None;
       NEW_CONTRACT_FILE (Some (p +:+ "/tests")) (n +:+ ".ts")
         (fill testTsContent n) None] w in
  outcome r = Returned tt
  /\ commands_of (events r)
     = [NEW_CONTRACT_FOLDER (Some d) (Some n) None;
        NEW_CONTRACT_FILE (Some p) "Anchor.toml" (fill anchorTomlContent n) None;
        NEW_CONTRACT_FILE (Some p) "Cargo.toml" (fill cargoTomlContent n) None;
        NEW_CONTRACT_FOLDER (Some p) (Some "program") None;
        NEW_CONTRACT_FILE (Some (p +:+ "/program")) (n +:+ ".rs")
          (fill programRsContent n) None;
        NEW_CONTRACT_FOLDER (Some p) (Some "tests") None;
        NEW_CONTRACT_FILE (Some (p +:+ "/tests")) (n +:+ ".ts")
          (fill testTsContent n) None;
        OPEN_SMART_CONTRACT p]
  /\ r = after
           (snd created
            ++ [Console console_log [LStr "Solana project structure created successfully."]])
           (try_catch (executeCommand (OPEN_SMART_CONTRACT p))
              (fun error =>
                 console console_error
                   [LStr "Error creating contract structure:"; LErr error])
              (fst created)).
Proof.
  intros Hchain p r created.
  destruct (doCreateContract_commands this d n w) as [Hout Hcmds].
  split; [exact Hout|]. split.
  - subst r p. rewrite Hcmds, Hchain. reflexivity.
  - apply doCreateContract_solana_run, Hchain.
Qed.

(** C1, as the code has it.  With the form completed, Create Project runs
    [doCreateContract] on the chosen path and project name, and the command
    that creates the project folder is always given.  The template files, the
    program and tests folders and the opening of the project follow when the
    chosen blockchain is Solana; for any other blockchain, Ethereum included,
    the project folder is the only thing asked for. *)
Theorem create_project_scaffolds_solana_only (this : GettingStartedWidget) (w : World) :
  projectName this <> "" -> blockchain this <> "" -> language this <> "" ->
  let d := path this in
  let n := projectName this in
  let p := d +:+ "/" +:+ n in
  let r := doCreateContract executeCommand this d n w in
  click (button_create (renderDialogBox this)) = Some (doCreateContract_ d n)
  /\ outcome r = Returned tt
  /\ (blockchain this = "Solana" ->
      commands_of (events r)
      = [NEW_CONTRACT_FOLDER (Some d) (Some n) None;
         NEW_CONTRACT_FILE (Some p) "Anchor.toml" (fill anchorTomlContent n) None;
         NEW_CONTRACT_FILE (Some p) "Cargo.toml" (fill cargoTomlContent n) None;
         NEW_CONTRACT_FOLDER (Some p) (Some "program") None;
         NEW_CONTRACT_FILE (Some (p +:+ "/program")) (n +:+ ".rs")
           (fill programRsContent n) None;
         NEW_CONTRACT_FOLDER (Some p) (Some "tests") None;
         NEW_CONTRACT_FILE (Some (p +:+ "/tests")) (n +:+ ".ts")
           (fill testTsContent n) None;
         OPEN_SMART_CONTRACT p])
  /\ (blockchain this <> "Solana" ->
      commands_of (events r) = [NEW_CONTRACT_FOLDER (Some d) (Some n) None]
      /\ ~ writes_template_files (events r)).
Proof.
  intros Hname Hchain Hlang d n p r.
  destruct (doCreateContract_commands this d n w) as [Hout Hcmds].
  fold r in Hout, Hcmds. cbn zeta in Hcmds. fold d n p in Hcmds.
  split; [|split; [exact Hout|split]].
  - unfold click. cbn [renderDialogBox button_create button_disabled button_onClick].
    assert (E : isCreateButtonDisabled this = false)
      by (apply isCreateButtonDisabled_false; auto).
    rewrite E. reflexivity.
  - intros E. rewrite Hcmds, E. reflexivity.
  - intros Hne. apply String.eqb_neq in Hne. rewrite Hne in Hcmds.
    split; [exact Hcmds|].
    intros (td & fn & c & u & Hin). rewrite Hcmds in Hin.
    apply list_elem_of_singleton in Hin. discriminate.
Qed.

End Scaffolding.

Section ScaffoldingRuns.
Import Js Skeleton TestHost.

(** The form completed for an Ethereum project: only the project folder is
    created, and no template file is written. *)
Lemma ethereum_project_has_no_template_files :
  let this := TestHost.form "token" "Ethereum" "Solidity" "C:" in
  let r := TestHost.create_project this (TestHost.disk_of ["file:///C:"]) in
  "Ethereum" ∈ options_blockchain (renderDialogBox this)
  /\ click (button_create (renderDialogBox this)) = Some (doCreateContract_ "C:" "token")
  /\ outcome r = Returned tt
  /\ ~ writes_template_files (events r)
  /\ TestHost.folders (world r) = ["file:///C:"; "file:///C:/token"]
  /\ TestHost.files (world r) = [].
Proof.
  cbn zeta. unfold create_project.
  split; [|split; [|split; [|split; [|split]]]]; try reflexivity.
  - cbn. repeat constructor.
  - intros (td & fn & c & u & Hin).
    rewrite (proj2 (doCreateContract_commands _ _ _ _)) in Hin.
    apply list_elem_of_singleton in Hin. discriminate.
Qed.

Lemma solana_project_commands_witness :
  let this := TestHost.form "counter" "Solana" "Anchor (Rust)" "C:" in
  let r := doCreateContract (host := TestHost.host) executeCommand this "C:" "counter"
             (TestHost.disk_of ["file:///C:"]) in
  blockchain this = "Solana"
  /\ length (commands_of (events r)) = 8%nat.
Proof.
  cbn zeta. split; [reflexivity|].
  rewrite (proj1 (proj2 (solana_project_commands_in_order (host := TestHost.host)
                           (TestHost.form "counter" "Solana" "Anchor (Rust)" "C:")
                           "C:" "counter" (TestHost.disk_of ["file:///C:"]) eq_refl))).
  reflexivity.
Defined.

Lemma create_project_scaffolds_witness :
  let this := TestHost.form "token" "Ethereum" "Solidity" "C:" in
  projectName this <> "" /\ blockchain this <> "" /\ language this <> ""
  /\ click (button_create (renderDialogBox this)) = Some (doCreateContract_ "C:" "token").
Proof.
  cbn zeta.
  assert (H1 : "token" <> "") by discriminate.
  assert (H2 : "Ethereum" <> "") by discriminate.
  assert (H3 : "Solidity" <> "") by discriminate.
  split; [exact H1|]. split; [exact H2|]. split; [exact H3|].
  exact (proj1 (create_project_scaffolds_solana_only (host := TestHost.host)
                  (TestHost.form "token" "Ethereum" "Solidity" "C:")
                  (TestHost.disk_of ["file:///C:"]) H1 H2 H3)).
Defined.

(** C4, at the project name [$&].  In the replacement text of [replace] the
    two characters [$&] stand for the matched text, so every placeholder is
    replaced by itself: the four files are written with the templates as they
    are, which is not what putting the name in place of the placeholder
    gives. *)
Theorem dollar_in_project_name_is_not_copied :
  let r := create_project (form "$&" "Solana" "Anchor (Rust)" "C:") (disk_of ["file:///C:"]) in
  files (world r)
  = [("file:///C:/$&/Anchor.toml", anchorTomlContent);
     ("file:///C:/$&/Cargo.toml", cargoTomlContent);
     ("file:///C:/$&/program/$&.rs", programRsContent);
     ("file:///C:/$&/tests/$&.ts", testTsContent)]
  /\ fill anchorTomlContent "$&" <> substitute_all placeholder "$&" anchorTomlContent
  /\ fill cargoTomlContent "$&" <> substitute_all placeholder "$&" cargoTomlContent
  /\ fill programRsContent "$&" <> substitute_all placeholder "$&" programRsContent
  /\ fill testTsContent "$&" <> substitute_all placeholder "$&" testTsContent.
Proof.
  cbn zeta. split; [vm_compute; reflexivity|].
  repeat split; apply String.eqb_neq; vm_compute; reflexivity.
Qed.

End ScaffoldingRuns.

(** ** Percent-encoding *)

Section EncodingFacts.
Import Js JsLib UriText.

(** A check that holds of each of the 256 bytes holds of every byte. *)
Lemma every_byte (P : ascii -> bool) :
  forallb P (map ascii_of_nat (seq 0 256)) = true -> forall c, P c = true.
Proof.
  intros H c. rewrite forallb_forall in H. apply H.
  rewrite <- (ascii_nat_embedding c). apply in_map, in_seq.
  pose proof (nat_ascii_bounded c). lia.
Qed.

Lemma hex2_decodes (c : ascii) :
  let h := hex_digit true (nat_of_ascii c / 16) in
  let l := hex_digit true (nat_of_ascii c mod 16) in
  Ascii.eqb h "%" = false /\ Ascii.eqb l "%" = false
  /\ exists a b,
       hex_value h = Some a /\ hex_value l = Some b /\ ascii_of_nat (16 * a + b) = c.
Proof.
  intros h l.
  set (check := fun c =>
       let h := hex_digit true (nat_of_ascii c / 16) in
       let l := hex_digit true (nat_of_ascii c mod 16) in
       negb (Ascii.eqb h "%") && negb (Ascii.eqb l "%")
       && match hex_value h, hex_value l with
          | Some a, Some b => Ascii.eqb (ascii_of_nat (16 * a + b)) c
          | _, _ => false
          end).
  assert (H : check c = true) by (apply every_byte; vm_compute; reflexivity).
  subst check. cbv beta zeta in H. fold h l in H.
  apply andb_prop in H as [H Hab]. apply andb_prop in H as [Hh Hl].
  apply negb_true_iff in Hh, Hl. do 2 (split; [assumption|]).
  destruct (hex_value h) as [a|]; [|discriminate].
  destruct (hex_value l) as [b|]; [|discriminate].
  exists a, b. apply Ascii.eqb_eq in Hab. auto.
Qed.

Lemma unreserved_is_not_percent (c : ascii) :
  uri_unreserved c = true -> Ascii.eqb c "%" = false.
Proof.
  intros H.
  set (check := fun c => negb (uri_unreserved c && Ascii.eqb c "%")).
  assert (Hc : check c = true) by (apply every_byte; vm_compute; reflexivity).
  subst check. cbv beta in Hc. rewrite H in Hc. apply negb_true_iff in Hc. exact Hc.
Qed.

Lemma percent_decode_plain (c : ascii) (r : string) :
  Ascii.eqb c "%" = false -> percent_decode (String c r) = String c (percent_decode r).
Proof.
  intros Hc. cbn [percent_decode].
  destruct r as [|h [|l r'']]; try reflexivity.
  rewrite Hc. reflexivity.
Qed.

Lemma percent_decode_hex (h l : ascii) (r : string) (a b : nat) :
  hex_value h = Some a -> hex_value l = Some b ->
  percent_decode (String "%" (String h (String l r)))
  = String (ascii_of_nat (16 * a + b)) (percent_decode r).
Proof.
  intros Ha Hb.
  change (percent_decode (String "%" (String h (String l r))))
    with (match Ascii.eqb "%" "%", hex_value h, hex_value l with
          | true, Some a, Some b => String (ascii_of_nat (16 * a + b)) (percent_decode r)
          | _, _, _ => String "%" (percent_decode (String h (String l r)))
          end).
  rewrite Ha, Hb. reflexivity.
Qed.

(** Decoding undoes [encodeURIComponent]. *)
Lemma percent_decode_encode (s : string) :
  percent_decode (encodeURIComponent s) = s.
Proof.
  induction s as [|c s IH]; [reflexivity|].
  cbn [encodeURIComponent].
  destruct (uri_unreserved c) eqn:Hc.
  - rewrite percent_decode_plain by (apply unreserved_is_not_percent, Hc).
    rewrite IH. reflexivity.
  - destruct (hex2_decodes c) as (Hh & Hl & a & b & Ha & Hb & Hab).
    change ("%" +:+ hex2 true c +:+ encodeURIComponent s)
      with (String "%" (String (hex_digit true (nat_of_ascii c / 16))
                          (String (hex_digit true (nat_of_ascii c mod 16))
                             (encodeURIComponent s)))).
    rewrite (percent_decode_hex _ _ _ a b Ha Hb), Hab, IH. reflexivity.
Qed.

Lemma encodeURIComponent_inj (s1 s2 : string) :
  encodeURIComponent s1 = encodeURIComponent s2 -> s1 = s2.
Proof.
  intros H. rewrite <- (percent_decode_encode s1), <- (percent_decode_encode s2), H.
  reflexivity.
Qed.






End EncodingFacts.

(** ** Errors in the contract commands *)

Ltac elem_cases H :=
  repeat (apply elem_of_cons in H as [H|H]);
  try (apply elem_of_nil in H; destruct H);
  simplify_eq.


Section ContractErrors.
Context {uri_lib : UriLib} {host : Host}.
Import Js JsLib Skeleton.





End ContractErrors.

Section ContractErrorHandling.
Context {uri_lib : UriLib} {host : Host}.
Import Js JsLib Skeleton UriText.



End ContractErrorHandling.

Section ContractErrorRuns.
Import Js JsLib Skeleton UriText TestHost.



(** Neither the target directory nor its parent is there: both errors are
    dropped, and a warning is all that is written. *)
Example missing_parent_gives_a_warning :
  execute_NEW_CONTRACT_FOLDER (Some "gone/deeper") (Some "token") None (disk_of [])
  = mkResult (Returned tt) (disk_of [])
      [Resolve (Some "file:///gone/deeper") (Thrown (HostError 404));
       Resolve (Some "file:///gone") (Thrown (HostError 404));
       Console console_warn [LStr "Parent directory could not be found or is invalid."]].
Proof. reflexivity. Qed.



End ContractErrorRuns.

(** ** The multi-root workspace file *)

Section SetFacts.
Import Js JsLib JsonText.

Lemma Set_add_elem (s : list string) (x y : string) :
  y ∈ Set_add s x <-> y ∈ s \/ y = x.
Proof.
  unfold Set_add. case_bool_decide as Hx.
  - split; [auto|]. intros [H | ->]; assumption.
  - rewrite elem_of_app, list_elem_of_singleton. reflexivity.
Qed.

Lemma Set_add_NoDup (s : list string) (x : string) :
  NoDup s -> NoDup (Set_add s x).
Proof.
  intros Hs. unfold Set_add. case_bool_decide as Hx; [exact Hs|].
  apply NoDup_app. split; [exact Hs|]. split; [|apply NoDup_singleton].
  intros y Hy Hy'. apply list_elem_of_singleton in Hy'. subst. exact (Hx Hy).
Qed.

(** Adding members only appends to what is there. *)
Lemma Set_fold_extends (l acc : list string) :
  exists rest, fold_left Set_add l acc = acc ++ rest.
Proof.
  revert acc. induction l as [|a l IH]; intros acc; cbn [fold_left].
  - exists []. symmetry. apply app_nil_r.
  - destruct (IH (Set_add acc a)) as [rest ->].
    unfold Set_add. case_bool_decide.
    + exists rest. reflexivity.
    + exists (a :: rest). rewrite <- app_assoc. reflexivity.
Qed.

Lemma Set_fold_NoDup (l acc : list string) :
  NoDup acc -> NoDup (fold_left Set_add l acc).
Proof.
  revert acc. induction l as [|a l IH]; intros acc Hacc; cbn [fold_left]; [exact Hacc|].
  apply IH, Set_add_NoDup, Hacc.
Qed.

Lemma Set_fold_elem (l acc : list string) (x : string) :
  x ∈ fold_left Set_add l acc <-> x ∈ acc \/ x ∈ l.
Proof.
  revert acc. induction l as [|a l IH]; intros acc; cbn [fold_left].
  - rewrite elem_of_nil. tauto.
  - rewrite IH, Set_add_elem, elem_of_cons. tauto.
Qed.

Lemma Set_new_NoDup (l : list string) : NoDup (Set_new l).
Proof. apply Set_fold_NoDup, NoDup_nil_2. Qed.

Lemma Set_new_elem (l : list string) (x : string) : x ∈ Set_new l <-> x ∈ l.
Proof. unfold Set_new. rewrite Set_fold_elem, elem_of_nil. tauto. Qed.

(** The members come in the order of their first occurrences: what stands
    before [x] in the set is what occurs before the first [x] in the list. *)
Lemma Set_new_first_occurrence (before after : list string) (x : string) :
  x ∉ before ->
  exists before' after',
    Set_new (before ++ x :: after) = before' ++ x :: after'
    /\ forall y, y ∈ before' <-> y ∈ before.
Proof.
  intros Hx. unfold Set_new. rewrite fold_left_app. cbn [fold_left].
  fold (Set_new before).
  assert (Hadd : Set_add (Set_new before) x = Set_new before ++ [x]).
  { unfold Set_add. case_bool_decide as Hin; [|reflexivity].
    apply (proj1 (Set_new_elem before x)) in Hin. destruct (Hx Hin). }
  rewrite Hadd.
  destruct (Set_fold_extends after (Set_new before ++ [x])) as [rest ->].
  exists (Set_new before), rest. split.
  - rewrite <- app_assoc. reflexivity.
  - intros y. apply Set_new_elem.
Qed.

Lemma append_assoc (a b c : string) : (a +:+ b) +:+ c = a +:+ (b +:+ c).
Proof.
  induction a as [|ch a IH]; [reflexivity|].
  change (String ch ((a +:+ b) +:+ c) = String ch (a +:+ (b +:+ c))).
  rewrite IH. reflexivity.
Qed.

Lemma folder_entry_serialized (path : string) :
  SerializeJSON (spaces 4) (spaces 8) (JObject [("path", JString path)])
  = folder_entry_text (QuoteJSONString path).
Proof.
  unfold folder_entry_text.
  cbn [SerializeJSON map fst snd spaces String.eqb Ascii.eqb Bool.eqb String.concat].
  rewrite !append_assoc. reflexivity.
Qed.

(** [JSON.stringify({ folders }, null, 4)] written out. *)
Lemma workspace_file_serialized (paths : list string) :
  JSON_stringify
    (JObject [("folders", JArray (map (fun path => JObject [("path", JString path)]) paths))])
    4
  = workspace_file_text (map QuoteJSONString paths).
Proof.
  destruct paths as [|p paths]; [reflexivity|].
  set (l := p :: paths).
  transitivity
    ("{" +:+ nl +:+ spaces 4
     +:+ (QuoteJSONString "folders" +:+ ":" +:+ " "
          +:+ "[" +:+ nl +:+ spaces 8
          +:+ String.concat ("," +:+ nl +:+ spaces 8)
                (map (SerializeJSON (spaces 4) (spaces 8))
                   (map (fun path => JObject [("path", JString path)]) l))
          +:+ nl +:+ spaces 4 +:+ "]")
     +:+ nl +:+ "" +:+ "}"); [reflexivity|].
  rewrite map_map.
  rewrite (map_ext _ (fun path => folder_entry_text (QuoteJSONString path)))
    by (intros; apply folder_entry_serialized).
  rewrite <- (map_map QuoteJSONString folder_entry_text).
  unfold workspace_file_text. subst l. cbn [map]. cbv iota beta.
  generalize (String.concat ("," +:+ nl +:+ spaces 8)
                (folder_entry_text (QuoteJSONString p)
                 :: map folder_entry_text (map QuoteJSONString paths))).
  intros entries. rewrite !append_assoc. reflexivity.
Qed.

Lemma json_read_step (c : ascii) (r : string) :
  json_read (String c r)
  = let n := nat_of_ascii c in
    if (n =? 34)%nat then match r with EmptyString => Some EmptyString | _ => None end
    else if (n =? 92)%nat then
      match r with
      | String e r1 =>
          if (nat_of_ascii e =? 117)%nat then
            match r1 with
            | String h1 (String h2 (String h3 (String h4 r2))) =>
                match hex4_value h1 h2 h3 h4 with
                | Some code =>
                    if (code <? 128)%nat
                    then option_map (String (ascii_of_nat code)) (json_read r2)
                    else None
                | None => None
                end
            | _ => None
            end
          else
            match escape_value e with
            | Some x => option_map (String x) (json_read r1)
            | None => None
            end
      | EmptyString => None
      end
    else if (n <? 32)%nat then None
    else option_map (String c) (json_read r).
Proof. destruct r; reflexivity. Qed.

Lemma ascii_of_code (c : ascii) (n : nat) : (nat_of_ascii c =? n)%nat = true -> c = ascii_of_nat n.
Proof. intros H. apply Nat.eqb_eq in H. rewrite <- H, ascii_nat_embedding. reflexivity. Qed.

(** A control character is quoted as an escape of four digits that names
    it. *)
Lemma control_escape_reads_back (c : ascii) :
  (nat_of_ascii c <? 32)%nat = true ->
  hex4_value "0" "0" (hex_digit false (nat_of_ascii c / 16))
    (hex_digit false (nat_of_ascii c mod 16))
  = Some (nat_of_ascii c).
Proof.
  set (check := fun c =>
    negb (nat_of_ascii c <? 32)%nat
    || match hex4_value "0" "0" (hex_digit false (nat_of_ascii c / 16))
               (hex_digit false (nat_of_ascii c mod 16)) with
       | Some n => (n =? nat_of_ascii c)%nat
       | None => false
       end).
  assert (H : check c = true) by (apply every_byte; vm_compute; reflexivity).
  subst check. cbv beta in H. intros Hc. rewrite Hc in H. cbn [negb orb] in H.
  destruct (hex4_value _ _ _ _) as [n|]; [|discriminate].
  apply Nat.eqb_eq in H. rewrite H. reflexivity.
Qed.

(** Reading undoes the quoting of one character. *)
Lemma json_read_quoted_char (c : ascii) (rest : string) :
  json_read (QuoteJSONChar c +:+ rest) = option_map (String c) (json_read rest).
Proof.
  unfold QuoteJSONChar. cbv zeta.
  destruct (nat_of_ascii c =? 8)%nat eqn:H8; [apply ascii_of_code in H8; subst c; reflexivity|].
  destruct (nat_of_ascii c =? 9)%nat eqn:H9; [apply ascii_of_code in H9; subst c; reflexivity|].
  destruct (nat_of_ascii c =? 10)%nat eqn:H10;
    [apply ascii_of_code in H10; subst c; reflexivity|].
  destruct (nat_of_ascii c =? 12)%nat eqn:H12;
    [apply ascii_of_code in H12; subst c; reflexivity|].
  destruct (nat_of_ascii c =? 13)%nat eqn:H13;
    [apply ascii_of_code in H13; subst c; reflexivity|].
  destruct (nat_of_ascii c =? 34)%nat eqn:H34;
    [apply ascii_of_code in H34; subst c; reflexivity|].
  destruct (nat_of_ascii c =? 92)%nat eqn:H92;
    [apply ascii_of_code in H92; subst c; reflexivity|].
  destruct (nat_of_ascii c <? 32)%nat eqn:H32.
  - change (json_read
              (String (ascii_of_nat 92) (String "u" (String "0" (String "0"
                 (String (hex_digit false (nat_of_ascii c / 16))
                    (String (hex_digit false (nat_of_ascii c mod 16)) rest))))))
            = option_map (String c) (json_read rest)).
    rewrite json_read_step. cbv zeta.
    change (nat_of_ascii (ascii_of_nat 92) =? 34)%nat with false.
    change (nat_of_ascii (ascii_of_nat 92) =? 92)%nat with true.
    change (nat_of_ascii "u" =? 117)%nat with true. cbv iota.
    rewrite (control_escape_reads_back c H32).
    apply Nat.ltb_lt in H32.
    assert (Hsmall : (nat_of_ascii c <? 128)%nat = true) by (apply Nat.ltb_lt; lia).
    rewrite Hsmall, ascii_nat_embedding. reflexivity.
  - change (json_read (String c rest) = option_map (String c) (json_read rest)).
    rewrite json_read_step. cbv zeta. rewrite H34, H92, H32. reflexivity.
Qed.

(** Reading undoes [QuoteJSONString]: the literal written for a path is a JSON
    string that stands for that path. *)
Lemma json_unquote_QuoteJSONString (s : string) :
  json_unquote (QuoteJSONString s) = Some s.
Proof.
  unfold QuoteJSONString.
  change (dq +:+ QuoteJSONBody s +:+ dq)
    with (String (ascii_of_nat 34) (QuoteJSONBody s +:+ dq)).
  cbn [json_unquote].
  change (nat_of_ascii (ascii_of_nat 34) =? 34)%nat with true. cbv iota.
  induction s as [|c s IH]; [reflexivity|].
  cbn [QuoteJSONBody]. rewrite append_assoc, json_read_quoted_char, IH. reflexivity.
Qed.

End SetFacts.

Section MultiRoot.
Context {uri_lib : UriLib} {host : Host}.
Import Js JsLib JsonText.

(** C2. The workspace file written by [createMultiRootWorkspace] lists every
    distinct root path exactly once, in the order of the first occurrences.
    Its text is the JSON object with the member [folders], indented by four
    spaces per level, in which every path stands as a JSON string literal:
    read by the grammar of JSON strings, the literal gives the path back,
    whatever characters the path has.  The file is created at the untitled
    workspace URI with [overwrite] set, in one call. *)
Theorem multi_root_workspace_file (roots : list FileStat) (w : World) :
  let all := map (fun stat => URI_path_toString (resource stat)) roots in
  let paths := Set_new all in
  let r := createMultiRootWorkspace roots w in
  NoDup paths
  /\ (forall path, path ∈ paths <-> path ∈ all)
  /\ (forall before x after,
        all = before ++ x :: after -> x ∉ before ->
        exists before' after',
          paths = before' ++ x :: after'
          /\ forall y, y ∈ before' <-> y ∈ before)
  /\ exists literals,
       Forall2 (fun literal path => json_unquote literal = Some path) literals paths
       /\ let text := workspace_file_text literals in
          JSON_stringify
            (JObject
               [("folders",
                 JArray (map (fun path => JObject [("path", JString path)]) paths))])
            4
          = text
          /\ events r
             = match workspaceService_getUntitledWorkspace w with
               | (Returned untitledWorkspace, w') =>
                   [GetUntitledWorkspace (Returned untitledWorkspace);
                    CreateFile untitledWorkspace text (Some {| overwrite := true |})
                      (fst (fileService_createFile untitledWorkspace text
                              (Some {| overwrite := true |}) w'))]
               | (Thrown e, _) => [GetUntitledWorkspace (Thrown e)]
               end
          /\ outcome r
             = match workspaceService_getUntitledWorkspace w with
               | (Returned untitledWorkspace, w') =>
                   match fst (fileService_createFile untitledWorkspace text
                                (Some {| overwrite := true |}) w') with
                   | Returned workspaceStat => Returned (resource workspaceStat)
                   | Thrown e => Thrown e
                   end
               | (Thrown e, _) => Thrown e
               end.
Proof.
  intros all paths r.
  split; [apply Set_new_NoDup|].
  split; [intros path; apply Set_new_elem|].
  split.
  { intros before x after Hall Hx. subst paths. rewrite Hall.
    apply Set_new_first_occurrence, Hx. }
  exists (map QuoteJSONString paths). split.
  { clear. induction paths as [|p paths IH]; cbn [map]; constructor;
      [apply json_unquote_QuoteJSONString | exact IH]. }
  set (text := workspace_file_text (map QuoteJSONString paths)). cbv zeta.
  split; [apply workspace_file_serialized|].
  subst r. unfold createMultiRootWorkspace. fold all. fold paths.
  rewrite workspace_file_serialized. fold text.
  unfold createFile, bind, call, ret, after.
  destruct (workspaceService_getUntitledWorkspace w) as [[untitled|e] w']; cbn [app].
  - destruct (fileService_createFile untitled text (Some {| overwrite := true |}) w')
      as [[stat|e] w'']; cbn; split; reflexivity.
  - split; reflexivity.
Qed.

Lemma Promise_all_resolve_returned (uris : list URI) :
  forall (w w' : World) stats evs,
    Promise_all (map (fun uri => resolve (Some uri)) uris) w = mkResult (Returned stats) w' evs ->
    length stats = length uris
    /\ evs = zip_with (fun uri stat => Resolve (Some uri) (Returned stat)) uris stats.
Proof.
  induction uris as [|uri uris IH]; intros w w' stats evs; cbn [map Promise_all].
  - unfold ret. intros [= <- <- <-]. split; reflexivity.
  - unfold resolve at 1, call.
    destruct (fileService_resolve (Some uri) w) as [[stat|e] w1].
    + destruct (Promise_all (map (fun uri0 => resolve (Some uri0)) uris) w1)
        as [[rest|e] w2 evs2] eqn:Hrest; [|discriminate].
      intros [= <- <- <-]. destruct (IH _ _ _ _ Hrest) as [Hlen ->].
      cbn. split; [rewrite Hlen|]; reflexivity.
    + destruct (Promise_all (map (fun uri0 => resolve (Some uri0)) uris) w1)
        as [[rest|e'] w2 evs2]; discriminate.
Qed.

Lemma Promise_all_resolve_asks_all (uris : list URI) :
  forall w : World,
    Forall2 (fun uri ev => exists o, ev = Resolve (Some uri) o) uris
      (events (Promise_all (map (fun uri => resolve (Some uri)) uris) w)).
Proof.
  induction uris as [|uri uris IH]; intros w; cbn [map Promise_all].
  - constructor.
  - unfold resolve at 1, call.
    destruct (fileService_resolve (Some uri) w) as [o w1].
    specialize (IH w1).
    destruct (Promise_all (map (fun uri0 => resolve (Some uri0)) uris) w1) as [os w2 evs].
    cbn [events app] in *. constructor; [eexists; reflexivity | exact IH].
Qed.

Lemma Promise_all_resolve_thrown (uris : list URI) :
  forall (w : World) e,
    outcome (Promise_all (map (fun uri => resolve (Some uri)) uris) w) = Thrown e ->
    exists before uri after,
      events (Promise_all (map (fun uri => resolve (Some uri)) uris) w)
      = before ++ Resolve (Some uri) (Thrown e) :: after
      /\ Forall (fun ev => thrown_by ev = None) before.
Proof.
  induction uris as [|uri uris IH]; intros w e; cbn [map Promise_all].
  - discriminate.
  - unfold resolve at 1 3, call.
    destruct (fileService_resolve (Some uri) w) as [[stat|e0] w1].
    + specialize (IH w1 e).
      destruct (Promise_all (map (fun uri0 => resolve (Some uri0)) uris) w1)
        as [[stats|e1] w2 evs]; cbn [outcome events app] in *; [discriminate|].
      intros [= ->]. destruct (IH eq_refl) as (before & u & after & -> & Hbefore).
      exists (Resolve (Some uri) (Returned stat) :: before), u, after.
      split; [reflexivity|]. constructor; [reflexivity | exact Hbefore].
    + destruct (Promise_all (map (fun uri0 => resolve (Some uri0)) uris) w1)
        as [os w2 evs]; cbn [outcome events app].
      intros [= ->]. exists [], uri, evs. split; [reflexivity | constructor].
Qed.

Lemma Promise_all_resolve_rejects (uris : list URI) :
  forall (w : World) uri e,
    Resolve (Some uri) (Thrown e)
    ∈ events (Promise_all (map (fun uri => resolve (Some uri)) uris) w) ->
    exists e', outcome (Promise_all (map (fun uri => resolve (Some uri)) uris) w) = Thrown e'.
Proof.
  induction uris as [|u uris IH]; intros w uri e; cbn [map Promise_all].
  - intros H. apply elem_of_nil in H. destruct H.
  - unfold resolve at 1 3, call.
    destruct (fileService_resolve (Some u) w) as [[stat|e0] w1].
    + specialize (IH w1 uri e).
      destruct (Promise_all (map (fun uri0 => resolve (Some uri0)) uris) w1)
        as [[stats|e1] w2 evs]; cbn [outcome events app] in *.
      * intros H. apply elem_of_cons in H as [H|H]; [discriminate H|].
        destruct (IH H) as [e' He']. discriminate He'.
      * intros _. eexists. reflexivity.
    + destruct (Promise_all (map (fun uri0 => resolve (Some uri0)) uris) w1)
        as [os w2 evs]; cbn [outcome]. intros _. eexists. reflexivity.
Qed.

(** C6, as the code has it.  [getOpenableWorkspaceUri] gives back a single URI
    as it is, and the first element of an array shorter than two (nothing
    when it is empty).  For a longer array every URI is asked for.  When all
    of them are resolved, the result is the resource of the only directory
    when there is exactly one, and otherwise the URI of a workspace file made
    from the directories.  When the resolve of one of them is rejected, the
    call is rejected with the error of a resolve that failed, whatever the
    other URIs resolve to, and no workspace file is made.  [doOpenFolder]
    opens the URI it gets and resolves to it when it differs from the current
    workspace (or there is none), and resolves to undefined without opening
    anything otherwise; when [getOpenableWorkspaceUri] is rejected, so is
    [doOpenFolder], and nothing is opened. *)
Theorem openable_workspace_uri (w : World) :
  (forall uri,
     getOpenableWorkspaceUri (Single uri) w = mkResult (Returned (Some uri)) w [])
  /\ (forall uris,
        (length uris < 2)%nat ->
        getOpenableWorkspaceUri (Many uris) w = mkResult (Returned (head uris)) w [])
  /\ (forall uris stats w' evs,
        (2 <= length uris)%nat ->
        Promise_all (map (fun uri => resolve (Some uri)) uris) w
        = mkResult (Returned stats) w' evs ->
        let foldersToOpen := filter (fun stat => isDirectory stat = true) stats in
        let r := getOpenableWorkspaceUri (Many uris) w in
        (length stats = length uris
         /\ evs = zip_with (fun uri stat => Resolve (Some uri) (Returned stat)) uris stats)
        /\ (forall folder,
              foldersToOpen = [folder] ->
              r = mkResult (Returned (Some (resource folder))) w' evs)
        /\ (length foldersToOpen <> 1%nat ->
            let created := createMultiRootWorkspace foldersToOpen w' in
            outcome r
            = match outcome created with
              | Returned workspaceFile => Returned (Some workspaceFile)
              | Thrown e => Thrown e
              end
            /\ world r = world created
            /\ events r = evs ++ events created))
  /\ (forall roots w1 w2,
        let props := {| title := OPEN_FOLDER_dialogLabel; canSelectFolders := true;
                        canSelectFiles := false; canSelectMany := true |} in
        workspaceService_roots w = (Returned roots, w1) ->
        fileDialogService_showOpenDialog props (roots !! 0%nat) w1 = (Returned None, w2) ->
        doOpenFolder w
        = mkResult (Returned None) w2
            [Roots (Returned roots);
             ShowOpenDialog props (roots !! 0%nat) (Returned None);
             Console console_log [LUris None]])
  /\ (forall roots w1 targetFolders w2 openableUri,
        let props := {| title := OPEN_FOLDER_dialogLabel; canSelectFolders := true;
                        canSelectFiles := false; canSelectMany := true |} in
        let found := getOpenableWorkspaceUri targetFolders w2 in
        workspaceService_roots w = (Returned roots, w1) ->
        fileDialogService_showOpenDialog props (roots !! 0%nat) w1
        = (Returned (Some targetFolders), w2) ->
        outcome found = Returned openableUri ->
        let asked :=
          [Roots (Returned roots);
           ShowOpenDialog props (roots !! 0%nat) (Returned (Some targetFolders));
           Console console_log [LUris (Some targetFolders)]]
          ++ events found ++ [Console console_log [LUri openableUri]] in
        match openableUri with
        | Some uri =>
            if differs_from_workspace uri (world found)
            then doOpenFolder w
                 = mkResult (Returned (Some uri)) (workspaceService_open uri (world found))
                     (asked ++ [WorkspaceOpen uri])
            else doOpenFolder w = mkResult (Returned None) (world found) asked
        | None => doOpenFolder w = mkResult (Returned None) (world found) asked
        end)
  /\ (forall uris,
        (2 <= length uris)%nat ->
        let asked := Promise_all (map (fun uri => resolve (Some uri)) uris) w in
        let r := getOpenableWorkspaceUri (Many uris) w in
        Forall2 (fun uri ev => exists o, ev = Resolve (Some uri) o) uris (events asked)
        /\ (forall uri e,
              Resolve (Some uri) (Thrown e) ∈ events asked ->
              exists e', outcome asked = Thrown e')
        /\ (forall e,
              outcome asked = Thrown e ->
              r = mkResult (Thrown e) (world asked) (events asked)
              /\ exists uri, Resolve (Some uri) (Thrown e) ∈ events asked))
  /\ (forall roots w1 targetFolders w2 e,
        let props := {| title := OPEN_FOLDER_dialogLabel; canSelectFolders := true;
                        canSelectFiles := false; canSelectMany := true |} in
        let found := getOpenableWorkspaceUri targetFolders w2 in
        workspaceService_roots w = (Returned roots, w1) ->
        fileDialogService_showOpenDialog props (roots !! 0%nat) w1
        = (Returned (Some targetFolders), w2) ->
        outcome found = Thrown e ->
        doOpenFolder w
        = mkResult (Thrown e) (world found)
            ([Roots (Returned roots);
              ShowOpenDialog props (roots !! 0%nat) (Returned (Some targetFolders));
              Console console_log [LUris (Some targetFolders)]]
             ++ events found)).
Proof.
  split; [reflexivity|]. split.
  { intros uris Hlen. unfold getOpenableWorkspaceUri.
    apply Nat.ltb_lt in Hlen. rewrite Hlen. unfold ret. f_equal.
    destruct uris; reflexivity. }
  split.
  { intros uris stats w' evs Hlen Hall foldersToOpen r.
    split; [exact (Promise_all_resolve_returned uris w w' stats evs Hall)|].
    assert (Hr :
      r = after evs
            (match foldersToOpen with
             | [folder] => ret (Some (resource folder))
             | _ => bind (createMultiRootWorkspace foldersToOpen) (fun u => ret (Some u))
             end w')).
    { subst r. unfold getOpenableWorkspaceUri.
      apply Nat.ltb_ge in Hlen. rewrite Hlen. unfold bind at 1. rewrite Hall.
      reflexivity. }
    rewrite Hr. clear Hr. split.
    - intros folder ->. unfold ret, after. rewrite app_nil_r. reflexivity.
    - intros Hne.
      assert (Hrun :
        match foldersToOpen with
        | [folder] => ret (Some (resource folder))
        | _ => bind (createMultiRootWorkspace foldersToOpen) (fun u => ret (Some u))
        end w'
        = bind (createMultiRootWorkspace foldersToOpen) (fun u => ret (Some u)) w').
      { destruct foldersToOpen as [|f [|f' l]]; try reflexivity.
        exfalso. apply Hne. reflexivity. }
      rewrite Hrun. cbv zeta. unfold bind, ret, after.
      destruct (createMultiRootWorkspace foldersToOpen w') as [[u|e] w'' evs'];
        cbn; rewrite ?app_nil_r; auto. }
  split.
  { intros roots w1 w2 props Hroots Hdialog.
    unfold doOpenFolder, bind, call, console, emit, ret, after.
    rewrite Hroots. fold props. rewrite Hdialog. reflexivity. }
  split.
  { intros roots w1 targetFolders w2 openableUri props found Hroots Hdialog Hfound asked.
    unfold doOpenFolder, bind, call, console, emit, after.
    rewrite Hroots. fold props. rewrite Hdialog. fold found.
    destruct found as [o wf evsf]. cbn [outcome] in Hfound. subst o.
    cbn [world events] in *. subst asked.
    unfold open_if_changed, bind, read, workspaceService_open_, ret, after.
    destruct openableUri as [uri|]; [destruct (differs_from_workspace uri wf)|];
      cbn [app]; rewrite <- ?app_assoc; reflexivity. }
  split.
  { intros uris Hlen asked r.
    split; [apply Promise_all_resolve_asks_all|].
    split; [intros uri e; apply Promise_all_resolve_rejects|].
    intros e Hthrown. split.
    - subst r. unfold getOpenableWorkspaceUri.
      apply Nat.ltb_ge in Hlen. rewrite Hlen. unfold bind. fold asked.
      destruct asked as [[stats|e'] w' evs]; cbn [outcome] in Hthrown; [discriminate|].
      injection Hthrown as ->. reflexivity.
    - destruct (Promise_all_resolve_thrown uris w e Hthrown)
        as (before & uri & rest & Hevents & _).
      exists uri. fold asked in Hevents. rewrite Hevents.
      apply elem_of_app. right. constructor. }
  intros roots w1 targetFolders w2 e props found Hroots Hdialog Hfound.
  unfold doOpenFolder, bind, call, console, emit, after.
  rewrite Hroots. fold props. rewrite Hdialog. fold found.
  destruct found as [o wf evsf]. cbn [outcome] in Hfound. subst o. reflexivity.
Qed.

End MultiRoot.

(** ** Saving the workspace under a new name *)

Section SaveAs.
Context {uri_lib : UriLib} {host : Host}.
Import Js JsLib.

(** One turn of the loop, call by call. *)
Lemma saveWorkspaceAs_turn_eq (v : SaveVars) (w : World) :
  saveWorkspaceAs_turn v w
  = match fileDialogService_showSaveDialog w with
    | (Thrown e, w1) => mkResult (Thrown e) w1 [ShowSaveDialog (Thrown e)]
    | (Returned None, w1) =>
        mkResult
          (Returned {| selected := None; exist := exist v; overwritten := overwritten v |})
          w1 [ShowSaveDialog (Returned None)]
    | (Returned (Some picked), w1) =>
        let target := workspace_file_uri picked w1 in
        match fileService_exists target w1 with
        | (Thrown e, w2) =>
            mkResult (Thrown e) w2
              [ShowSaveDialog (Returned (Some picked)); Exists target (Thrown e)]
        | (Returned false, w2) =>
            mkResult
              (Returned {| selected := Some target; exist := false;
                           overwritten := overwritten v |})
              w2 [ShowSaveDialog (Returned (Some picked)); Exists target (Returned false)]
        | (Returned true, w2) =>
            match saveService_confirmOverwrite target w2 with
            | (Thrown e, w3) =>
                mkResult (Thrown e) w3
                  [ShowSaveDialog (Returned (Some picked)); Exists target (Returned true);
                   ConfirmOverwrite target (Thrown e)]
            | (Returned answer, w3) =>
                mkResult
                  (Returned {| selected := Some target; exist := true;
                               overwritten := answer |})
                  w3
                  [ShowSaveDialog (Returned (Some picked)); Exists target (Returned true);
                   ConfirmOverwrite target (Returned answer)]
            end
        end
    end.
Proof.
  unfold saveWorkspaceAs_turn, exists_, bind, call, read, ret, after.
  destruct (fileDialogService_showSaveDialog w) as [[[picked|]|e] w1]; try reflexivity.
  cbv zeta. cbn [app].
  destruct (fileService_exists (workspace_file_uri picked w1) w1) as [[[]|e] w2];
    try reflexivity.
  destruct (saveService_confirmOverwrite (workspace_file_uri picked w1) w2)
    as [[answer|e] w3]; reflexivity.
Qed.

Lemma saveWorkspaceAs_end_after (evs : list Event) (r : Result SaveVars) :
  saveWorkspaceAs_end (after evs r) = after evs (saveWorkspaceAs_end r).
Proof.
  destruct r as [[v|e] w evs']; cbn [after saveWorkspaceAs_end]; [|reflexivity].
  destruct (saveWorkspaceAs_finish v w) as [o w' evs'']. cbn [after].
  rewrite app_assoc. reflexivity.
Qed.

Lemma option_map_end_after (evs : list Event) (o : option (Result SaveVars)) :
  option_map saveWorkspaceAs_end (option_map (after evs) o)
  = option_map (after evs) (option_map saveWorkspaceAs_end o).
Proof. destruct o as [r|]; cbn; [rewrite saveWorkspaceAs_end_after|]; reflexivity. Qed.

(** What the variables hold when the loop is entered does not matter. *)
Lemma saveWorkspaceAs_loop_start (fuel : nat) (v1 v2 : SaveVars) (w : World) :
  option_map saveWorkspaceAs_end (saveWorkspaceAs_loop fuel v1 w)
  = option_map saveWorkspaceAs_end (saveWorkspaceAs_loop fuel v2 w).
Proof.
  destruct fuel as [|fuel]; [reflexivity|]. cbn [saveWorkspaceAs_loop].
  rewrite !saveWorkspaceAs_turn_eq.
  destruct (fileDialogService_showSaveDialog w) as [[[picked|]|e] w1]; try reflexivity.
  cbv zeta.
  destruct (fileService_exists (workspace_file_uri picked w1) w1) as [[[]|e] w2];
    reflexivity.
Qed.

Lemma saveWorkspaceAs_loop_S (fuel : nat) (v : SaveVars) (w : World) :
  saveWorkspaceAs_loop (S fuel) v w
  = match saveWorkspaceAs_turn v w with
    | mkResult (Thrown e) w' evs => Some (mkResult (Thrown e) w' evs)
    | mkResult (Returned v') w' evs =>
        if loops_again v'
        then option_map (after evs) (saveWorkspaceAs_loop fuel v' w')
        else Some (mkResult (Returned v') w' evs)
    end.
Proof.
  cbn [saveWorkspaceAs_loop].
  destruct (saveWorkspaceAs_turn v w) as [[v'|e] w' evs]; reflexivity.
Qed.

(** More turns allowed do not change a result. *)
Lemma saveWorkspaceAs_loop_more (fuel : nat) :
  forall v w r,
    saveWorkspaceAs_loop fuel v w = Some r ->
    saveWorkspaceAs_loop (S fuel) v w = Some r.
Proof.
  induction fuel as [|fuel IH]; intros v w r; [discriminate|].
  rewrite (saveWorkspaceAs_loop_S (S fuel)), (saveWorkspaceAs_loop_S fuel).
  destruct (saveWorkspaceAs_turn v w) as [[v'|e] w' evs]; [|trivial].
  destruct (loops_again v'); [|trivial].
  destruct (saveWorkspaceAs_loop fuel v' w') as [r'|] eqn:Hloop; [|discriminate].
  rewrite (IH _ _ _ Hloop). trivial.
Qed.

Lemma outcome_after {A} (evs : list Event) (r : Result A) :
  outcome (after evs r) = outcome r.
Proof. destruct r; reflexivity. Qed.

Lemma world_after {A} (evs : list Event) (r : Result A) :
  world (after evs r) = world r.
Proof. destruct r; reflexivity. Qed.

Lemma events_after {A} (evs : list Event) (r : Result A) :
  events (after evs r) = evs ++ events r.
Proof. destruct r; reflexivity. Qed.

(** The end of [saveWorkspaceAs], call by call. *)
Lemma saveWorkspaceAs_end_eq (v : SaveVars) (w : World) (evs : list Event) :
  saveWorkspaceAs_end (mkResult (Returned v) w evs)
  = match selected v with
    | None => mkResult (Returned false) w evs
    | Some target =>
        match workspaceService_save target w with
        | (Returned _, w') =>
            mkResult (Returned true) w' (evs ++ [WorkspaceSave target (Returned tt)])
        | (Thrown e, w') =>
            mkResult (Returned false) w'
              (evs ++ [WorkspaceSave target (Thrown e);
                       MessageError
                         (nls_localizeByDefault "Unable to save workspace '{0}'"
                            [URI_path_fsPath target])])
        end
    end.
Proof.
  unfold saveWorkspaceAs_end, saveWorkspaceAs_finish, try_catch, bind, call, emit, ret, after.
  destruct (selected v) as [target|]; [|rewrite app_nil_r; reflexivity].
  destruct (workspaceService_save target w) as [[[]|e] w']; reflexivity.
Qed.

(** A run that resolves to true ends with a save that succeeded, on a target
    that did not exist or whose replacement was confirmed. *)
Lemma saveWorkspaceAs_true (fuel : nat) :
  forall v w r,
    option_map saveWorkspaceAs_end (saveWorkspaceAs_loop fuel v w) = Some r ->
    outcome r = Returned true ->
    exists before picked w1,
      let target := workspace_file_uri picked w1 in
      events r
      = before ++ [ShowSaveDialog (Returned (Some picked)); Exists target (Returned false);
                   WorkspaceSave target (Returned tt)]
      \/ events r
         = before ++ [ShowSaveDialog (Returned (Some picked)); Exists target (Returned true);
                      ConfirmOverwrite target (Returned true);
                      WorkspaceSave target (Returned tt)].
Proof.
  induction fuel as [|fuel IH]; intros v w r; [discriminate|].
  rewrite saveWorkspaceAs_loop_S, saveWorkspaceAs_turn_eq.
  destruct (fileDialogService_showSaveDialog w) as [[[picked|]|e] w1];
    cbn [loops_again selected exist overwritten andb negb option_map];
    [|rewrite saveWorkspaceAs_end_eq; cbn [selected]; intros [= <-]; discriminate
     |intros [= <-]; discriminate].
  cbv zeta.
  destruct (fileService_exists (workspace_file_uri picked w1) w1) as [[[]|e] w2];
    cbn [loops_again selected exist overwritten andb negb option_map];
    [| |intros [= <-]; discriminate].
  - destruct (saveService_confirmOverwrite (workspace_file_uri picked w1) w2)
      as [[[]|e] w3];
      cbn [loops_again selected exist overwritten andb negb option_map];
      [| |intros [= <-]; discriminate].
    + rewrite saveWorkspaceAs_end_eq. cbn [selected].
      destruct (workspaceService_save (workspace_file_uri picked w1) w3) as [[[]|e] w4];
        intros [= <-]; [|discriminate].
      intros _. exists [], picked, w1. right. reflexivity.
    + rewrite option_map_end_after.
      destruct (option_map saveWorkspaceAs_end (saveWorkspaceAs_loop fuel _ w3))
        as [r'|] eqn:Hloop; [|discriminate].
      cbn [option_map]. intros [= <-]. rewrite outcome_after, events_after.
      intros Htrue.
      destruct (IH _ _ _ Hloop Htrue) as (before & picked' & w1' & Hev).
      eexists (_ ++ before), picked', w1'. cbv zeta in Hev |- *.
      destruct Hev as [-> | ->]; [left|right]; rewrite <- app_assoc; reflexivity.
  - rewrite saveWorkspaceAs_end_eq. cbn [selected].
    destruct (workspaceService_save (workspace_file_uri picked w1) w2) as [[[]|e] w3];
      intros [= <-]; [|discriminate].
    intros _. exists [], picked, w1. left. reflexivity.
Qed.

(** C5. [saveWorkspaceAs] asks again as long as the user picks a target that
    exists and declines to replace it; it resolves to true only after
    [workspaceService.save] has succeeded on a target that did not exist or
    whose replacement was confirmed; it resolves to false when the dialog is
    cancelled and, with an error message shown, when the save throws; and a
    display name that ends with none of the workspace file extensions gets
    the default extension before the target is looked up.  A result does not
    depend on how many more turns are allowed. *)
Theorem save_workspace_as_loop (fuel : nat) (w : World) :
  (forall picked w1 w2 w3,
     let target := workspace_file_uri picked w1 in
     fileDialogService_showSaveDialog w = (Returned (Some picked), w1) ->
     fileService_exists target w1 = (Returned true, w2) ->
     saveService_confirmOverwrite target w2 = (Returned false, w3) ->
     saveWorkspaceAs (S fuel) w
     = option_map
         (after [ShowSaveDialog (Returned (Some picked)); Exists target (Returned true);
                 ConfirmOverwrite target (Returned false)])
         (saveWorkspaceAs fuel w3))
  /\ (forall r,
        saveWorkspaceAs fuel w = Some r ->
        outcome r = Returned true ->
        exists before picked w1,
          let target := workspace_file_uri picked w1 in
          events r
          = before ++ [ShowSaveDialog (Returned (Some picked));
                       Exists target (Returned false);
                       WorkspaceSave target (Returned tt)]
          \/ events r
             = before ++ [ShowSaveDialog (Returned (Some picked));
                          Exists target (Returned true);
                          ConfirmOverwrite target (Returned true);
                          WorkspaceSave target (Returned tt)])
  /\ (forall w1,
        fileDialogService_showSaveDialog w = (Returned None, w1) ->
        saveWorkspaceAs (S fuel) w
        = Some (mkResult (Returned false) w1 [ShowSaveDialog (Returned None)]))
  /\ (forall picked w1 w2,
        let target := workspace_file_uri picked w1 in
        let asked := [ShowSaveDialog (Returned (Some picked));
                      Exists target (Returned false)] in
        fileDialogService_showSaveDialog w = (Returned (Some picked), w1) ->
        fileService_exists target w1 = (Returned false, w2) ->
        saveWorkspaceAs (S fuel) w
        = Some
            match workspaceService_save target w2 with
            | (Returned _, w3) =>
                mkResult (Returned true) w3 (asked ++ [WorkspaceSave target (Returned tt)])
            | (Thrown e, w3) =>
                mkResult (Returned false) w3
                  (asked ++ [WorkspaceSave target (Thrown e);
                             MessageError
                               (nls_localizeByDefault "Unable to save workspace '{0}'"
                                  [URI_path_fsPath target])])
            end)
  /\ (forall picked w1 w2 w3,
        let target := workspace_file_uri picked w1 in
        let asked := [ShowSaveDialog (Returned (Some picked));
                      Exists target (Returned true);
                      ConfirmOverwrite target (Returned true)] in
        fileDialogService_showSaveDialog w = (Returned (Some picked), w1) ->
        fileService_exists target w1 = (Returned true, w2) ->
        saveService_confirmOverwrite target w2 = (Returned true, w3) ->
        saveWorkspaceAs (S fuel) w
        = Some
            match workspaceService_save target w3 with
            | (Returned _, w4) =>
                mkResult (Returned true) w4 (asked ++ [WorkspaceSave target (Returned tt)])
            | (Thrown e, w4) =>
                mkResult (Returned false) w4
                  (asked ++ [WorkspaceSave target (Thrown e);
                             MessageError
                               (nls_localizeByDefault "Unable to save workspace '{0}'"
                                  [URI_path_fsPath target])])
            end)
  /\ (forall picked,
        let displayName := URI_displayName picked in
        let extensions := workspaceFileService_getWorkspaceFileExtensions w in
        let defaultExtension :=
          default "undefined" (extensions !! workspaceFileService_defaultFileTypeIndex w) in
        ((exists ext pre, ext ∈ extensions /\ displayName = pre +:+ ext) ->
         workspace_file_uri picked w = picked)
        /\ ((forall ext pre, ext ∈ extensions -> displayName <> pre +:+ ext) ->
            workspace_file_uri picked w
            = URI_resolve (URI_parent picked) (displayName +:+ defaultExtension)))
  /\ (forall r, saveWorkspaceAs fuel w = Some r -> saveWorkspaceAs (S fuel) w = Some r).
Proof.
  split; [|split; [|split; [|split; [|split; [|split]]]]].
  - intros picked w1 w2 w3 target Hdialog Hexists Hconfirm.
    unfold saveWorkspaceAs. rewrite saveWorkspaceAs_loop_S, saveWorkspaceAs_turn_eq.
    rewrite Hdialog. cbv zeta. fold target. rewrite Hexists, Hconfirm.
    cbn [loops_again selected exist overwritten andb negb].
    rewrite option_map_end_after. f_equal. apply saveWorkspaceAs_loop_start.
  - intros r. unfold saveWorkspaceAs. apply saveWorkspaceAs_true.
  - intros w1 Hdialog.
    unfold saveWorkspaceAs. rewrite saveWorkspaceAs_loop_S, saveWorkspaceAs_turn_eq.
    rewrite Hdialog. cbn [loops_again selected andb option_map].
    rewrite saveWorkspaceAs_end_eq. reflexivity.
  - intros picked w1 w2 target asked Hdialog Hexists.
    unfold saveWorkspaceAs. rewrite saveWorkspaceAs_loop_S, saveWorkspaceAs_turn_eq.
    rewrite Hdialog. cbv zeta. fold target. rewrite Hexists.
    cbn [loops_again selected exist overwritten andb negb option_map].
    rewrite saveWorkspaceAs_end_eq. reflexivity.
  - intros picked w1 w2 w3 target asked Hdialog Hexists Hconfirm.
    unfold saveWorkspaceAs. rewrite saveWorkspaceAs_loop_S, saveWorkspaceAs_turn_eq.
    rewrite Hdialog. cbv zeta. fold target. rewrite Hexists, Hconfirm.
    cbn [loops_again selected exist overwritten andb negb option_map].
    rewrite saveWorkspaceAs_end_eq. reflexivity.
  - intros picked displayName extensions defaultExtension.
    unfold workspace_file_uri, with_default_extension.
    fold displayName. fold extensions. fold defaultExtension. split.
    + intros (ext & pre & Hin & Hname).
      assert (E : existsb (fun ext => endsWith displayName ext) extensions = true).
      { apply existsb_exists. exists ext. split; [apply list_elem_of_In, Hin|].
        apply endsWith_spec. exists pre. exact Hname. }
      rewrite E. reflexivity.
    + intros Hnone.
      assert (E : existsb (fun ext => endsWith displayName ext) extensions = false).
      { apply not_true_is_false. intros Htrue.
        apply existsb_exists in Htrue as (ext & Hin & Hends).
        apply endsWith_spec in Hends as [pre Hname].
        exact (Hnone ext pre (proj2 (list_elem_of_In _ _) Hin) Hname). }
      rewrite E. reflexivity.
  - intros r. unfold saveWorkspaceAs.
    destruct (saveWorkspaceAs_loop fuel _ w) as [r'|] eqn:Hloop; [|discriminate].
    rewrite (saveWorkspaceAs_loop_more _ _ _ _ Hloop). trivial.
Qed.

End SaveAs.

Section WorkspaceRuns.
Import Js JsLib JsonText TestHost.

(** A folder with a double quote in its name given twice, and one with a
    backslash: each path is listed once, and the quote and the backslash are
    written with a backslash before them. *)
Lemma multi_root_workspace_file_witness :
  let quote := "file:///a" +:+ dq +:+ "b" in
  let roots := [folder_stat quote; folder_stat "file:///c\d"; folder_stat quote] in
  let paths := ["/a" +:+ dq +:+ "b"; "/c\d"] in
  let text :=
    String.concat nl
      ["{";
       q ["    "; "folders"; ": ["];
       "        {";
       q ["            "; "path"; ": "; "/a" +:+ backslash; "b"; ""];
       "        },";
       "        {";
       q ["            "; "path"; ": "; "/c\\d"; ""];
       "        }";
       "    ]";
       "}"] in
  (exists before' after',
     Set_new (map (fun stat => URI_path_toString (resource stat)) roots)
     = before' ++ "/c\d" :: after'
     /\ forall y, y ∈ before' <-> y ∈ ["/a" +:+ dq +:+ "b"])
  /\ Set_new (map (fun stat => URI_path_toString (resource stat)) roots) = paths
  /\ (exists literals,
        Forall2 (fun literal path => json_unquote literal = Some path) literals paths
        /\ text = workspace_file_text literals)
  /\ files (world (createMultiRootWorkspace roots (disk_of []))) = [(untitled, text)].
Proof.
  intros quote roots paths text.
  destruct (multi_root_workspace_file (host := TestHost.host) roots (disk_of []))
    as (_ & _ & Hfirst & literals & Hliterals & Htext & _).
  split.
  - assert (Hc : "/c\d" ∉ ["/a" +:+ dq +:+ "b"]).
    { intros Hin. apply list_elem_of_singleton in Hin. discriminate. }
    exact (Hfirst ["/a" +:+ dq +:+ "b"] "/c\d" ["/a" +:+ dq +:+ "b"] eq_refl Hc).
  - split; [reflexivity|]. split.
    + exists literals. split; [exact Hliterals|].
      rewrite <- Htext. vm_compute. reflexivity.
    + vm_compute. reflexivity.
Defined.

(** An untitled workspace file that is already there is replaced. *)
Example untitled_workspace_file_replaced :
  let d := {| folders := []; files := [(untitled, "old")]; locked := []; opened := None;
              openDialogAnswers := []; saveDialogAnswers := []; overwriteAnswers := [] |} in
  files (world (createMultiRootWorkspace [folder_stat "file:///a"] d))
  = [(untitled, workspace_file_text [q [""; "/a"; ""]])].
Proof. vm_compute. reflexivity. Qed.

(** A folder and a file picked together: the folder is what is opened. *)
Lemma openable_workspace_uri_witness :
  let d := desk [] [] [] in
  getOpenableWorkspaceUri (Many ["file:///w"; "file:///w/notes.txt"]) d
  = mkResult (Returned (Some "file:///w")) d
      [Resolve (Some "file:///w") (Returned (folder_stat "file:///w"));
       Resolve (Some "file:///w/notes.txt") (Returned (file_stat "file:///w/notes.txt"))].
Proof.
  cbn zeta.
  assert (Hlen : (2 <= length ["file:///w"; "file:///w/notes.txt"])%nat) by (cbn; lia).
  destruct (openable_workspace_uri (host := TestHost.host) (desk [] [] []))
    as (_ & _ & Harray & _).
  destruct (Harray ["file:///w"; "file:///w/notes.txt"]
              [folder_stat "file:///w"; file_stat "file:///w/notes.txt"]
              (desk [] [] []) _ Hlen eq_refl) as (_ & Hone & _).
  exact (Hone (folder_stat "file:///w") eq_refl).
Defined.

(** A folder picked together with something that is not on the disk.  Exactly
    one of the two resolves to a directory, and yet the result is not that
    directory: the call is rejected with the error of the other one. *)
Lemma one_directory_and_a_missing_uri :
  let d := desk [] [] [] in
  let uris := ["file:///w"; "file:///gone"] in
  filter (fun uri => resolves_to_directory d uri = true) uris = ["file:///w"]
  /\ getOpenableWorkspaceUri (Many uris) d
     = mkResult (Thrown (HostError 404)) d
         [Resolve (Some "file:///w") (Returned (folder_stat "file:///w"));
          Resolve (Some "file:///gone") (Thrown (HostError 404))]
  /\ ~ (forall (uris : list string) (w : Disk) (folder : string),
          (2 <= length uris)%nat ->
          filter (fun uri => resolves_to_directory w uri = true) uris = [folder] ->
          outcome (getOpenableWorkspaceUri (Many uris) w) = Returned (Some folder)).
Proof.
  cbn zeta. split; [reflexivity|]. split; [reflexivity|].
  intros Hclaim.
  specialize (Hclaim ["file:///w"; "file:///gone"] (desk [] [] []) "file:///w").
  assert (Hlen : (2 <= length ["file:///w"; "file:///gone"])%nat) by (cbn; lia).
  specialize (Hclaim Hlen eq_refl). discriminate Hclaim.
Qed.

(** The same two URIs picked in the Open Folder dialog: nothing is opened. *)
Example open_folder_with_a_missing_uri :
  let picked := Some (Many ["file:///w"; "file:///gone"]) in
  let r := doOpenFolder (desk [picked] [] []) in
  outcome r = Thrown (HostError 404) /\ opened (world r) = None.
Proof. cbn zeta. split; reflexivity. Qed.

(** Picked in the Open Folder dialog with nothing open, the folder is opened;
    picked while it is the open workspace, it is not opened again. *)
Example open_folder_opens_the_folder :
  let picked := Some (Many ["file:///w"; "file:///w/notes.txt"]) in
  let r := doOpenFolder (desk [picked] [] []) in
  outcome r = Returned (Some "file:///w")
  /\ opened (world r) = Some "file:///w"
  /\ outcome (doOpenFolder (disk_open "file:///w" (desk [picked] [] []))) = Returned None.
Proof. cbn zeta. repeat split; reflexivity. Qed.

(** The user picks the name of a workspace file that exists, declines to
    replace it, and is asked again. *)
Lemma save_workspace_as_loop_witness :
  saveWorkspaceAs 2 (desk [] [Some "file:///w/a"; None] [false])
  = option_map
      (after [ShowSaveDialog (Returned (Some "file:///w/a"));
              Exists "file:///w/a.theia-workspace" (Returned true);
              ConfirmOverwrite "file:///w/a.theia-workspace" (Returned false)])
      (saveWorkspaceAs 1 (desk [] [None] [])).
Proof.
  exact (proj1 (save_workspace_as_loop (host := TestHost.host) 1
                  (desk [] [Some "file:///w/a"; None] [false]))
           "file:///w/a" (desk [] [None] [false]) (desk [] [None] [false])
           (desk [] [None] []) eq_refl eq_refl eq_refl).
Defined.

(** ... and cancels the second time: the result is false and nothing is saved. *)
Example save_declined_then_cancelled :
  saveWorkspaceAs 2 (desk [] [Some "file:///w/a"; None] [false])
  = Some (mkResult (Returned false) (desk [] [] [])
            [ShowSaveDialog (Returned (Some "file:///w/a"));
             Exists "file:///w/a.theia-workspace" (Returned true);
             ConfirmOverwrite "file:///w/a.theia-workspace" (Returned false);
             ShowSaveDialog (Returned None)]).
Proof. reflexivity. Qed.

End WorkspaceRuns.

(** * Further properties *)

(** ** Looking up the target directory *)

Section DirectoryLookup.
Context {uri_lib : UriLib} {host : Host}.
Import Js JsLib.

(** X1. [getDirectory] never throws and asks the file service at most twice,
    first for the candidate and then for its parent.  A candidate that is a
    directory is the answer.  When the candidate cannot be resolved or is not
    a directory, its parent is asked for next, in the world the first call
    left, and the answer is what the parent resolves to, or undefined when
    that throws; the error of either call is dropped.  With no candidate there
    is no parent to ask for, and the answer is undefined.  So a stat that is
    not a directory can only be the parent's. *)
Theorem getDirectory_falls_back_to_parent (candidate : option URI) (w : World) :
  let r := getDirectory candidate w in
  (exists result, outcome r = Returned result)
  /\ (length (events r) <= 2)%nat
  /\ Forall (fun ev => is_resolve ev = true) (events r)
  /\ (forall stat w',
        fileService_resolve candidate w = (Returned stat, w') ->
        isDirectory stat = true ->
        r = mkResult (Returned (Some stat)) w' [Resolve candidate (Returned stat)])
  /\ (forall c o w1 o' w2,
        candidate = Some c ->
        fileService_resolve (Some c) w = (o, w1) ->
        (forall stat, o = Returned stat -> isDirectory stat = false) ->
        fileService_resolve (Some (URI_parent c)) w1 = (o', w2) ->
        r = mkResult
              (Returned match o' with
                        | Returned parent => Some parent
                        | Thrown _ => None
                        end)
              w2
              [Resolve (Some c) o; Resolve (Some (URI_parent c)) o'])
  /\ (forall o w1,
        candidate = None ->
        fileService_resolve None w = (o, w1) ->
        (forall stat, o = Returned stat -> isDirectory stat = false) ->
        r = mkResult (Returned None) w1 [Resolve None o])
  /\ (forall stat,
        outcome r = Returned (Some stat) ->
        isDirectory stat = false ->
        exists c o,
          candidate = Some c
          /\ events r = [Resolve (Some c) o; Resolve (Some (URI_parent c)) (Returned stat)])
  /\ (candidate = None ->
      forall stat,
        outcome r = Returned (Some stat) ->
        isDirectory stat = true /\ events r = [Resolve None (Returned stat)]).
Proof.
  cbn zeta.
  split; [|split; [|split; [|split; [|split; [|split]]]]].
  - async_unfold.
    destruct candidate as [c|]; repeat (host_call; cbn [app]); cbn [outcome];
      eexists; reflexivity.
  - async_unfold.
    destruct candidate as [c|]; repeat (host_call; cbn [app]); cbn [events length]; lia.
  - async_unfold.
    destruct candidate as [c|]; repeat (host_call; cbn [app]); cbn [events];
      repeat constructor.
  - intros stat w' Hresolve Hdir. async_unfold. rewrite Hresolve, Hdir. reflexivity.
  - intros c o w1 o' w2 -> Hresolve Hnodir Hparent. async_unfold. rewrite Hresolve.
    destruct o as [stat|e].
    + rewrite (Hnodir stat eq_refl), Hparent. destruct o'; reflexivity.
    + rewrite Hparent. destruct o'; reflexivity.
  - intros o w1 -> Hresolve Hnodir. async_unfold. rewrite Hresolve.
    destruct o as [stat|e]; [rewrite (Hnodir stat eq_refl)|]; reflexivity.
  - async_unfold.
    destruct candidate as [c|]; repeat (host_call; cbn [app]); cbn [outcome events];
      (split; [intros s [= <-] Hs; try congruence; eauto|]);
      intros Hc s Hs; try discriminate; injection Hs as <-; auto.
Qed.


End DirectoryLookup.

(** ** Every run of the save dialog *)

Section SaveTrace.
Context {uri_lib : UriLib} {host : Host}.
Import Js JsLib.

Lemma saveWorkspaceAs_loop_trace (fuel : nat) :
  forall v w r,
    option_map saveWorkspaceAs_end (saveWorkspaceAs_loop fuel v w) = Some r ->
    exists turns last,
      events r = concat (map declined_turn turns) ++ last
      /\ last_turn (outcome r) last
      /\ (length turns < fuel)%nat.
Proof.
  induction fuel as [|fuel IH]; intros v w r; [discriminate|].
  rewrite saveWorkspaceAs_loop_S, saveWorkspaceAs_turn_eq.
  destruct (fileDialogService_showSaveDialog w) as [[[picked|]|e] w1];
    cbn [loops_again selected exist overwritten andb negb option_map].
  - cbv zeta.
    destruct (fileService_exists (workspace_file_uri picked w1) w1) as [[[]|e] w2];
      cbn [loops_again selected exist overwritten andb negb option_map].
    + destruct (saveService_confirmOverwrite (workspace_file_uri picked w1) w2)
        as [[[]|e] w3];
        cbn [loops_again selected exist overwritten andb negb option_map].
      * rewrite saveWorkspaceAs_end_eq. cbn [selected].
        destruct (workspaceService_save (workspace_file_uri picked w1) w3) as [[[]|e] w4];
          intros [= <-]; eexists [], _; cbn [map concat app outcome events length];
          (split; [reflexivity|split; [|lia]]);
          right; right; right;
          exists picked, w1, [Exists (workspace_file_uri picked w1) (Returned true);
                              ConfirmOverwrite (workspace_file_uri picked w1) (Returned true)];
          (split; [right; reflexivity|]).
        -- left. split; reflexivity.
        -- right. exists e. split; reflexivity.
      * rewrite option_map_end_after.
        destruct (option_map saveWorkspaceAs_end (saveWorkspaceAs_loop fuel _ w3))
          as [r'|] eqn:Hloop; [|discriminate].
        cbn [option_map]. intros [= <-].
        destruct (IH _ _ _ Hloop) as (turns & last & Hev & Hlast & Hlen).
        exists ((picked, w1) :: turns), last.
        rewrite outcome_after, events_after, Hev. cbn [map concat length].
        split; [|split; [exact Hlast|lia]].
        unfold declined_turn at 2. cbn [fst snd app]. reflexivity.
      * intros [= <-]. eexists [], _. cbn [map concat app outcome events length].
        split; [reflexivity|split; [|lia]].
        right; right; left. exists picked, w1, e. split; [reflexivity|]. right. reflexivity.
    + rewrite saveWorkspaceAs_end_eq. cbn [selected].
      destruct (workspaceService_save (workspace_file_uri picked w1) w2) as [[[]|e] w3];
        intros [= <-]; eexists [], _; cbn [map concat app outcome events length];
        (split; [reflexivity|split; [|lia]]);
        right; right; right;
        exists picked, w1, [Exists (workspace_file_uri picked w1) (Returned false)];
        (split; [left; reflexivity|]).
      * left. split; reflexivity.
      * right. exists e. split; reflexivity.
    + intros [= <-]. eexists [], _. cbn [map concat app outcome events length].
      split; [reflexivity|split; [|lia]].
      right; right; left. exists picked, w1, e. split; [reflexivity|]. left. reflexivity.
  - rewrite saveWorkspaceAs_end_eq. cbn [selected]. intros [= <-].
    eexists [], _. cbn [map concat app outcome events length].
    split; [reflexivity|split; [|lia]]. left. split; reflexivity.
  - intros [= <-]. eexists [], _. cbn [map concat app outcome events length].
    split; [reflexivity|split; [|lia]]. right; left. exists e. split; reflexivity.
Qed.

(** X3. Every finished run of [saveWorkspaceAs] is a row of turns in which the
    user picked an existing target and declined to replace it, followed by
    one last turn.  Only the last turn can save, it does so at most once and
    only on a target that does not exist or that the user agreed to replace;
    the error message is shown only after a save that threw; and the call
    rejects only when the dialog, the existence check or the question threw. *)
Theorem save_workspace_as_runs (fuel : nat) (w : World) (r : Result bool) :
  saveWorkspaceAs fuel w = Some r ->
  exists turns last,
    events r = concat (map declined_turn turns) ++ last
    /\ last_turn (outcome r) last
    /\ (length turns < fuel)%nat.
Proof. unfold saveWorkspaceAs. apply saveWorkspaceAs_loop_trace. Qed.

End SaveTrace.

(** ** Several folders at once *)

Section SeveralFolders.
Context {uri_lib : UriLib} {host : Host}.
Import Js JsLib.

(** X4. When one of several picked URIs cannot be resolved,
    [getOpenableWorkspaceUri] rejects with the error of a resolve that failed.
    Every URI has been asked for all the same, one call each and in order, and
    nothing else is done: no workspace file is written. *)
Theorem openable_workspace_uri_rejects (uris : list URI) (w : World) (e : JsError) :
  (2 <= length uris)%nat ->
  outcome (Promise_all (map (fun uri => resolve (Some uri)) uris) w) = Thrown e ->
  let r := getOpenableWorkspaceUri (Many uris) w in
  outcome r = Thrown e
  /\ Forall2 (fun uri ev => exists o, ev = Resolve (Some uri) o) uris (events r)
  /\ exists uri, Resolve (Some uri) (Thrown e) ∈ events r.
Proof.
  intros Hlen Hthrown r.
  assert (Hr : outcome r = Thrown e
               /\ events r
                  = events (Promise_all (map (fun uri => resolve (Some uri)) uris) w)).
  { subst r. unfold getOpenableWorkspaceUri.
    apply Nat.ltb_ge in Hlen. rewrite Hlen. unfold bind.
    destruct (Promise_all (map (fun uri => resolve (Some uri)) uris) w) as [[stats|e'] w' evs];
      cbn [outcome] in Hthrown; [discriminate|].
    injection Hthrown as ->. split; reflexivity. }
  destruct Hr as [Hout Hev].
  split; [exact Hout|]. rewrite Hev. split.
  - apply Promise_all_resolve_asks_all.
  - destruct (Promise_all_resolve_thrown uris w e Hthrown) as (before & uri & after & -> & _).
    exists uri. apply elem_of_app. right. constructor.
Qed.

Lemma Set_fold_absorbs (more acc : list string) :
  (forall x, x ∈ more -> x ∈ acc) -> fold_left Set_add more acc = acc.
Proof.
  revert acc. induction more as [|a more IH]; intros acc Hin; [reflexivity|].
  cbn [fold_left].
  assert (Ha : Set_add acc a = acc).
  { unfold Set_add. rewrite bool_decide_eq_true_2; [reflexivity|].
    apply Hin. constructor. }
  rewrite Ha. apply IH. intros x Hx. apply Hin. constructor. exact Hx.
Qed.

(** X5. Roots whose paths are listed already change nothing: the workspace file
    written for the roots followed by such roots is the one written for the
    roots alone. *)
Theorem repeated_roots_change_nothing (roots more : list FileStat) (w : World) :
  (forall stat,
     stat ∈ more ->
     URI_path_toString (resource stat)
     ∈ map (fun stat => URI_path_toString (resource stat)) roots) ->
  createMultiRootWorkspace (roots ++ more) w = createMultiRootWorkspace roots w.
Proof.
  intros Hmore. unfold createMultiRootWorkspace.
  rewrite map_app. unfold Set_new at 1. rewrite fold_left_app.
  fold (Set_new (map (fun stat => URI_path_toString (resource stat)) roots)).
  rewrite Set_fold_absorbs; [reflexivity|].
  intros x Hx. apply Set_new_elem.
  apply list_elem_of_fmap in Hx as (stat & -> & Hstat). apply Hmore, Hstat.
Qed.

End SeveralFolders.

(** ** The text of the parent URI *)

Section ParentUriText.
Import Js JsLib TestHost.

(** X6. Two target directories give the same URI text exactly when they differ
    in nothing but the direction of their slashes. *)
Theorem parent_uri_text_tells_directories_apart (d1 d2 : string) :
  "file:///" +:+ encodeURIComponent (replace_global backslash "/" d1)
  = "file:///" +:+ encodeURIComponent (replace_global backslash "/" d2)
  <-> slashes d1 = slashes d2.
Proof.
  rewrite !replace_backslashes. split.
  - intros H. apply (inj (String.append "file:///")) in H.
    apply encodeURIComponent_inj, H.
  - intros ->. reflexivity.
Qed.

End ParentUriText.

(** ** The contract commands away from the expected path *)

Section ContractFallbacks.
Context {uri_lib : UriLib} {host : Host}.
Import Js JsLib.

(** X7. When the target of a contract command is not a directory (it cannot be
    resolved, or it resolves to something else), the command goes on with
    whatever the parent of the target resolves to, without asking whether that
    is a directory: the folder or the file is created under it. *)
Theorem contract_commands_fall_back_to_the_parent
    (targetDirectory folderName : option string) (fileName content : string)
    (uri : option URI) (target : URI) (o : Outcome FileStat) (stat : FileStat)
    (w w1 w2 : World) :
  parentUri targetDirectory uri = Returned (Some target) ->
  fileService_resolve (Some target) w = (o, w1) ->
  (forall s, o = Returned s -> isDirectory s = false) ->
  fileService_resolve (Some (URI_parent target)) w1 = (Returned stat, w2) ->
  let folderUri := URI_resolve (resource stat) (or_Untitled folderName) in
  let fileUri := URI_resolve (resource stat) fileName in
  (exists tail,
     events (execute_NEW_CONTRACT_FOLDER targetDirectory folderName uri w)
     = [Resolve (Some target) o;
        Resolve (Some (URI_parent target)) (Returned stat);
        Console console_log [LStr "folderUri ->"; LStr (URI_toString folderUri)];
        CreateFolder folderUri (fst (fileService_createFolder folderUri w2))] ++ tail)
  /\ (exists head tail,
        events (execute_NEW_CONTRACT_FILE targetDirectory fileName content uri w)
        = head
          ++ [Resolve (Some target) o;
              Resolve (Some (URI_parent target)) (Returned stat);
              Console console_log [LStr "fileUri ->"; LStr (URI_toString fileUri)];
              CreateFile fileUri content None
                (fst (fileService_createFile fileUri content None w2))] ++ tail
        /\ Forall (fun ev => exists args, ev = Console console_log args) head).
Proof.
  intros Hp Ho Hnodir Hparent folderUri fileUri.
  assert (Hstat :
    forall (A : Type) (k : option FileStat -> A),
      match o with
      | Returned s => if isDirectory s then k (Some s) else k None
      | Thrown _ => k None
      end = k None).
  { intros A k. destruct o as [s|e]; [|reflexivity]. rewrite (Hnodir s eq_refl). reflexivity. }
  split.
  - async_unfold. rewrite Hp, Ho.
    destruct o as [s|e]; [rewrite (Hnodir s eq_refl)|];
      cbn [app]; rewrite Hparent; cbn [app]; fold folderUri;
      destruct (fileService_createFolder folderUri w2) as [[s'|e'] w3];
      cbn [app fst events]; eexists; reflexivity.
  - async_unfold. rewrite Hp. cbn [app]. rewrite Ho.
    destruct o as [s|e]; [rewrite (Hnodir s eq_refl)|];
      cbn [app]; rewrite Hparent; cbn [app]; fold fileUri;
      destruct (fileService_createFile fileUri content None w2) as [[s'|e'] w3];
      cbn [app fst events];
      eexists [_; _; _], _; (split; [reflexivity|]); repeat constructor; eauto.
Qed.

(** X8. Without a parent URI (no target directory, or an empty one, and no URI
    given) the file command gives up before it calls any service: the missing
    URI is the error it writes to the console.  The folder command asks the
    file service for the missing URI instead, and warns when that gives no
    directory; neither creates anything then. *)
Theorem contract_commands_without_parent_uri
    (targetDirectory folderName : option string) (fileName content : string)
    (uri : option URI) (w : World) :
  parentUri targetDirectory uri = Returned None ->
  (exists msg,
     execute_NEW_CONTRACT_FILE targetDirectory fileName content uri w
     = mkResult (Returned tt) w
         [Console console_log
            [LStr "targetDirectory ->";
             match targetDirectory with Some d => LStr d | None => LStr "undefined" end];
          Console console_error [LStr "Error creating file:"; LErr (TypeError msg)]])
  /\ (forall o w1,
        fileService_resolve None w = (o, w1) ->
        (forall s, o = Returned s -> isDirectory s = false) ->
        execute_NEW_CONTRACT_FOLDER targetDirectory folderName uri w
        = mkResult (Returned tt) w1
            [Resolve None o;
             Console console_warn
               [LStr "Parent directory could not be found or is invalid."]]).
Proof.
  intros Hp. split.
  - async_unfold. rewrite Hp. cbn [app]. eexists. reflexivity.
  - intros o w1 Ho Hnodir. async_unfold. rewrite Hp, Ho.
    destruct o as [s|e]; [rewrite (Hnodir s eq_refl)|]; reflexivity.
Qed.

End ContractFallbacks.

(** ** The project form *)

Section FormFacts.
Context {uri_lib : UriLib} {host : Host}.
Import Js JsLib UriText.

(** X9. Choosing another blockchain leaves the language as it was.  A language
    picked for one blockchain is then not among the languages offered for the
    other one, and the Create Project button stays enabled: the project is
    created with a pair that the form does not offer. *)
Theorem other_blockchain_keeps_the_language (this : GettingStartedWidget) (chain : string) :
  projectName this <> "" ->
  language this <> "" ->
  language this ∈ options_language (renderDialogBox this) ->
  chain ∈ ["Ethereum"; "Solana"] ->
  chain <> blockchain this ->
  let this' := Form.handleInputChange Form.field_blockchain chain this in
  select_language (renderDialogBox this') = language this
  /\ (language this ∉ options_language (renderDialogBox this'))
  /\ click (button_create (renderDialogBox this'))
     = Some (doCreateContract_ (path this) (projectName this)).
Proof.
  intros Hname Hlang Hin Hchain Hdiff this'.
  split; [reflexivity|]. split.
  - subst this'. revert Hin.
    cbn [renderDialogBox options_language Form.handleInputChange blockchain language].
    destruct (String.eqb_spec (blockchain this) "Ethereum") as [He|He];
      destruct (String.eqb_spec (blockchain this) "Solana") as [Hs|Hs];
      try congruence;
      apply elem_of_cons in Hchain as [->|Hchain];
      try apply list_elem_of_singleton in Hchain as ->;
      try congruence;
      cbn [String.eqb Ascii.eqb Bool.eqb andb app];
      intros Hin Hin';
      repeat (apply elem_of_cons in Hin as [Hin|Hin]; [congruence|]);
      try (apply elem_of_nil in Hin; exact Hin);
      repeat (apply elem_of_cons in Hin' as [Hin'|Hin'];
              [rewrite Hin' in Hin; repeat (apply elem_of_cons in Hin as [Hin|Hin];
                                            [discriminate Hin|]);
               apply elem_of_nil in Hin; exact Hin|]);
      apply elem_of_nil in Hin'; exact Hin'.
  - unfold click. cbn [renderDialogBox button_create button_disabled button_onClick].
    assert (E : isCreateButtonDisabled this' = false).
    { apply isCreateButtonDisabled_false. subst this'.
      cbn [Form.handleInputChange projectName blockchain language].
      repeat split; try assumption.
      intros ->. apply elem_of_cons in Hchain as [Hc|Hchain]; [discriminate|].
      apply list_elem_of_singleton in Hchain. discriminate. }
    rewrite E. reflexivity.
Qed.

(** X10. [createProject] writes one line with the three values and leaves a
    form in which the project name, the blockchain and the language are the
    empty string and the dialog is flipped; the path, the recent workspaces
    and the home directory stay.  The dialog drawn from that form shows the
    three empty values, offers no language but the empty one, and its Create
    Project button is disabled.  It stays disabled while one of the three is
    missing, whatever is typed into the other two, and once all three are
    given again the button creates the project in the path that was there
    before. *)
Theorem create_project_clears_the_form (this : GettingStartedWidget) (w : World) :
  let this' := {| recentWorkspaces := recentWorkspaces this;
                  home := home this;
                  projectName := "";
                  blockchain := "";
                  language := "";
                  isDialogOpen := negb (isDialogOpen this);
                  path := path this |} in
  let typed := fun name chain framework =>
    Form.handleInputChange Form.field_language framework
      (Form.handleInputChange Form.field_blockchain chain
         (Form.handleInputChange Form.field_projectName name this')) in
  Form.createProject this w
  = mkResult (Returned this') w
      [Console console_log
         [LStr ("Creating project: " +:+ projectName this
                +:+ ", Blockchain: " +:+ blockchain this
                +:+ ", Language: " +:+ language this)]]
  /\ input_projectName (renderDialogBox this') = ""
  /\ select_blockchain (renderDialogBox this') = ""
  /\ select_language (renderDialogBox this') = ""
  /\ options_language (renderDialogBox this') = [""]
  /\ input_path (renderDialogBox this') = path this
  /\ click (button_create (renderDialogBox this')) = None
  /\ (forall name chain framework,
        click (button_create (renderDialogBox (typed name chain framework)))
        = if truthy name && truthy chain && truthy framework
          then Some (doCreateContract_ (path this) name)
          else None)
  /\ (forall name chain framework,
        name = "" \/ chain = "" \/ framework = "" ->
        click (button_create (renderDialogBox (typed name chain framework))) = None).
Proof.
  intros this' typed.
  assert (Hclick : forall name chain framework,
            click (button_create (renderDialogBox (typed name chain framework)))
            = if truthy name && truthy chain && truthy framework
              then Some (doCreateContract_ (path this) name)
              else None).
  { intros name chain framework. subst typed this'. cbv beta.
    unfold click.
    cbn [renderDialogBox button_create button_disabled button_onClick
         Form.handleInputChange projectName blockchain language path].
    unfold isCreateButtonDisabled.
    cbn [Form.handleInputChange projectName blockchain language].
    destruct (truthy name), (truthy chain), (truthy framework); reflexivity. }
  split; [reflexivity|]. do 6 (split; [reflexivity|]).
  split; [exact Hclick|].
  intros name chain framework Hmissing. rewrite Hclick.
  destruct Hmissing as [-> | [-> | ->]]; cbn [truthy String.eqb negb andb];
    rewrite ?andb_false_r; reflexivity.
Qed.

(** X11. A folder picked in the dialog of the form becomes the target directory of
    the project: the path of the form is the path of the picked URI without
    its first slash, and nothing else of the form changes.  The text that the
    contract commands give to [new URI] for it reads back, percent-decoded, as
    [file:///] followed by that path with its backslashes turned into slashes;
    for a path without a backslash this is [file://] followed by the path of
    the picked URI.  A picked URI whose path is a single slash leaves an empty
    path, for which the commands build no URI and use the one they are
    given. *)
Theorem picked_folder_is_the_parent_uri
    (this : GettingStartedWidget) (picked : URI) (p : string) (w w1 : World) :
  let props := {| title := "Select a Folder"; canSelectFolders := true;
                  canSelectFiles := false; canSelectMany := false |} in
  fileDialogService_showOpenDialog props None w = (Returned (Some (Single picked)), w1) ->
  URI_path_toString picked = "/" +:+ p ->
  let this' := {| recentWorkspaces := recentWorkspaces this;
                  home := home this;
                  projectName := projectName this;
                  blockchain := blockchain this;
                  language := language this;
                  isDialogOpen := isDialogOpen this;
                  path := p |} in
  Form.openFolderDialog this w
  = mkResult (Returned this') w1
      [ShowOpenDialog props None (Returned (Some (Single picked)));
       Console console_log [LUris (Some (Single picked))];
       Console console_log [LStr p]]
  /\ Form.handleInputChange Form.field_path p this = this'
  /\ button_onClick (button_create (renderDialogBox this'))
     = doCreateContract_ p (projectName this)
  /\ percent_decode (uri_text (path this')) = "file:///" +:+ slashes p
  /\ (slashes p = p ->
      percent_decode (uri_text (path this'))
      = "file://" +:+ URI_path_toString picked)
  /\ (forall uri, p = "" -> parentUri (Some (path this')) uri = Returned uri)
  /\ (forall uri,
        p <> "" ->
        parentUri (Some (path this')) uri
        = match URI_new_throws (uri_text p) with
          | Some error => Thrown error
          | None => Returned (Some (URI_new (uri_text p)))
          end).
Proof.
  intros props Hdialog Hpath this'.
  assert (Hdecode : percent_decode (uri_text p) = "file:///" +:+ slashes p).
  { unfold uri_text. rewrite replace_backslashes.
    change ("file:///" +:+ encodeURIComponent (slashes p))
      with (String "f" (String "i" (String "l" (String "e" (String ":" (String "/"
              (String "/" (String "/" (encodeURIComponent (slashes p)))))))))).
    rewrite !percent_decode_plain by reflexivity.
    rewrite percent_decode_encode. reflexivity. }
  split.
  { unfold Form.openFolderDialog. fold props. async_unfold. rewrite Hdialog.
    cbn [app]. rewrite Hpath. reflexivity. }
  split; [reflexivity|]. split; [reflexivity|].
  cbn [path this']. split; [exact Hdecode|]. split.
  { intros Hslashes. rewrite Hdecode, Hslashes, Hpath. reflexivity. }
  split.
  - intros uri ->. reflexivity.
  - intros uri Hp. unfold parentUri, new_URI. apply truthy_true in Hp. rewrite Hp.
    destruct (URI_new_throws (uri_text p)); reflexivity.
Qed.

(** X12. A dialog that is cancelled leaves the form alone, and one that answers
    with an array makes [openFolderDialog] reject after the first line is
    written: the path of the form is not touched. *)
Theorem open_folder_dialog_without_a_folder
    (this : GettingStartedWidget) (w : World) :
  let props := {| title := "Select a Folder"; canSelectFolders := true;
                  canSelectFiles := false; canSelectMany := false |} in
  let r := Form.openFolderDialog this w in
  (forall w1,
     fileDialogService_showOpenDialog props None w = (Returned None, w1) ->
     r = mkResult (Returned this) w1 [ShowOpenDialog props None (Returned None)])
  /\ (forall uris w1,
        fileDialogService_showOpenDialog props None w = (Returned (Some (Many uris)), w1) ->
        exists msg,
          r = mkResult (Thrown (TypeError msg)) w1
                [ShowOpenDialog props None (Returned (Some (Many uris)));
                 Console console_log [LUris (Some (Many uris))]])
  /\ (forall e w1,
        fileDialogService_showOpenDialog props None w = (Thrown e, w1) ->
        r = mkResult (Thrown e) w1 [ShowOpenDialog props None (Thrown e)]).
Proof.
  intros props r. subst r. unfold Form.openFolderDialog. fold props.
  repeat split.
  - intros w1 H. async_unfold. rewrite H. reflexivity.
  - intros uris w1 H. async_unfold. rewrite H. eexists. reflexivity.
  - intros e w1 H. async_unfold. rewrite H. reflexivity.
Qed.

End FormFacts.

(** ** File names *)

Section TextFacts.
Import Js JsText.

Lemma existsb_false_all {A} (f : A -> bool) (l : list A) :
  existsb f l = false -> forall x, x ∈ l -> f x = false.
Proof.
  intros H x Hx. destruct (f x) eqn:E; [|reflexivity].
  rewrite <- H. symmetry. apply existsb_exists. exists x.
  split; [apply list_elem_of_In, Hx | exact E].
Qed.

Lemma split_separators_not_nil (s : string) : split_separators s <> [].
Proof.
  destruct s as [|c r]; cbn [split_separators]; [discriminate|].
  destruct (is_separator c); [discriminate|].
  destruct (split_separators r); discriminate.
Qed.

(** A separator cuts the parts of a name in two rows. *)
Lemma split_separators_app (pre post : string) (c : ascii) :
  is_separator c = true ->
  split_separators (pre +:+ String c post) = split_separators pre ++ split_separators post.
Proof.
  intros Hc. induction pre as [|a pre IH].
  - change ("" +:+ String c post) with (String c post).
    cbn [split_separators]. rewrite Hc. reflexivity.
  - change (String a pre +:+ String c post) with (String a (pre +:+ String c post)).
    cbn [split_separators]. rewrite IH.
    destruct (is_separator a); [reflexivity|].
    pose proof (split_separators_not_nil pre) as Hpre.
    destruct (split_separators pre) as [|first rest]; [contradiction|]. reflexivity.
Qed.

Lemma utf16_length_append (a b : string) :
  utf16_length (a +:+ b) = (utf16_length a + utf16_length b)%nat.
Proof.
  induction a as [|c a IH]; [reflexivity|].
  change (String c a +:+ b) with (String c (a +:+ b)).
  cbn [utf16_length]. rewrite IH. lia.
Qed.

Lemma code_units_continuation (k : nat) :
  (128 <= k < 192)%nat -> code_units (ascii_of_nat k) = 0%nat.
Proof.
  intros Hk. unfold code_units. rewrite nat_ascii_embedding by lia.
  destruct (Nat.ltb_spec k 128); [lia|].
  destruct (Nat.ltb_spec k 192); [reflexivity | lia].
Qed.

Lemma code_units_bound (c : ascii) : (code_units c <= 2)%nat.
Proof.
  unfold code_units.
  repeat match goal with |- context [if ?b then _ else _] => destruct b end; lia.
Qed.

(** A high surrogate is one code unit. *)
Lemma utf16_length_high_surrogate (c : ascii) (r : string) :
  utf16_length (high_surrogate c r) = 1%nat.
Proof.
  unfold high_surrogate. cbv zeta. cbn [utf16_length].
  change (code_units (ascii_of_nat 237)) with 1%nat.
  rewrite !code_units_continuation.
  - reflexivity.
  - match goal with |- context [(?x mod 64)%nat] =>
      pose proof (Nat.mod_upper_bound x 64) end. lia.
  - match goal with |- context [(?x mod 16)%nat] =>
      pose proof (Nat.mod_upper_bound x 16) end. lia.
Qed.

(** [substring(0, n)] has [n] code units, or all of them when there are
    fewer. *)
Lemma utf16_length_prefix (n : nat) (s : string) :
  utf16_length (utf16_prefix n s) = Nat.min n (utf16_length s).
Proof.
  revert n. induction s as [|c s IH]; intros n; cbn [utf16_prefix utf16_length]; [lia|].
  pose proof (code_units_bound c) as Hc.
  destruct (Nat.eqb_spec (code_units c) 0) as [E|E].
  - cbn [utf16_length]. rewrite E, IH. reflexivity.
  - destruct (Nat.leb_spec (code_units c) n) as [L|L].
    + cbn [utf16_length]. rewrite IH. lia.
    + destruct (Nat.eqb_spec n 0) as [N|N]; [subst n; reflexivity|].
      rewrite utf16_length_high_surrogate. lia.
Qed.

(** What [substring(0, n)] is made of: bytes from the start of the text and,
    when the cut splits a character in two, the first half of that
    character. *)
Lemma utf16_prefix_parts (n : nat) (s : string) :
  exists kept half,
    utf16_prefix n s = kept +:+ half
    /\ String.prefix kept s = true
    /\ (half = ""
        \/ exists c rest,
             s = kept +:+ String c rest
             /\ code_units c = 2%nat
             /\ half = high_surrogate c rest
             /\ S (utf16_length kept) = n).
Proof.
  revert n. induction s as [|c s IH]; intros n; cbn [utf16_prefix].
  - exists "", "". split; [reflexivity|]. split; [reflexivity|]. left; reflexivity.
  - pose proof (code_units_bound c) as Hc.
    destruct (Nat.eqb_spec (code_units c) 0) as [E|E].
    + destruct (IH n) as (kept & half & Hp & Hk & Hh).
      exists (String c kept), half. rewrite Hp. split; [reflexivity|]. split.
      * cbn [String.prefix]. destruct (ascii_dec c c); [exact Hk | contradiction].
      * destruct Hh as [-> | (c' & rest & -> & Hc' & -> & Hn)]; [left; reflexivity|].
        right. exists c', rest. split; [reflexivity|]. split; [exact Hc'|].
        split; [reflexivity|]. cbn [utf16_length]. rewrite E. exact Hn.
    + destruct (Nat.leb_spec (code_units c) n) as [L|L].
      * destruct (IH (n - code_units c)%nat) as (kept & half & Hp & Hk & Hh).
        exists (String c kept), half. rewrite Hp. split; [reflexivity|]. split.
        -- cbn [String.prefix]. destruct (ascii_dec c c); [exact Hk | contradiction].
        -- destruct Hh as [-> | (c' & rest & -> & Hc' & -> & Hn)]; [left; reflexivity|].
           right. exists c', rest. split; [reflexivity|]. split; [exact Hc'|].
           split; [reflexivity|]. cbn [utf16_length]. lia.
      * destruct (Nat.eqb_spec n 0) as [N|N].
        -- exists "", "". split; [reflexivity|]. split; [reflexivity|]. left; reflexivity.
        -- exists "", (high_surrogate c s). split; [reflexivity|]. split; [reflexivity|].
           right. exists c, s. split; [reflexivity|]. split; [lia|].
           split; [reflexivity|]. cbn [utf16_length]. lia.
Qed.

Lemma utf16_prefix_all (n : nat) (s : string) :
  (utf16_length s <= n)%nat -> utf16_prefix n s = s.
Proof.
  revert n. induction s as [|c s IH]; intros n; cbn [utf16_prefix utf16_length]; [reflexivity|].
  intros Hn. destruct (Nat.eqb_spec (code_units c) 0) as [E|E].
  - rewrite IH by lia. reflexivity.
  - destruct (Nat.leb_spec (code_units c) n) as [L|L]; [|lia].
    rewrite IH by lia. reflexivity.
Qed.

(** For a text of ASCII characters the code units are the bytes. *)
Lemma utf16_ascii (s : string) :
  Forall (fun c => (nat_of_ascii c < 128)%nat) (list_ascii_of_string s) ->
  utf16_length s = String.length s
  /\ forall n, utf16_prefix n s = String.substring 0 n s.
Proof.
  induction s as [|c s IH]; cbn [list_ascii_of_string]; intros H.
  - split; [reflexivity|]. intros []; reflexivity.
  - apply Forall_cons in H as [Hc Hs]. destruct (IH Hs) as [IHl IHp].
    assert (Hu : code_units c = 1%nat).
    { unfold code_units. apply Nat.ltb_lt in Hc. rewrite Hc. reflexivity. }
    split.
    + cbn [utf16_length String.length]. rewrite Hu, IHl. reflexivity.
    + intros n. cbn [utf16_prefix]. rewrite Hu. cbn [Nat.eqb].
      destruct n as [|n]; [reflexivity|].
      cbn [Nat.leb String.substring Nat.sub]. rewrite Nat.sub_0_r, IHp. reflexivity.
Qed.

End TextFacts.

Section FileNameFacts.
Context {uri_lib : UriLib} {host : Host} {platform : Platform}.
Import Js JsLib JsText.

(** X13. [trimFileName] gives a name of up to 30 code units back as it is.  Of a
    longer one it gives the first 30 code units followed by three dots, 33
    code units in all: the bytes from the start of the name that make up whole
    characters and, when the thirtieth code unit is the first half of a
    character outside the basic plane, that half.  On a name of ASCII
    characters this is the substring of its first 30 characters. *)
Theorem trimFileName_is_short (name : string) :
  ((utf16_length name <= 30)%nat -> trimFileName name = name)
  /\ ((30 < utf16_length name)%nat ->
      utf16_length (trimFileName name) = 33%nat
      /\ exists kept half,
           trimFileName name = kept +:+ half +:+ "..."
           /\ utf16_length (kept +:+ half) = 30%nat
           /\ String.prefix kept name = true
           /\ (half = ""
               \/ exists c rest,
                    name = kept +:+ String c rest
                    /\ code_units c = 2%nat
                    /\ half = high_surrogate c rest
                    /\ utf16_length kept = 29%nat)
           /\ (Forall (fun c => (nat_of_ascii c < 128)%nat) (list_ascii_of_string name) ->
               half = ""
               /\ kept = String.substring 0 30 name
               /\ String.length kept = 30%nat)).
Proof.
  unfold trimFileName. split.
  - intros Hn. apply Nat.ltb_ge in Hn. rewrite Hn, andb_false_r. reflexivity.
  - intros Hn.
    assert (Ht : truthy name = true) by (destruct name; [cbn in Hn; lia | reflexivity]).
    pose proof (utf16_length_prefix 30 name) as Hlength.
    rewrite Nat.min_l in Hlength by lia.
    apply Nat.ltb_lt in Hn. rewrite Ht, Hn. cbn [andb]. split.
    { rewrite utf16_length_append, Hlength. reflexivity. }
    destruct (utf16_prefix_parts 30 name) as (kept & half & Hp & Hk & Hh).
    exists kept, half. split; [rewrite Hp, append_assoc; reflexivity|].
    split; [rewrite <- Hp; exact Hlength|]. split; [exact Hk|]. split.
    { destruct Hh as [-> | (c & rest & Hname & Hc & -> & Hkept)]; [left; reflexivity|].
      right. exists c, rest. repeat split; try assumption. lia. }
    intros Hascii. destruct (utf16_ascii name Hascii) as [Hl Hsub].
    assert (Hhalf : half = "").
    { destruct Hh as [-> | (c & rest & Hname & Hc & _ & _)]; [reflexivity|].
      exfalso. rewrite Hname in Hascii. clear -Hascii Hc.
      induction kept as [|a kept IH].
      - change ("" +:+ String c rest) with (String c rest) in Hascii.
        cbn [list_ascii_of_string] in Hascii. apply Forall_cons in Hascii as [Hsmall _].
        unfold code_units in Hc. apply Nat.ltb_lt in Hsmall. rewrite Hsmall in Hc.
        discriminate.
      - change (String a kept +:+ String c rest) with (String a (kept +:+ String c rest))
          in Hascii.
        cbn [list_ascii_of_string] in Hascii. apply Forall_cons in Hascii as [_ Hrest].
        exact (IH Hrest). }
    subst half. split; [reflexivity|].
    assert (Hkept : kept = String.substring 0 30 name).
    { rewrite <- Hsub, Hp. clear. induction kept as [|a kept IH]; [reflexivity|].
      change (String a kept +:+ "") with (String a (kept +:+ "")). rewrite <- IH.
      reflexivity. }
    split; [exact Hkept|]. rewrite Hkept.
    apply Nat.ltb_lt in Hn. rewrite Hl in Hn. clear -Hn.
    generalize dependent name. generalize 30%nat as n.
    induction n as [|n IH]; intros name Hn.
    + destruct name; reflexivity.
    + destruct name as [|c name]; cbn [String.length] in Hn; [lia|].
      cbn [String.substring String.length]. rewrite IH by lia. reflexivity.
Qed.

(** The check that a part of a nested name fails: it is empty, not a valid
    file name, or made of white space. *)
Lemma bad_segment_spec (file : string) :
  bad_segment file = true
  <-> file = "" \/ validFilename file = false \/ whitespace_only file = true.
Proof.
  unfold bad_segment. rewrite !orb_true_iff, !negb_true_iff.
  split.
  - intros [[H|H]|H]; auto. left. apply truthy_false, H.
  - intros [H|[H|H]]; auto. left; left. apply truthy_false, H.
Qed.

(** X14. [validateFileName] looks at the disk only after every check on the text
    of the name has passed, and then once, for the name resolved against the
    parent.  An empty name is accepted with the empty message.  A name that
    fails a check is answered with the message of the first check it fails,
    in the order: not a valid file name (unless nested names are allowed),
    starts with a slash, starts or ends with a space, has a part that is
    empty, not valid or white space; the disk is not asked and the world is
    left as it is.  Otherwise the answer of the disk decides the result, and
    an error of the disk is the error of the call. *)
Theorem validateFileName_checks_before_the_disk
    (name : string) (parent : FileStat) (allowNested : bool) (w : World) :
  let r := validateFileName name parent allowNested w in
  let childUri := URI_resolve (resource parent) name in
  let says := fun text args =>
    r = mkResult (Returned (nls_localizeByDefault text args)) w [] in
  let bad := fun file =>
    file = "" \/ validFilename file = false \/ whitespace_only file = true in
  (name = "" /\ r = mkResult (Returned "") w [])
  \/ (name <> "" /\ allowNested = false /\ validFilename name = false
      /\ says "The name **{0}** is not valid as a file or folder name. Please choose a different name." [])
  \/ (name <> "" /\ (allowNested = true \/ validFilename name = true)
      /\ startsWith name "/" = true
      /\ says "A file or folder name cannot start with a slash." [])
  \/ (name <> "" /\ (allowNested = true \/ validFilename name = true)
      /\ startsWith name "/" = false
      /\ (startsWith name " " = true \/ endsWith name " " = true)
      /\ says "Leading or trailing whitespace detected in file or folder name." [])
  \/ (name <> "" /\ (allowNested = true \/ validFilename name = true)
      /\ startsWith name "/" = false
      /\ startsWith name " " = false
      /\ endsWith name " " = false
      /\ List.Exists bad (split_separators name)
      /\ says "'{0}' is not a valid file name" [trimFileName name])
  \/ (events r = [Exists childUri (fst (fileService_exists childUri w))]
      /\ world r = snd (fileService_exists childUri w)
      /\ name <> ""
      /\ (allowNested = false -> validFilename name = true)
      /\ startsWith name "/" = false
      /\ startsWith name " " = false
      /\ endsWith name " " = false
      /\ Forall (fun file =>
                   file <> "" /\ validFilename file = true /\ whitespace_only file = false)
           (split_separators name)
      /\ match fst (fileService_exists childUri w) with
         | Returned false => outcome r = Returned ""
         | Returned true =>
             outcome r
             = Returned
                 (nls_localizeByDefault
                    "A file or folder **{0}** already exists at this location. Please choose a different name."
                    [trimFileName name])
         | Thrown e => outcome r = Thrown e
         end).
Proof.
  cbn zeta. unfold validateFileName.
  destruct (truthy name) eqn:Hname; cbn [negb];
    [|left; split; [apply truthy_false, Hname | reflexivity]].
  apply truthy_true in Hname. right.
  destruct (negb allowNested && negb (validFilename name)) eqn:Hvalid.
  { left. apply andb_true_iff in Hvalid as [Hn Hv].
    apply negb_true_iff in Hn, Hv. repeat split; assumption. }
  assert (Hok : allowNested = true \/ validFilename name = true).
  { apply andb_false_iff in Hvalid as [H|H]; apply negb_false_iff in H; auto. }
  right.
  destruct (startsWith name "/") eqn:Hslash; [left; repeat split; assumption|].
  right.
  destruct (startsWith name " " || endsWith name " ") eqn:Hspace.
  { left. apply orb_true_iff in Hspace. repeat split; assumption. }
  apply orb_false_iff in Hspace as [Hlead Htrail]. right.
  destruct (existsb bad_segment (split_separators name)) eqn:Hparts.
  { left. do 5 (split; [first [assumption | reflexivity]|]). split; [|reflexivity].
    apply existsb_exists in Hparts as (file & Hin & Hbad).
    apply Exists_exists. exists file. split; [apply list_elem_of_In, Hin|].
    apply bad_segment_spec, Hbad. }
  right. async_unfold.
  destruct (fileService_exists (URI_resolve (resource parent) name) w) as [[[]|e] w1];
    cbn [fst snd events world outcome app];
    (split; [reflexivity|]); (split; [reflexivity|]);
    (split; [exact Hname|]);
    (split; [intros ->; destruct Hok as [Hok|Hok]; [discriminate Hok | exact Hok]|]);
    do 3 (split; [first [assumption | reflexivity]|]);
    (split; [|reflexivity]);
    apply Forall_forall; intros file Hfile;
    pose proof (existsb_false_all _ _ Hparts file Hfile) as Hall;
    unfold bad_segment in Hall;
    apply orb_false_iff in Hall as [Hall Hws];
    apply orb_false_iff in Hall as [Hne Hv];
    apply negb_false_iff in Hne, Hv; apply truthy_true in Hne; auto.
Qed.

(** X15. A name with an empty part (it starts or ends with a separator, or has
    two separators in a row) is turned down without a look at the disk,
    nested names allowed or not: the answer is one of the four messages of
    the checks on the text, and it is the message that the name is not a valid
    file name, with the shortened name, when the name passes the checks made
    before the parts are looked at.  Where no message is the empty text, the
    answer is not the empty text that stands for a good name. *)
Theorem name_with_an_empty_part_is_turned_down
    (pre post : string) (c : ascii) (parent : FileStat) (allowNested : bool) (w : World) :
  is_separator c = true ->
  pre = "" \/ post = "" \/ (exists c' post', post = String c' post' /\ is_separator c' = true) ->
  let name := pre +:+ String c post in
  let r := validateFileName name parent allowNested w in
  let messages :=
    [("The name **{0}** is not valid as a file or folder name. Please choose a different name.",
      []);
     ("A file or folder name cannot start with a slash.", []);
     ("Leading or trailing whitespace detected in file or folder name.", []);
     ("'{0}' is not a valid file name", [trimFileName name])] in
  events r = [] /\ world r = w
  /\ (exists text args,
        (text, args) ∈ messages
        /\ outcome r = Returned (nls_localizeByDefault text args))
  /\ ((allowNested = true \/ validFilename name = true) ->
      startsWith name "/" = false ->
      startsWith name " " = false ->
      endsWith name " " = false ->
      outcome r
      = Returned (nls_localizeByDefault "'{0}' is not a valid file name" [trimFileName name]))
  /\ ((forall text args, text <> "" -> nls_localizeByDefault text args <> "") ->
      outcome r <> Returned "").
Proof.
  intros Hc Hshape name r messages.
  assert (Hparts : existsb bad_segment (split_separators name) = true).
  { apply existsb_exists. exists "". split; [|reflexivity].
    subst name. rewrite split_separators_app by exact Hc. apply in_or_app.
    destruct Hshape as [-> | [-> | (c' & post' & -> & Hc')]].
    - left. left. reflexivity.
    - right. left. reflexivity.
    - right. cbn [split_separators]. rewrite Hc'. left. reflexivity. }
  assert (Hname : truthy name = true).
  { subst name. destruct pre; reflexivity. }
  assert (Hr :
    exists text args,
      (text, args) ∈ messages
      /\ r = mkResult (Returned (nls_localizeByDefault text args)) w []
      /\ ((allowNested = true \/ validFilename name = true) ->
          startsWith name "/" = false ->
          startsWith name " " = false ->
          endsWith name " " = false ->
          (text, args) = ("'{0}' is not a valid file name", [trimFileName name]))).
  { subst r. unfold validateFileName. rewrite Hname, Hparts. cbn [negb].
    destruct (negb allowNested && negb (validFilename name)) eqn:Hvalid.
    { eexists _, _. split; [apply list_elem_of_here|]. split; [reflexivity|].
      apply andb_true_iff in Hvalid as [Hn Hv]. apply negb_true_iff in Hn, Hv.
      intros [H|H]; congruence. }
    destruct (startsWith name "/") eqn:Hslash.
    { eexists _, _. split; [apply list_elem_of_further, list_elem_of_here|].
      split; [reflexivity|]. intros _ H. discriminate H. }
    destruct (startsWith name " " || endsWith name " ") eqn:Hspace.
    { eexists _, _.
      split; [do 2 apply list_elem_of_further; apply list_elem_of_here|].
      split; [reflexivity|]. intros _ _ H1 H2. rewrite H1, H2 in Hspace.
      discriminate Hspace. }
    eexists _, _.
    split; [do 3 apply list_elem_of_further; apply list_elem_of_here|].
    split; reflexivity. }
  destruct Hr as (text & args & Hin & Hr & Hlast).
  rewrite Hr. cbn [events world outcome].
  split; [reflexivity|]. split; [reflexivity|]. split.
  { exists text, args. split; [exact Hin | reflexivity]. }
  split.
  { intros H1 H2 H3 H4. specialize (Hlast H1 H2 H3 H4). injection Hlast as -> ->.
    reflexivity. }
  intros Hnls [= Hempty]. apply (Hnls text args); [|exact Hempty].
  subst messages.
  repeat (apply elem_of_cons in Hin as [Hin|Hin]; [injection Hin as -> _; discriminate|]).
  apply elem_of_nil in Hin. destruct Hin.
Qed.

End FileNameFacts.

(** ** Opening files *)

Ltac shell_unfold :=
  unfold open, roots_, showOpenDialog, sh_bind, sh_ret, sh_call, sh_read, lift, lift_result,
    resolve, exists_, workspaceService_open_, call, ret, bind, read in *.

Section OpeningFiles.
Context {uri_lib : UriLib} {host : Host} {shell : Shell}.
Import Js JsLib.

Lemma sh_bind_lift_call {A B} (op : World -> Outcome A * World) (record : Outcome A -> Event)
    (f : A -> Sh B) (w : World) :
  sh_bind (lift (call op record)) f w
  = match op w with
    | (Returned a, w') => sh_after [Core (record (Returned a))] (f a w')
    | (Thrown e, w') => mkRun (Thrown e) w' [Core (record (Thrown e))]
    end.
Proof.
  unfold sh_bind, lift, lift_result, call. destruct (op w) as [[a|e] w']; reflexivity.
Qed.

Lemma sh_bind_call {A B} (op : World -> Outcome A * World) (record : Outcome A -> ShellEvent)
    (f : A -> Sh B) (w : World) :
  sh_bind (sh_call op record) f w
  = match op w with
    | (Returned a, w') => sh_after [record (Returned a)] (f a w')
    | (Thrown e, w') => mkRun (Thrown e) w' [record (Thrown e)]
    end.
Proof.
  unfold sh_bind, sh_call. destruct (op w) as [[a|e] w']; reflexivity.
Qed.

Lemma sh_bind_read {A B} (get : World -> A) (f : A -> Sh B) (w : World) :
  sh_bind (sh_read get) f w = f (get w) w.
Proof.
  unfold sh_bind, sh_read. destruct (f (get w) w). reflexivity.
Qed.

Lemma run_events_after {A} (evs : list ShellEvent) (r : Run A) :
  run_events (sh_after evs r) = evs ++ run_events r.
Proof. destruct r. reflexivity. Qed.

Lemma run_outcome_after {A} (evs : list ShellEvent) (r : Run A) :
  run_outcome (sh_after evs r) = run_outcome r.
Proof. destruct r. reflexivity. Qed.

Lemma run_world_after {A} (evs : list ShellEvent) (r : Run A) :
  run_world (sh_after evs r) = run_world r.
Proof. destruct r. reflexivity. Qed.

Lemma doOpenFile_loop_trace (uris : list URI) :
  forall (result : list URI) (w : World),
    let r := doOpenFile_loop uris result w in
    exists turns last,
      run_events r = concat (map file_turn turns) ++ last
      /\ match run_outcome r with
         | Returned opened =>
             last = [] /\ map fst turns = uris
             /\ opened = result ++ map fst (List.filter (fun t => isFile (snd t)) turns)
         | Thrown e =>
             exists uri rest,
               uris = map fst turns ++ uri :: rest
               /\ failed_turn e uri last
               /\ (forall stat,
                     last = [Core (Resolve (Some uri) (Returned stat)); OpenerOpen uri (Thrown e)] ->
                     isFile stat = true)
         end.
Proof.
  induction uris as [|uri uris IH]; intros result w; cbn zeta.
  - exists [], []. cbn. rewrite app_nil_r. auto.
  - cbn [doOpenFile_loop]. shell_unfold.
    destruct (fileService_resolve (Some uri) w) as [[stat|e] w1]; cbn [map sh_after app].
    + destruct (isFile stat) eqn:Hfile.
      * destruct (opener_open uri w1) as [[[]|e] w2]; cbn [sh_after app].
        -- specialize (IH (result ++ [uri]) w2). cbn zeta in IH.
           destruct IH as (turns & last & Hev & Hout).
           destruct (doOpenFile_loop uris (result ++ [uri]) w2) as [o w3 evs].
           cbn [run_events run_outcome sh_after app] in *.
           exists ((uri, stat) :: turns), last. split.
           { rewrite Hev. cbn [map concat]. unfold file_turn at 2. cbn [fst snd].
             rewrite Hfile. reflexivity. }
           destruct o as [opened|e].
           ++ destruct Hout as (-> & <- & ->). cbn [map fst List.filter snd]. rewrite Hfile.
              cbn [map fst]. rewrite <- app_assoc. auto.
           ++ destruct Hout as (u & rest & -> & Hfail). exists u, rest. auto.
        -- exists [], [Core (Resolve (Some uri) (Returned stat)); OpenerOpen uri (Thrown e)].
           cbn [run_events run_outcome map concat app]. split; [reflexivity|].
           exists uri, uris. split; [reflexivity|]. split.
           ++ right. exists stat. reflexivity.
           ++ intros stat' [= <-]. exact Hfile.
      * specialize (IH result w1). cbn zeta in IH.
        destruct IH as (turns & last & Hev & Hout).
        destruct (doOpenFile_loop uris result w1) as [o w3 evs].
        cbn [run_events run_outcome sh_after app] in *.
        exists ((uri, stat) :: turns), last. split.
        { rewrite Hev. cbn [map concat]. unfold file_turn at 2. cbn [fst snd].
          rewrite Hfile. reflexivity. }
        destruct o as [opened|e].
        -- destruct Hout as (-> & <- & ->). cbn [map fst List.filter snd]. rewrite Hfile. auto.
        -- destruct Hout as (u & rest & -> & Hfail). exists u, rest. auto.
    + exists [], [Core (Resolve (Some uri) (Thrown e))].
      cbn [run_events run_outcome map concat app]. split; [reflexivity|].
      exists uri, uris. split; [reflexivity|]. split.
      * left. reflexivity.
      * intros stat' [=].
Qed.

(** X17. [doOpenFile] asks for the roots and shows the dialog; a cancelled dialog
    gives undefined.  It then takes the picked URIs in order, resolves each
    one and gives it to the opener if and only if it resolves to a file.  When
    nothing throws, every URI has been looked at and the result is the list of
    the URIs opened, in the order picked.  When a resolve or the opener throws,
    the call rejects at that URI: the files before it stay opened and the URIs
    after it are not looked at. *)
Theorem open_file_opens_the_files_picked (w : World) :
  let props := {| title := OPEN_FILE_dialogLabel; canSelectFolders := false;
                  canSelectFiles := true; canSelectMany := true |} in
  let r := doOpenFile w in
  (exists e, run_outcome r = Thrown e /\ run_events r = [Core (Roots (Thrown e))])
  \/ exists roots,
       (exists e,
          run_outcome r = Thrown e
          /\ run_events r
             = [Core (Roots (Returned roots));
                Core (ShowOpenDialog props (roots !! 0%nat) (Thrown e))])
       \/ (run_outcome r = Returned None
           /\ run_events r
              = [Core (Roots (Returned roots));
                 Core (ShowOpenDialog props (roots !! 0%nat) (Returned None))])
       \/ exists picked turns last,
            run_events r
            = [Core (Roots (Returned roots));
               Core (ShowOpenDialog props (roots !! 0%nat) (Returned (Some picked)))]
              ++ concat (map file_turn turns) ++ last
            /\ match run_outcome r with
               | Returned opened =>
                   last = [] /\ map fst turns = to_array picked
                   /\ opened
                      = Some (map fst (List.filter (fun t => isFile (snd t)) turns))
               | Thrown e =>
                   exists uri rest,
                     to_array picked = map fst turns ++ uri :: rest
                     /\ failed_turn e uri last
                     /\ (forall stat,
                           last = [Core (Resolve (Some uri) (Returned stat));
                                   OpenerOpen uri (Thrown e)] ->
                           isFile stat = true)
               end.
Proof.
  intros props r. subst r. unfold doOpenFile. fold props.
  unfold roots_, showOpenDialog. rewrite sh_bind_lift_call.
  destruct (workspaceService_roots w) as [[roots|e] w1];
    [|left; exists e; split; reflexivity].
  right. exists roots. rewrite sh_bind_lift_call.
  destruct (fileDialogService_showOpenDialog props (roots !! 0%nat) w1) as [[[picked|]|e] w2].
  - right; right. exists picked.
    destruct (doOpenFile_loop_trace (to_array picked) [] w2) as (turns & last & Hev & Hout).
    cbn zeta in Hev, Hout. unfold sh_bind, sh_ret.
    destruct (doOpenFile_loop (to_array picked) [] w2) as [[opened|e] w3 evs];
      cbn [run_events run_outcome sh_after app] in *; exists turns, last.
    + destruct Hout as (-> & Hturns & ->). rewrite Hev, !app_nil_r. auto.
    + destruct Hout as (u & rest & Hturns & Hfail & Hfile). rewrite Hev. eauto 6.
  - right; left. split; reflexivity.
  - left. exists e. split; reflexivity.
Qed.

Lemma doOpen_loop_trace (uris : list URI) :
  forall (folders : list URI) (w : World),
    let r := doOpen_loop uris folders w in
    exists turns last,
      run_events r = concat (map open_turn turns) ++ last
      /\ match run_outcome r with
         | Returned kept =>
             last = [] /\ map (fun t => fst (fst t)) turns = uris
             /\ kept = folders ++ map (fun t => fst (fst t)) (List.filter kept_folder turns)
         | Thrown e =>
             exists uri rest,
               uris = map (fun t => fst (fst t)) turns ++ uri :: rest
               /\ failed_turn e uri last
               /\ (forall stat,
                     last = [Core (Resolve (Some uri) (Returned stat)); OpenerOpen uri (Thrown e)] ->
                     isDirectory stat = false)
         end.
Proof.
  induction uris as [|uri uris IH]; intros folders w; cbn zeta.
  - exists [], []. cbn. rewrite app_nil_r. auto.
  - cbn [doOpen_loop]. unfold resolve. rewrite sh_bind_lift_call.
    destruct (fileService_resolve (Some uri) w) as [[stat|e] w1].
    + destruct (isDirectory stat) eqn:Hdir.
      * rewrite sh_bind_read. cbv beta.
        set (folders' := if is_current_workspace uri w1 then folders else folders ++ [uri]).
        assert (Hloop :
          (if is_current_workspace uri w1 then doOpen_loop uris folders
           else doOpen_loop uris (folders ++ [uri])) w1 = doOpen_loop uris folders' w1)
          by (subst folders'; destruct (is_current_workspace uri w1); reflexivity).
        rewrite Hloop. clear Hloop.
        specialize (IH folders' w1). cbn zeta in IH.
        destruct IH as (turns & last & Hev & Hout).
        rewrite run_events_after, run_outcome_after.
        exists ((uri, stat, w1) :: turns), last. split.
        { rewrite Hev. cbn [map concat]. unfold open_turn at 2. cbn [fst snd].
          rewrite Hdir. reflexivity. }
        destruct (run_outcome (doOpen_loop uris folders' w1)) as [kept|e].
        -- destruct Hout as (-> & <- & ->). split; [reflexivity|]. split; [reflexivity|].
           cbn [List.filter]. unfold kept_folder at 2. cbn [fst snd]. rewrite Hdir.
           subst folders'. destruct (is_current_workspace uri w1); cbn [andb negb map fst];
             rewrite <- ?app_assoc; reflexivity.
        -- destruct Hout as (u & rest & -> & Hfail). exists u, rest. auto.
      * unfold open. rewrite sh_bind_call.
        destruct (opener_open uri w1) as [[[]|e] w2].
        -- specialize (IH folders w2). cbn zeta in IH.
           destruct IH as (turns & last & Hev & Hout).
           rewrite !run_events_after, !run_outcome_after.
           exists ((uri, stat, w1) :: turns), last. split.
           { rewrite Hev. cbn [map concat]. unfold open_turn at 2. cbn [fst snd].
             rewrite Hdir. reflexivity. }
           destruct (run_outcome (doOpen_loop uris folders w2)) as [kept|e].
           ++ destruct Hout as (-> & <- & ->). split; [reflexivity|]. split; [reflexivity|].
              cbn [List.filter]. unfold kept_folder at 2. cbn [fst snd]. rewrite Hdir.
              reflexivity.
           ++ destruct Hout as (u & rest & -> & Hfail). exists u, rest. auto.
        -- exists [], [Core (Resolve (Some uri) (Returned stat)); OpenerOpen uri (Thrown e)].
           cbn [run_events run_outcome sh_after map concat app]. split; [reflexivity|].
           exists uri, uris. split; [reflexivity|]. split.
           ++ right. exists stat. reflexivity.
           ++ intros stat' [= <-]. exact Hdir.
    + exists [], [Core (Resolve (Some uri) (Thrown e))].
      cbn [run_events run_outcome map concat app]. split; [reflexivity|].
      exists uri, uris. split; [reflexivity|]. split.
      * left. reflexivity.
      * intros stat' [=].
Qed.

Lemma events_bind_prefix {A B} (m : M A) (f : A -> M B) (w : World) :
  exists rest, events (bind m f w) = events (m w) ++ rest.
Proof.
  unfold bind. destruct (m w) as [[a|e] w1 evs]; cbn [events].
  - rewrite events_after. eauto.
  - exists []. rewrite app_nil_r. reflexivity.
Qed.

Lemma getOpenableWorkspaceUri_opens_nothing (uris : MaybeArray URI) (w : World) :
  Forall (fun ev => opens_workspace ev = false) (events (getOpenableWorkspaceUri uris w)).
Proof.
  destruct uris as [uri|uris]; cbn [getOpenableWorkspaceUri]; [constructor|].
  destruct (length uris <? 2)%nat; [constructor|].
  pose proof (Promise_all_resolve_asks_all uris w) as Hasked.
  unfold bind at 1.
  destruct (Promise_all (map (fun uri => resolve (Some uri)) uris) w) as [[stats|e] w1 evs];
    cbn [events] in Hasked.
  - assert (Hevs : Forall (fun ev => opens_workspace ev = false) evs).
    { clear -Hasked. induction Hasked as [|uri ev uris evs [o ->] _ IH]; constructor; auto. }
    rewrite events_after. apply Forall_app. split; [exact Hevs|].
    assert (Htail :
      forall roots,
        Forall (fun ev => opens_workspace ev = false)
          (events (bind (createMultiRootWorkspace roots) (fun u => ret (Some u)) w1))).
    { intros roots. unfold createMultiRootWorkspace, createFile, bind, call, ret.
      destruct (workspaceService_getUntitledWorkspace w1) as [[untitled|e] w2];
        cbn [after app events]; [|repeat constructor].
      match goal with
      | |- context [fileService_createFile ?u ?c ?o ?w] =>
          destruct (fileService_createFile u c o w) as [[stat|e] w3]
      end; cbn [after app events]; repeat constructor. }
    destruct (filter (fun fileStat => isDirectory fileStat = true) stats) as [|folder [|? ?]];
      [apply Htail | unfold ret; cbn [events]; constructor | apply Htail].
  - cbn [events]. clear -Hasked.
    induction Hasked as [|uri ev uris evs [o ->] _ IH]; constructor; auto.
Qed.

(** X18. The folders that [doOpen] has kept are opened as one workspace, in one
    call that comes last: none when there is no folder, the folder itself
    without a second look when there is one (unless it is the workspace open
    already), and for several folders after each of them has been resolved
    once more. *)
Theorem open_folders_opens_one_workspace (folders : list URI) (w : World) :
  let r := doOpen_folders folders w in
  (folders = [] -> r = mkResult (Returned tt) w [])
  /\ (forall u,
        folders = [u] ->
        r = mkResult (Returned tt)
              (if differs_from_workspace u w then workspaceService_open u w else w)
              (if differs_from_workspace u w then [WorkspaceOpen u] else []))
  /\ ((2 <= length folders)%nat ->
      Forall2 (fun uri ev => exists o, ev = Resolve (Some uri) o) folders
        (take (length folders) (events r)))
  /\ exists asked tail,
       events r = asked ++ tail
       /\ Forall (fun ev => opens_workspace ev = false) asked
       /\ (tail = [] \/ exists u, tail = [WorkspaceOpen u] /\ outcome r = Returned tt).
Proof.
  cbn zeta. split; [intros ->; reflexivity|]. split.
  { intros u ->. unfold doOpen_folders, getOpenableWorkspaceUri.
    cbn [length Nat.ltb Nat.leb lookup list_lookup].
    unfold bind, ret, read, workspaceService_open_, after. cbn [app].
    destruct (differs_from_workspace u w); reflexivity. }
  split.
  { intros Hlen. unfold doOpen_folders, getOpenableWorkspaceUri.
    assert (H0 : (0 <? length folders)%nat = true) by (apply Nat.ltb_lt; lia).
    assert (H2 : (length folders <? 2)%nat = false) by (apply Nat.ltb_ge; lia).
    rewrite H0, H2.
    pose proof (Promise_all_resolve_asks_all folders w) as Hasked.
    match goal with
    | |- context [events (bind (bind ?m ?f) ?g w)] =>
        destruct (events_bind_prefix (bind m f) g w) as (rest2 & ->);
        destruct (events_bind_prefix m f w) as (rest1 & ->)
    end.
    rewrite <- app_assoc, (Forall2_length _ _ _ Hasked), take_app_length. exact Hasked. }
  unfold doOpen_folders.
  destruct (0 <? length folders)%nat; [|exists [], []; repeat split; auto].
  pose proof (getOpenableWorkspaceUri_opens_nothing (Many folders) w) as Hnone.
  destruct (getOpenableWorkspaceUri (Many folders) w) as [[[u|]|e] w1 evs] eqn:Hg;
    cbn [events] in Hnone;
    unfold bind, read, workspaceService_open_, ret, after; rewrite Hg; cbn [app].
  - destruct (differs_from_workspace u w1); cbn [events outcome].
    + exists evs, [WorkspaceOpen u]. repeat split; eauto.
    + exists evs, []. repeat split; auto.
  - cbn [events]. exists evs, []. repeat split; auto.
  - cbn [events]. exists evs, []. rewrite app_nil_r. repeat split; auto.
Qed.

(** X19. In the browser, and on macOS, [doOpen] shows its own dialog.  When it
    ends well its result is the whole selection, whatever was opened.  Every
    picked URI has been resolved, in order; what is not a directory has been
    given to the opener at once, and the directories other than the open
    workspace are kept and opened as a workspace at the end. *)
Theorem open_returns_the_selection (w : World) (selection : list URI) :
  negb isOSX && environment_electron_is = false ->
  run_outcome (doOpen w) = Returned (Some selection) ->
  let props := {| title := OPEN_dialogLabel; canSelectFolders := true;
                  canSelectFiles := true; canSelectMany := true |} in
  exists roots picked turns w',
    selection = to_array picked
    /\ map (fun t => fst (fst t)) turns = selection
    /\ let kept := map (fun t => fst (fst t)) (List.filter kept_folder turns) in
       outcome (doOpen_folders kept w') = Returned tt
       /\ run_world (doOpen w) = world (doOpen_folders kept w')
       /\ run_events (doOpen w)
          = [Core (Roots (Returned roots));
             Core (ShowOpenDialog props (roots !! 0%nat) (Returned (Some picked)))]
            ++ concat (map open_turn turns)
            ++ map Core (events (doOpen_folders kept w')).
Proof.
  intros Hplatform. unfold doOpen. rewrite Hplatform.
  unfold roots_, showOpenDialog. rewrite sh_bind_lift_call.
  destruct (workspaceService_roots w) as [[roots|e] w1]; [|discriminate].
  rewrite sh_bind_lift_call.
  match goal with
  | |- context [fileDialogService_showOpenDialog ?p ?f ?w] =>
      destruct (fileDialogService_showOpenDialog p f w) as [[[picked|]|e] w2]
  end; [|discriminate|discriminate].
  rewrite !run_outcome_after, !run_events_after, !run_world_after.
  destruct (doOpen_loop_trace (to_array picked) [] w2) as (turns & last & Hev & Hout).
  cbn zeta in Hev, Hout. unfold sh_bind at 1 3 5.
  destruct (doOpen_loop (to_array picked) [] w2) as [[kept|e] w3 evs];
    cbn [run_events run_outcome] in Hev, Hout; [|discriminate].
  destruct Hout as (-> & Hturns & ->). cbn [app] in *. rewrite app_nil_r in Hev. subst evs.
  unfold sh_bind, lift, lift_result, sh_ret.
  destruct (doOpen_folders
              (map (fun t => fst (fst t)) (List.filter kept_folder turns)) w3)
    as [[[]|e] w4 evs] eqn:Hfolders;
    cbn [sh_after run_outcome run_events run_world app]; [|discriminate].
  intros [= <-]. exists roots, picked, turns, w3.
  split; [reflexivity|]. split; [exact Hturns|].
  cbn zeta. rewrite Hfolders. cbn [outcome world events].
  rewrite !app_nil_r. repeat split; reflexivity.
Qed.

End OpeningFiles.

(** ** Opening a workspace file, and leaving an untitled workspace *)

Section OpeningWorkspaces.
Context {uri_lib : UriLib} {host : Host} {shell : Shell}.
Import Js JsLib.

(** X20. [doOpenWorkspace] resolves to a URI only after it has opened it, and it
    opens only the URI picked in the dialog, after the file service has
    answered that it exists; whether it exists is not asked for the
    workspace that is open already.  Nothing but the roots, the dialog and
    this one question comes before. *)
Theorem open_workspace_opens_what_exists (w : World) :
  let props := {| workspace_title := OPEN_WORKSPACE_dialogLabel;
                  workspace_canSelectFiles := true;
                  workspace_canSelectFolders := false;
                  workspace_filters := getWorkspaceDialogFileFilters w |} in
  let r := doOpenWorkspace w in
  (forall u,
     run_outcome r = Returned (Some u) ->
     exists roots,
       run_events r
       = [Core (Roots (Returned roots));
          ShowOpenWorkspaceDialog props (roots !! 0%nat) (Returned (Some u));
          Core (Exists u (Returned true));
          Core (WorkspaceOpen u)])
  /\ (forall u, Core (WorkspaceOpen u) ∈ run_events r -> run_outcome r = Returned (Some u))
  /\ (forall u o,
        Core (Exists u o) ∈ run_events r ->
        exists roots w1 w2,
          workspaceService_roots w = (Returned roots, w1)
          /\ fileDialogService_showOpenDialog_one props (roots !! 0%nat) w1
             = (Returned (Some u), w2)
          /\ is_current_workspace u w2 = false)
  /\ (length (run_events r) <= 4)%nat.
Proof.
  intros props r. subst r. unfold doOpenWorkspace.
  rewrite sh_bind_read. cbv beta. fold props.
  unfold roots_. rewrite sh_bind_lift_call.
  destruct (workspaceService_roots w) as [[roots|e] w1].
  2: { cbn [run_outcome run_events length]. repeat split; try lia.
       - intros u [=].
       - intros u H. elem_cases H.
       - intros u o H. elem_cases H. }
  rewrite sh_bind_call.
  destruct (fileDialogService_showOpenDialog_one props (roots !! 0%nat) w1)
    as [[[picked|]|e] w2] eqn:Hdialog.
  2, 3: cbn [sh_after sh_ret run_outcome run_events length app]; repeat split; try lia;
        [intros u [=] | intros u H; elem_cases H | intros u o H; elem_cases H].
  rewrite sh_bind_read. cbv beta.
  destruct (is_current_workspace picked w2) eqn:Hcurrent.
  { cbn [sh_after sh_ret run_outcome run_events length app]. repeat split; try lia.
    - intros u [=].
    - intros u H. elem_cases H.
    - intros u o H. elem_cases H. }
  unfold exists_. rewrite sh_bind_lift_call.
  destruct (fileService_exists picked w2) as [[[]|e] w3];
    unfold sh_bind, lift, lift_result, workspaceService_open_, sh_ret;
    cbn [map sh_after run_outcome run_events length app]; repeat split; try lia.
  - intros u [= <-]. exists roots. reflexivity.
  - intros u H. elem_cases H. reflexivity.
  - intros u o H. elem_cases H. exists roots, w1, w2. auto.
  - intros u [=].
  - intros u H. elem_cases H.
  - intros u o H. elem_cases H. exists roots, w1, w2. auto.
  - intros u [=].
  - intros u H. elem_cases H.
  - intros u o H. elem_cases H. exists roots, w1, w2. auto.
Qed.

Lemma object_set_keys {V} (key : string) (value : V) (object : list (string * V)) :
  map fst (object_set key value object)
  = if existsb (fun member => String.eqb (fst member) key) object
    then map fst object
    else map fst object ++ [key].
Proof.
  unfold object_set.
  destruct (existsb (fun member => String.eqb (fst member) key) object).
  - induction object as [|[k v] object IH]; [reflexivity|].
    cbn [map fst]. rewrite IH. destruct (String.eqb_spec k key) as [->|]; reflexivity.
  - rewrite map_app. reflexivity.
Qed.

Lemma object_has_key {V} (key : string) (object : list (string * V)) :
  existsb (fun member => String.eqb (fst member) key) object = true
  <-> key ∈ map fst object.
Proof.
  rewrite existsb_exists. split.
  - intros ([k v] & Hin & Heq). apply String.eqb_eq in Heq. cbn [fst] in Heq. subst k.
    apply list_elem_of_In, in_map_iff. exists (key, v). auto.
  - intros Hin. apply list_elem_of_In, in_map_iff in Hin as ([k v] & <- & Hin).
    exists (k, v). split; [exact Hin | apply String.eqb_refl].
Qed.

Lemma object_set_NoDup {V} (key : string) (value : V) (object : list (string * V)) :
  NoDup (map fst object) -> NoDup (map fst (object_set key value object)).
Proof.
  intros Hobject. rewrite object_set_keys.
  destruct (existsb (fun member => String.eqb (fst member) key) object) eqn:E;
    [exact Hobject|].
  apply NoDup_app. split; [exact Hobject|]. split; [|apply NoDup_singleton].
  intros k Hk Hk'. apply list_elem_of_singleton in Hk'. subst k.
  apply object_has_key in Hk. congruence.
Qed.

Lemma object_set_member {V} (key : string) (value : V) (object : list (string * V))
    (k : string) (v : V) :
  (k, v) ∈ object_set key value object ->
  (k = key /\ v = value) \/ (k, v) ∈ object.
Proof.
  unfold object_set.
  destruct (existsb (fun member => String.eqb (fst member) key) object).
  - intros Hin. apply list_elem_of_fmap in Hin as ([k' v'] & Heq & Hin).
    cbn [fst] in Heq. destruct (String.eqb k' key).
    + left. injection Heq as -> ->. auto.
    + right. rewrite Heq. exact Hin.
  - intros Hin. apply elem_of_app in Hin as [Hin|Hin]; [right; exact Hin|].
    apply list_elem_of_singleton in Hin. injection Hin as -> ->. left. auto.
Qed.

Lemma object_set_keeps_keys {V} (key : string) (value : V) (object : list (string * V))
    (k : string) :
  k ∈ map fst object \/ k = key -> k ∈ map fst (object_set key value object).
Proof.
  rewrite object_set_keys.
  destruct (existsb (fun member => String.eqb (fst member) key) object) eqn:E.
  - intros [Hk | ->]; [exact Hk | apply object_has_key, E].
  - intros [Hk | ->]; apply elem_of_app; [left; exact Hk | right; constructor].
Qed.

Lemma object_set_length {V} (key : string) (value : V) (object : list (string * V)) :
  (length (object_set key value object) <= S (length object))%nat.
Proof.
  unfold object_set.
  destruct (existsb (fun member => String.eqb (fst member) key) object).
  - rewrite length_map. lia.
  - rewrite length_app. cbn [length]. lia.
Qed.

(** X21. The filters of the workspace dialogs have one member for each label, however
    many file types share it: every member belongs to a file type, whose
    extension is its value, and every file type has its member. *)
Theorem workspace_dialog_filters_by_label (w : World) :
  let label := fun fileType =>
    nls_localizeByDefault "{0} workspace" [fileType_name fileType]
    +:+ " (*." +:+ fileType_extension fileType +:+ ")" in
  let fileTypes := workspaceFileService_getWorkspaceFileTypes w in
  let filters := getWorkspaceDialogFileFilters w in
  NoDup (map fst filters)
  /\ (forall key value,
        (key, value) ∈ filters ->
        exists fileType,
          fileType ∈ fileTypes /\ key = label fileType
          /\ value = [fileType_extension fileType])
  /\ (forall fileType, fileType ∈ fileTypes -> label fileType ∈ map fst filters)
  /\ (length filters <= length fileTypes)%nat.
Proof.
  intros label fileTypes filters. subst filters. unfold getWorkspaceDialogFileFilters.
  fold fileTypes. fold label.
  assert (Hfold :
    forall (types : list WorkspaceFileType) (acc : list (string * list string)),
      let filters :=
        fold_left (fun filters fileType =>
                     object_set (label fileType) [fileType_extension fileType] filters)
          types acc in
      (NoDup (map fst acc) -> NoDup (map fst filters))
      /\ (forall key value,
            (key, value) ∈ filters ->
            (key, value) ∈ acc
            \/ exists fileType,
                 fileType ∈ types /\ key = label fileType
                 /\ value = [fileType_extension fileType])
      /\ (forall key,
            key ∈ map fst acc \/ (exists fileType, fileType ∈ types /\ key = label fileType) ->
            key ∈ map fst filters)
      /\ (length filters <= length acc + length types)%nat).
  { induction types as [|t types IH]; intros acc; cbn zeta; cbn [fold_left].
    - repeat split; auto.
      + intros key [Hk | (t & Ht & _)]; [exact Hk | apply elem_of_nil in Ht; destruct Ht].
      + cbn [length]. lia.
    - destruct (IH (object_set (label t) [fileType_extension t] acc))
        as (Hnodup & Hmember & Hkeys & Hlength).
      split; [|split; [|split]].
      + intros Hacc. apply Hnodup, object_set_NoDup, Hacc.
      + intros key value Hin. destruct (Hmember key value Hin) as [Hset | (t' & Ht' & Heq)].
        * apply object_set_member in Hset as [[-> ->] | Hacc]; [|left; exact Hacc].
          right. exists t. split; [constructor | auto].
        * right. exists t'. split; [constructor; exact Ht' | exact Heq].
      + intros key Hkey. apply Hkeys.
        destruct Hkey as [Hk | (t' & Ht' & ->)].
        * left. apply object_set_keeps_keys. left. exact Hk.
        * apply elem_of_cons in Ht' as [-> | Ht'].
          -- left. apply object_set_keeps_keys. right. reflexivity.
          -- right. exists t'. auto.
      + pose proof (object_set_length (label t) [fileType_extension t] acc).
        cbn [length]. lia. }
  destruct (Hfold fileTypes []) as (Hnodup & Hmember & Hkeys & Hlength).
  split; [apply Hnodup; constructor|]. split; [|split].
  - intros key value Hin. destruct (Hmember key value Hin) as [Hnil | Ht]; [|exact Ht].
    apply elem_of_nil in Hnil. destruct Hnil.
  - intros t Ht. apply Hkeys. right. exists t. auto.
  - exact Hlength.
Qed.

(** X22. An untitled workspace is left only when that has been settled: the
    action of [onWillStop] answers true without a question when it was
    confirmed before; asked, it answers true when the user chose not to save,
    and after [Save] only when the last thing done is a save of the workspace
    that succeeded.  Only a reload asks whether leaving is safe. *)
Theorem untitled_workspace_is_left_when_settled
    (w0 : World) (stop : OnWillStopAction) (fuel : nat) :
  onWillStop w0 = Some stop ->
  (exists workspace,
     workspaceService_workspace w0 = Some workspace
     /\ workspaceService_isUntitledWorkspace (resource workspace) w0 = true
     /\ forall why w,
          exists asked,
            run_events (prepare stop why w) = asked
            /\ (why <> StopReason_Reload ->
                asked = [] /\ run_outcome (prepare stop why w) = Returned false)
            /\ (why = StopReason_Reload ->
                exists o, asked = [IsSafeToReload (resource workspace) o]))
  /\ (forall w, action stop fuel true w = Some (mkRun (Returned true) w []))
  /\ (forall w r,
        action stop fuel false w = Some r ->
        run_outcome r = Returned true ->
        run_events r = [ExitDialogOpen exit_title (Returned (Some "Don't Save"))]
        \/ exists evs u,
             run_events r
             = ExitDialogOpen exit_title (Returned (Some "Save"))
               :: map Core (evs ++ [WorkspaceSave u (Returned tt)])).
Proof.
  unfold onWillStop.
  destruct (workspaceService_workspace w0) as [workspace|]; [|discriminate].
  destruct (workspaceService_isUntitledWorkspace (resource workspace) w0) eqn:Huntitled;
    [|discriminate].
  intros [= <-]. cbn [prepare action]. split; [|split].
  - exists workspace. split; [reflexivity|]. split; [exact Huntitled|].
    intros why w. eexists. split; [reflexivity|]. split.
    + intros Hwhy. destruct why; try contradiction; split; reflexivity.
    + intros ->. unfold sh_call.
      destruct (workspaceService_isSafeToReload (resource workspace) w) as [o w1].
      exists o. reflexivity.
  - intros w. reflexivity.
  - intros w r. unfold onWillStop_action.
    destruct (UntitledWorkspaceExitDialog_open exit_title w) as [[[answer|]|e] w1].
    + destruct (String.eqb_spec answer "Don't Save") as [->|Hdont].
      * intros [= <-] _. left. reflexivity.
      * destruct (String.eqb_spec answer "Save") as [->|Hsave].
        -- destruct (saveWorkspaceAs fuel w1) as [saved|] eqn:Hsaved; [|discriminate].
           cbn [option_map]. intros [= <-].
           rewrite run_outcome_after, run_events_after.
           destruct (saveWorkspaceAs_loop_trace fuel _ _ _ Hsaved)
             as (turns & last & Hev & Hlast & _).
           destruct saved as [o w2 evs]. cbn [lift_result run_outcome run_events outcome events] in *.
           intros ->. right.
           destruct Hlast as [[[=] _] | [(e & [=] & _) | [(p & w' & e & [=] & _) | Hlast]]].
           destruct Hlast as (picked & w' & checks & _ & [[_ Hsave] | (e & [=] & _)]).
           exists (concat (map declined_turn turns)
                   ++ ShowSaveDialog (Returned (Some picked)) :: checks),
                  (workspace_file_uri picked w').
           rewrite Hev, Hsave. cbn [app]. rewrite <- app_assoc. reflexivity.
        -- intros [= <-] [=].
    + intros [= <-] [=].
    + intros [= <-] [=].
Qed.

End OpeningWorkspaces.

(** ** Project names without a dollar sign *)

Section PlainNames.
Context {uri_lib : UriLib} {host : Host}.
Import Js JsLib Skeleton.

(** X23. For a project name without a dollar sign the replacement text has no
    pattern in it: each of the four files of a Solana project is sent with its
    template in which every placeholder, found from left to right, has become
    the name itself, and the files are named after it. *)
Theorem plain_project_name_fills_the_templates
    (this : GettingStartedWidget) (d n : string) (w : World) :
  blockchain this = "Solana" ->
  contains_char "$" n = false ->
  let p := d +:+ "/" +:+ n in
  commands_of (events (doCreateContract executeCommand this d n w))
  = [NEW_CONTRACT_FOLDER (Some d) (Some n) None;
     NEW_CONTRACT_FILE (Some p) "Anchor.toml"
       (substitute_all placeholder n anchorTomlContent) None;
     NEW_CONTRACT_FILE (Some p) "Cargo.toml"
       (substitute_all placeholder n cargoTomlContent) None;
     NEW_CONTRACT_FOLDER (Some p) (Some "program") None;
     NEW_CONTRACT_FILE (Some (p +:+ "/program")) (n +:+ ".rs")
       (substitute_all placeholder n programRsContent) None;
     NEW_CONTRACT_FOLDER (Some p) (Some "tests") None;
     NEW_CONTRACT_FILE (Some (p +:+ "/tests")) (n +:+ ".ts")
       (substitute_all placeholder n testTsContent) None;
     OPEN_SMART_CONTRACT p].
Proof.
  intros Hchain Hplain p.
  destruct (doCreateContract_commands this d n w) as [_ Hcommands].
  rewrite Hcommands, Hchain. unfold fill.
  rewrite !replace_global_plain by exact Hplain. reflexivity.
Qed.

End PlainNames.

(** ** What is registered *)

Section RegistrationFacts.
Context {uri_lib : UriLib} {host : Host} {shell : Shell}.
Import WorkspaceCommands.

Lemma menu_commands_FILE_OPEN :
  menu_commands FILE_OPEN
  = (if single_open then [OPEN] else [OPEN_FILE; OPEN_FOLDER])
    ++ [OPEN_WORKSPACE; OPEN_RECENT_WORKSPACE].
Proof.
  unfold menu_commands, registerMenus, single_open.
  destruct isOSX, environment_electron_is; reflexivity.
Qed.

Lemma keybinding_commands :
  map command registerKeybindings
  = [if single_open then OPEN else OPEN_FILE]
    ++ (if single_open then [] else [OPEN_FOLDER])
    ++ [OPEN_WORKSPACE; OPEN_RECENT_WORKSPACE; SAVE_AS; COPY_RELATIVE_FILE_PATH].
Proof.
  unfold registerKeybindings, single_open.
  destruct isOSX, environment_electron_is; reflexivity.
Qed.

(** X24. On every platform the File > Open menu holds either [OPEN], or
    [OPEN_FILE] and [OPEN_FOLDER], before [OPEN_WORKSPACE] and
    [OPEN_RECENT_WORKSPACE]; each of its commands has a handler from
    [registerCommands] that is enabled and visible, and [OPEN] is in the menu exactly when
    it is enabled, which is exactly when [doOpen] shows its own dialog instead
    of handing over to [doOpenFile].  The first keybinding goes to the first
    command of the menu, and [OPEN_FOLDER] has a keybinding, a place in the
    menu and its two links in the Start section on the same platforms; the
    link Import From Git runs the same command as Open Folder. *)
Theorem open_menu_follows_the_platform (w : World) :
  menu_commands FILE_OPEN
  = (if single_open then [OPEN] else [OPEN_FILE; OPEN_FOLDER])
    ++ [OPEN_WORKSPACE; OPEN_RECENT_WORKSPACE]
  /\ Forall (fun id => id ∈ registerCommands /\ isEnabled id w = true /\ isVisible id w = true)
       (menu_commands FILE_OPEN)
  /\ (OPEN ∈ menu_commands FILE_OPEN <-> isEnabled OPEN w = true)
  /\ (isEnabled OPEN w = true <-> negb isOSX && environment_electron_is = false)
  /\ take 1 (map command registerKeybindings) = take 1 (menu_commands FILE_OPEN)
  /\ (OPEN_FOLDER ∈ map command registerKeybindings <-> OPEN_FOLDER ∈ menu_commands FILE_OPEN)
  /\ (OPEN_FOLDER ∈ menu_commands FILE_OPEN <->
      map start_onClick renderStart
      = [start_toggleDialog; start_doOpenFolder; start_doOpenFromGit])
  /\ (OPEN_FOLDER ∉ menu_commands FILE_OPEN <->
      map start_onClick renderStart = [start_toggleDialog])
  /\ Forall (fun link =>
               forall id,
                 start_command (start_onClick link) = Some id
                 \/ start_command (start_onEnter link) = Some id ->
                 id = OPEN_FOLDER /\ isEnabled id w = true)
       renderStart.
Proof.
  rewrite menu_commands_FILE_OPEN, keybinding_commands.
  unfold renderStart, single_open, registerCommands, isEnabled, isVisible.
  destruct isOSX, environment_electron_is; cbn [orb negb andb app map take start_onClick];
    (split; [reflexivity|]);
    (split; [repeat constructor|]).
  all: split; [split; intros H;
               first [reflexivity | discriminate H | solve [repeat constructor]
                     | elem_cases H]|].
  all: split; [split; intros H; first [reflexivity | discriminate H]|].
  all: split; [reflexivity|].
  all: split; [split; intros H; first [solve [repeat constructor] | elem_cases H]|].
  all: split; [split; intros H;
               first [reflexivity | discriminate H | solve [repeat constructor]
                     | elem_cases H]|].
  all: split; [split; intros H;
               first [reflexivity | discriminate H
                     | intros H'; elem_cases H'
                     | exfalso; apply H; solve [repeat constructor]]|].
  all: repeat (constructor;
               [intros id [H | H]; cbn [start_command start_onClick start_onEnter] in H;
                try discriminate H; injection H as <-; auto|]);
    constructor.
Qed.

End RegistrationFacts.

(** ** Runs on the disk of the tests *)

Section MoreRuns.
Import Js JsLib UriText TestHost TestPlatform TestShell.

(** The user declines once and then cancels: one declined turn, and a last
    turn that is the cancelled dialog. *)
Lemma save_workspace_as_runs_witness :
  exists turns last,
    [ShowSaveDialog (Returned (Some "file:///w/a"));
     Exists "file:///w/a.theia-workspace" (Returned true);
     ConfirmOverwrite "file:///w/a.theia-workspace" (Returned false);
     ShowSaveDialog (Returned None)]
    = concat (map declined_turn turns) ++ last
    /\ last_turn (Returned false) last
    /\ (length turns < 2)%nat.
Proof.
  exact (save_workspace_as_runs (host := TestHost.host) 2
           (desk [] [Some "file:///w/a"; None] [false])
           (mkResult (Returned false) (desk [] [] [])
              [ShowSaveDialog (Returned (Some "file:///w/a"));
               Exists "file:///w/a.theia-workspace" (Returned true);
               ConfirmOverwrite "file:///w/a.theia-workspace" (Returned false);
               ShowSaveDialog (Returned None)])
           eq_refl).
Defined.

(** A folder picked together with something that is not on the disk. *)
Lemma openable_workspace_uri_rejects_witness :
  let r := getOpenableWorkspaceUri (Many ["file:///w"; "file:///gone"; "file:///w"])
             (desk [] [] []) in
  outcome r = Thrown (HostError 404)
  /\ Forall2 (fun uri ev => exists o, ev = Resolve (Some uri) o)
       ["file:///w"; "file:///gone"; "file:///w"] (events r)
  /\ exists uri, Resolve (Some uri) (Thrown (HostError 404)) ∈ events r.
Proof.
  apply (openable_workspace_uri_rejects (host := TestHost.host)
           ["file:///w"; "file:///gone"; "file:///w"] (desk [] [] []) (HostError 404)).
  - cbn [length]. lia.
  - reflexivity.
Defined.

(** The folder [file:///a] picked a second time. *)
Lemma repeated_roots_change_nothing_witness :
  createMultiRootWorkspace
    ([folder_stat "file:///a"; folder_stat "file:///b"] ++ [folder_stat "file:///a"])
    (disk_of [])
  = createMultiRootWorkspace [folder_stat "file:///a"; folder_stat "file:///b"] (disk_of []).
Proof.
  apply (repeated_roots_change_nothing (host := TestHost.host)).
  intros stat Hstat. apply list_elem_of_singleton in Hstat. subst stat.
  cbn [map]. constructor.
Defined.

(** The target is the text file [file:///w/notes.txt]: the folder and the
    file are created next to it, in [file:///w]. *)
Lemma contract_commands_fall_back_witness :
  (exists tail,
     events (execute_NEW_CONTRACT_FOLDER (Some "w/notes.txt") None None (desk [] [] []))
     = [Resolve (Some "file:///w/notes.txt") (Returned (file_stat "file:///w/notes.txt"));
        Resolve (Some "file:///w") (Returned (folder_stat "file:///w"));
        Console console_log [LStr "folderUri ->"; LStr "file:///w/Untitled"];
        CreateFolder "file:///w/Untitled"
          (fst (fileService_createFolder "file:///w/Untitled" (desk [] [] [])))] ++ tail)
  /\ (exists head tail,
        events (execute_NEW_CONTRACT_FILE (Some "w/notes.txt") "a.rs" "fn" None
                  (desk [] [] []))
        = head
          ++ [Resolve (Some "file:///w/notes.txt") (Returned (file_stat "file:///w/notes.txt"));
              Resolve (Some "file:///w") (Returned (folder_stat "file:///w"));
              Console console_log [LStr "fileUri ->"; LStr "file:///w/a.rs"];
              CreateFile "file:///w/a.rs" "fn" None
                (fst (fileService_createFile "file:///w/a.rs" "fn" None (desk [] [] [])))]
          ++ tail
        /\ Forall (fun ev => exists args, ev = Console console_log args) head).
Proof.
  apply (contract_commands_fall_back_to_the_parent (host := TestHost.host)
           (Some "w/notes.txt") None "a.rs" "fn" None "file:///w/notes.txt"
           (Returned (file_stat "file:///w/notes.txt")) (folder_stat "file:///w")
           (desk [] [] []) (desk [] [] []) (desk [] [] [])).
  - reflexivity.
  - reflexivity.
  - intros s [= <-]. reflexivity.
  - reflexivity.
Defined.

(** Neither a target directory nor a URI. *)
Lemma contract_commands_without_parent_uri_witness :
  (exists msg,
     execute_NEW_CONTRACT_FILE None "a.rs" "fn" None (desk [] [] [])
     = mkResult (Returned tt) (desk [] [] [])
         [Console console_log [LStr "targetDirectory ->"; LStr "undefined"];
          Console console_error [LStr "Error creating file:"; LErr (TypeError msg)]])
  /\ (forall o w1,
        fileService_resolve None (desk [] [] []) = (o, w1) ->
        (forall s, o = Returned s -> isDirectory s = false) ->
        execute_NEW_CONTRACT_FOLDER None (Some "p") None (desk [] [] [])
        = mkResult (Returned tt) w1
            [Resolve None o;
             Console console_warn
               [LStr "Parent directory could not be found or is invalid."]]).
Proof.
  exact (contract_commands_without_parent_uri (host := TestHost.host)
           None (Some "p") "a.rs" "fn" None (desk [] [] []) eq_refl).
Defined.

(** Anchor picked for Solana, and Ethereum chosen afterwards. *)
Lemma other_blockchain_keeps_the_language_witness :
  let this' :=
    Form.handleInputChange Form.field_blockchain "Ethereum"
      (form "p" "Solana" "Anchor (Rust)" "/tmp") in
  select_language (renderDialogBox this') = "Anchor (Rust)"
  /\ ("Anchor (Rust)" ∉ options_language (renderDialogBox this'))
  /\ click (button_create (renderDialogBox this')) = Some (doCreateContract_ "/tmp" "p").
Proof.
  apply (other_blockchain_keeps_the_language (uri_lib := TestHost.uri_lib)
           (form "p" "Solana" "Anchor (Rust)" "/tmp") "Ethereum").
  - discriminate.
  - discriminate.
  - cbn. repeat constructor.
  - constructor.
  - discriminate.
Defined.

(** The folder [file:///my work] picked in the dialog of the form: the text
    made for the path has the space escaped, and the URI made from it is the
    picked one. *)
Lemma picked_folder_is_the_parent_uri_witness :
  let this := form "p" "Solana" "Anchor (Rust)" "C:" in
  let this' := form "p" "Solana" "Anchor (Rust)" "my work" in
  Form.openFolderDialog this (desk [Some (Single "file:///my work")] [] [])
  = mkResult (Returned this') (desk [] [] [])
      [ShowOpenDialog
         {| title := "Select a Folder"; canSelectFolders := true;
            canSelectFiles := false; canSelectMany := false |}
         None (Returned (Some (Single "file:///my work")));
       Console console_log [LUris (Some (Single "file:///my work"))];
       Console console_log [LStr "my work"]]
  /\ uri_text "my work" = "file:///my%20work"
  /\ percent_decode "file:///my%20work" = "file:///my work"
  /\ parentUri (Some "my work") None = Returned (Some "file:///my work").
Proof.
  intros this this'.
  destruct (picked_folder_is_the_parent_uri (host := TestHost.host)
              this "file:///my work" "my work"
              (desk [Some (Single "file:///my work")] [] []) (desk [] [] [])
              eq_refl eq_refl)
    as (Hrun & _ & _ & _ & Hdecode & _ & Hparent).
  split; [exact Hrun|]. split; [reflexivity|].
  split; [exact (Hdecode eq_refl)|].
  apply (Hparent None). discriminate.
Defined.

(** A name that ends with a slash. *)
Lemma name_with_an_empty_part_witness :
  let r := validateFileName "src/" (folder_stat "file:///w") true (desk [] [] []) in
  events r = [] /\ world r = desk [] [] []
  /\ outcome r = Returned "'{0}' is not a valid file name"
  /\ outcome r <> Returned "".
Proof.
  destruct (name_with_an_empty_part_is_turned_down (host := TestHost.host)
              (platform := TestPlatform.platform)
              "src" "" "/" (folder_stat "file:///w") true (desk [] [] [])
              eq_refl (or_intror (or_introl eq_refl)))
    as (Hevents & Hworld & _ & Hmessage & Hnot_empty).
  split; [exact Hevents|]. split; [exact Hworld|]. split.
  - exact (Hmessage (or_introl eq_refl) eq_refl eq_refl eq_refl).
  - apply Hnot_empty. intros text args Htext. exact Htext.
Defined.

(** A folder and a text file picked in the dialog of [doOpen]: both are
    returned, the file goes to the opener and the folder is opened as the
    workspace. *)
Lemma open_returns_the_selection_witness :
  let w := desk [Some (Many ["file:///w"; "file:///w/notes.txt"])] [] [] in
  let selection := ["file:///w"; "file:///w/notes.txt"] in
  let props := {| title := OPEN_dialogLabel; canSelectFolders := true;
                  canSelectFiles := true; canSelectMany := true |} in
  exists roots picked turns w',
    selection = to_array picked
    /\ map (fun t => fst (fst t)) turns = selection
    /\ let kept := map (fun t => fst (fst t)) (List.filter kept_folder turns) in
       outcome (doOpen_folders kept w') = Returned tt
       /\ run_world (doOpen w) = world (doOpen_folders kept w')
       /\ run_events (doOpen w)
          = [Core (Roots (Returned roots));
             Core (ShowOpenDialog props (roots !! 0%nat) (Returned (Some picked)))]
            ++ concat (map open_turn turns)
            ++ map Core (events (doOpen_folders kept w')).
Proof.
  exact (open_returns_the_selection (host := TestHost.host) (shell := TestShell.shell)
           (desk [Some (Many ["file:///w"; "file:///w/notes.txt"])] [] [])
           ["file:///w"; "file:///w/notes.txt"] eq_refl eq_refl).
Defined.

(** The run itself. *)
Example open_folder_and_file :
  run_events (doOpen (desk [Some (Many ["file:///w"; "file:///w/notes.txt"])] [] []))
  = [Core (Roots (Returned []));
     Core (ShowOpenDialog
             {| title := "Open"; canSelectFolders := true; canSelectFiles := true;
                canSelectMany := true |}
             None (Returned (Some (Many ["file:///w"; "file:///w/notes.txt"]))));
     Core (Resolve (Some "file:///w") (Returned (folder_stat "file:///w")));
     Core (Resolve (Some "file:///w/notes.txt") (Returned (file_stat "file:///w/notes.txt")));
     OpenerOpen "file:///w/notes.txt" (Returned tt);
     Core (WorkspaceOpen "file:///w")].
Proof. reflexivity. Qed.

(** An untitled workspace is open; the user chooses to save it and picks a
    name that is free. *)
Lemma untitled_workspace_is_left_witness :
  exists stop r,
    onWillStop (disk_open untitled (desk [] [] [])) = Some stop
    /\ action stop 2 false
         (disk_open untitled (desk [] [Some "Save"; Some "file:///w/b"] [])) = Some r
    /\ run_outcome r = Returned true
    /\ (run_events r = [ExitDialogOpen exit_title (Returned (Some "Don't Save"))]
        \/ exists evs u,
             run_events r
             = ExitDialogOpen exit_title (Returned (Some "Save"))
               :: map Core (evs ++ [WorkspaceSave u (Returned tt)])).
Proof.
  eexists. eexists. split; [reflexivity|]. split; [reflexivity|]. split; [reflexivity|].
  exact (proj2 (proj2 (untitled_workspace_is_left_when_settled
                         (host := TestHost.host) (shell := TestShell.shell)
                         (disk_open untitled (desk [] [] [])) _ 2 eq_refl))
           (disk_open untitled (desk [] [Some "Save"; Some "file:///w/b"] [])) _
           eq_refl eq_refl).
Defined.

(** The project [token]. *)
Lemma plain_project_name_witness :
  let this := form "token" "Solana" "Anchor (Rust)" "C:" in
  commands_of (events (doCreateContract executeCommand this "C:" "token" (disk_of ["file:///C:"])))
  = [NEW_CONTRACT_FOLDER (Some "C:") (Some "token") None;
     NEW_CONTRACT_FILE (Some "C:/token") "Anchor.toml"
       (substitute_all Skeleton.placeholder "token" Skeleton.anchorTomlContent) None;
     NEW_CONTRACT_FILE (Some "C:/token") "Cargo.toml"
       (substitute_all Skeleton.placeholder "token" Skeleton.cargoTomlContent) None;
     NEW_CONTRACT_FOLDER (Some "C:/token") (Some "program") None;
     NEW_CONTRACT_FILE (Some "C:/token/program") "token.rs"
       (substitute_all Skeleton.placeholder "token" Skeleton.programRsContent) None;
     NEW_CONTRACT_FOLDER (Some "C:/token") (Some "tests") None;
     NEW_CONTRACT_FILE (Some "C:/token/tests") "token.ts"
       (substitute_all Skeleton.placeholder "token" Skeleton.testTsContent) None;
     OPEN_SMART_CONTRACT "C:/token"].
Proof.
  exact (plain_project_name_fills_the_templates (host := TestHost.host)
           (form "token" "Solana" "Anchor (Rust)" "C:") "C:" "token" (disk_of ["file:///C:"])
           eq_refl eq_refl).
Defined.

(** Picked in the dialog of [doOpenFile], the folder is looked at and left
    alone, and the text file is opened and returned. *)
Example open_file_leaves_the_folder :
  let r := doOpenFile (desk [Some (Many ["file:///w"; "file:///w/notes.txt"])] [] []) in
  run_outcome r = Returned (Some ["file:///w/notes.txt"])
  /\ run_events r
     = [Core (Roots (Returned []));
        Core (ShowOpenDialog
                {| title := "Open File"; canSelectFolders := false; canSelectFiles := true;
                   canSelectMany := true |}
                None (Returned (Some (Many ["file:///w"; "file:///w/notes.txt"]))));
        Core (Resolve (Some "file:///w") (Returned (folder_stat "file:///w")));
        Core (Resolve (Some "file:///w/notes.txt")
                (Returned (file_stat "file:///w/notes.txt")));
        OpenerOpen "file:///w/notes.txt" (Returned tt)].
Proof. cbn zeta. split; reflexivity. Qed.

(** The workspace file of the disk is opened; one that is not there is not. *)
Example open_workspace_file_that_exists :
  run_outcome (doOpenWorkspace (desk [Some (Single "file:///w/a.theia-workspace")] [] []))
  = Returned (Some "file:///w/a.theia-workspace")
  /\ opened (run_world
               (doOpenWorkspace (desk [Some (Single "file:///w/a.theia-workspace")] [] [])))
     = Some "file:///w/a.theia-workspace"
  /\ run_outcome (doOpenWorkspace (desk [Some (Single "file:///w/b.theia-workspace")] [] []))
     = Returned None.
Proof. repeat split; reflexivity. Qed.

(** Names given for a new file in [file:///w]. *)
Example names_in_the_folder :
  let validate := fun name nested =>
    outcome (validateFileName name (folder_stat "file:///w") nested (desk [] [] [])) in
  validate "new.txt" false = Returned ""
  /\ validate "notes.txt" false
     = Returned "A file or folder **{0}** already exists at this location. Please choose a different name."
  /\ validate "src/new.txt" true = Returned ""
  /\ validate "src/new.txt" false
     = Returned "The name **{0}** is not valid as a file or folder name. Please choose a different name."
  /\ validate "src//new.txt" true = Returned "'{0}' is not a valid file name"
  /\ validate " new.txt" true
     = Returned "Leading or trailing whitespace detected in file or folder name.".
Proof. cbn zeta. repeat split; reflexivity. Qed.

(** A name of 34 characters. *)
Example long_name_is_cut :
  trimFileName "a_very_long_name_for_a_source_file" = "a_very_long_name_for_a_source_..."
  /\ trimFileName "short.rs" = "short.rs".
Proof. split; reflexivity. Qed.

(** A name of 29 letters, the character U+1F600 (the bytes F0 9F 98 80, two
    code units) and three more letters: the thirtieth code unit is the high
    surrogate D83D of that character, the bytes ED A0 BD, and the result has
    33 code units. *)
Example long_name_is_cut_inside_a_character :
  let letters := "aaaaaaaaaaaaaaaaaaaaaaaaaaaaa" in
  let face := String (ascii_of_nat 240) (String (ascii_of_nat 159)
                (String (ascii_of_nat 152) (String (ascii_of_nat 128) EmptyString))) in
  let half := String (ascii_of_nat 237) (String (ascii_of_nat 160)
                (String (ascii_of_nat 189) EmptyString)) in
  JsText.utf16_length (letters +:+ face +:+ "bbb") = 34%nat
  /\ trimFileName (letters +:+ face +:+ "bbb") = letters +:+ half +:+ "..."
  /\ JsText.utf16_length (trimFileName (letters +:+ face +:+ "bbb")) = 33%nat.
Proof. cbn zeta. repeat split; vm_compute; reflexivity. Qed.

End MoreRuns.
